(** * ESP-01 raw 802.11 radio bridge: UART ring buffers, frame codec,
      receive filter and packet reassembly.

    A shallow embedding of [src/uart.c], [src/wifi_raw.c] and the timer
    callback of [src/main.c].  C integers are [Z] with their wrap-around
    written out, arrays are lists updated by index, the static variables of
    each compilation unit are the fields of a record that is threaded
    through the functions, and what the hardware or the SDK decides (an
    interrupt status bit, the result of [wifi_send_pkt_freedom]) is an
    argument of the function that reads it. *)

From stdpp Require Import base list.
From Stdlib Require Import ZArith Lia.

Local Open Scope Z_scope.

(* ================================================================== *)
(** * Machine integers                                                  *)
(* ================================================================== *)

Definition u8 (x : Z) : Z := Z.land x 255.
Definition u16 (x : Z) : Z := x mod 65536.
Definition u32 (x : Z) : Z := x mod 4294967296.

Definition is_byte (b : Z) : Prop := 0 <= b < 256.

(* ================================================================== *)
(** * user_config.h                                                     *)
(* ================================================================== *)

Definition UART_RX_BUFFER_SIZE : Z := 1024.
Definition UART_TX_BUFFER_SIZE : Z := 1024.
Definition MAX_PACKET_SIZE : Z := 256.
Definition IEEE80211_HEADER_SIZE : Z := 24.
Definition IEEE80211_FCTL_FTYPE : Z := 12.      (* 0x000C *)
Definition IEEE80211_FCTL_MGMT : Z := 0.        (* 0x0000 *)
Definition IEEE80211_FC_PROBE_REQ : Z := 64.    (* 0x0040 *)
Definition TX_FRAME_BUFFER_SIZE : Z := IEEE80211_HEADER_SIZE + MAX_PACKET_SIZE.
Definition CUSTOM_BSSID : list Z := [170; 187; 204; 221; 238; 0].
Definition BROADCAST_MAC : list Z := [255; 255; 255; 255; 255; 255].
Definition LED_ON : Z := 0.
Definition LED_OFF : Z := 1.

(* ================================================================== *)
(** * uart.c                                                            *)
(* ================================================================== *)

(** The statics of uart.c.  [txfifo_empty_int_ena] is the
    UART_TXFIFO_EMPTY_INT_ENA bit of the interrupt-enable register and
    [uart_fifo_out] the bytes written to the hardware transmit FIFO, oldest
    first. *)
Record uart_state : Type := mkUart {
  uart_rx_buffer : list Z;
  uart_rx_head : Z;
  uart_rx_tail : Z;
  uart_tx_buffer : list Z;
  uart_tx_head : Z;
  uart_tx_tail : Z;
  uart_rx_overflow_count : Z;
  uart_tx_overflow_count : Z;
  txfifo_empty_int_ena : bool;
  uart_fifo_out : list Z
}.

Definition RX_BUFFER_MASK : Z := UART_RX_BUFFER_SIZE - 1.
Definition TX_BUFFER_MASK : Z := UART_TX_BUFFER_SIZE - 1.
Definition RX_INCREMENT (idx : Z) : Z := Z.land (idx + 1) RX_BUFFER_MASK.
Definition TX_INCREMENT (idx : Z) : Z := Z.land (idx + 1) TX_BUFFER_MASK.

(** [a[i]] and [a[i] = v] on a C array. *)
Definition aget (a : list Z) (i : Z) : Z := a !!! Z.to_nat i.
Definition aset (a : list Z) (i : Z) (v : Z) : list Z := <[Z.to_nat i := v]> a.

(** Body of the receive loops of [uart0_rx_intr_handler], for the byte
    [reg] read from the FIFO register. *)
Definition rx_store (reg : Z) (s : uart_state) : uart_state :=
  let byte := u8 reg in
  let next_head := RX_INCREMENT (uart_rx_head s) in
  if negb (next_head =? uart_rx_tail s) then
    mkUart (aset (uart_rx_buffer s) (uart_rx_head s) byte) next_head
           (uart_rx_tail s) (uart_tx_buffer s) (uart_tx_head s) (uart_tx_tail s)
           (uart_rx_overflow_count s) (uart_tx_overflow_count s)
           (txfifo_empty_int_ena s) (uart_fifo_out s)
  else
    mkUart (uart_rx_buffer s) (uart_rx_head s)
           (uart_rx_tail s) (uart_tx_buffer s) (uart_tx_head s) (uart_tx_tail s)
           (u32 (uart_rx_overflow_count s + 1)) (uart_tx_overflow_count s)
           (txfifo_empty_int_ena s) (uart_fifo_out s).

(** [while (rx_fifo_len > 0) { ...; rx_fifo_len--; }]: [fifo] holds the
    [rx_fifo_len] register values the hardware FIFO hands out. *)
Fixpoint rx_drain (fifo : list Z) (s : uart_state) : uart_state :=
  match fifo with
  | [] => s
  | reg :: rest => rx_drain rest (rx_store reg s)
  end.

(** [full_st] and [tout_st] are the UART_RXFIFO_FULL_INT_ST and
    UART_RXFIFO_TOUT_INT_ST bits of the status word; [fifo_full] and
    [fifo_tout] the FIFO contents counted by each of the two blocks. *)
Definition uart0_rx_intr_handler (full_st tout_st : bool)
    (fifo_full fifo_tout : list Z) (s : uart_state) : uart_state :=
  let s1 := if full_st then rx_drain fifo_full s else s in
  if tout_st then rx_drain fifo_tout s1 else s1.

(** The loop of [uart0_tx_intr_handler]; [tx_fifo_space] counts down from
    128. *)
Fixpoint tx_drain (tx_fifo_space : nat) (s : uart_state) : uart_state :=
  match tx_fifo_space with
  | O => s
  | S space' =>
      if negb (uart_tx_tail s =? uart_tx_head s) then
        tx_drain space'
          (mkUart (uart_rx_buffer s) (uart_rx_head s) (uart_rx_tail s)
                  (uart_tx_buffer s) (uart_tx_head s)
                  (TX_INCREMENT (uart_tx_tail s))
                  (uart_rx_overflow_count s) (uart_tx_overflow_count s)
                  (txfifo_empty_int_ena s)
                  (uart_fifo_out s ++ [aget (uart_tx_buffer s) (uart_tx_tail s)]))
      else s
  end.

Definition set_txfifo_empty_int_ena (b : bool) (s : uart_state) : uart_state :=
  mkUart (uart_rx_buffer s) (uart_rx_head s) (uart_rx_tail s)
         (uart_tx_buffer s) (uart_tx_head s) (uart_tx_tail s)
         (uart_rx_overflow_count s) (uart_tx_overflow_count s)
         b (uart_fifo_out s).

(** [txfifo_empty_st] is the UART_TXFIFO_EMPTY_INT_ST bit of the status
    word the handler reads. *)
Definition uart0_tx_intr_handler (txfifo_empty_st : bool) (s : uart_state)
    : uart_state :=
  if txfifo_empty_st then
    let s1 := tx_drain 128 s in
    if uart_tx_tail s1 =? uart_tx_head s1
    then set_txfifo_empty_int_ena false s1
    else s1
  else s.

(** [uart_init]: only the ring indices, the counters and the enable bit are
    modelled; the buffers keep what they hold. *)
Definition uart_init (s : uart_state) : uart_state :=
  mkUart (uart_rx_buffer s) 0 0 (uart_tx_buffer s) 0 0 0 0 false (uart_fifo_out s).

Definition uart_rx_available (s : uart_state) : Z :=
  let head := uart_rx_head s in
  let tail := uart_rx_tail s in
  if head >=? tail then u16 (head - tail)
  else u16 (UART_RX_BUFFER_SIZE - tail + head).

(** The loop of [uart_read_bytes]; [n] bounds the iterations left
    ([max_len - count]).  The bytes stored to [buffer[0..count)] are
    returned; [count] is their number. *)
Fixpoint rx_read_loop (n : nat) (s : uart_state) : list Z * uart_state :=
  match n with
  | O => ([], s)
  | S n' =>
      if negb (uart_rx_tail s =? uart_rx_head s) then
        let b := aget (uart_rx_buffer s) (uart_rx_tail s) in
        let s' := mkUart (uart_rx_buffer s) (uart_rx_head s)
                         (RX_INCREMENT (uart_rx_tail s))
                         (uart_tx_buffer s) (uart_tx_head s) (uart_tx_tail s)
                         (uart_rx_overflow_count s) (uart_tx_overflow_count s)
                         (txfifo_empty_int_ena s) (uart_fifo_out s) in
        let '(bs, s'') := rx_read_loop n' s' in
        (b :: bs, s'')
      else ([], s)
  end.

Definition uart_read_bytes (max_len : Z) (s : uart_state) : list Z * uart_state :=
  rx_read_loop (Z.to_nat max_len) s.

Definition uart_read_byte (s : uart_state) : option Z * uart_state :=
  if uart_rx_tail s =? uart_rx_head s then (None, s)
  else
    (Some (aget (uart_rx_buffer s) (uart_rx_tail s)),
     mkUart (uart_rx_buffer s) (uart_rx_head s)
            (RX_INCREMENT (uart_rx_tail s))
            (uart_tx_buffer s) (uart_tx_head s) (uart_tx_tail s)
            (uart_rx_overflow_count s) (uart_tx_overflow_count s)
            (txfifo_empty_int_ena s) (uart_fifo_out s)).

(** The loop of [uart_write_bytes] over the bytes [data[count..len)] still
    to be offered. *)
Fixpoint tx_write_loop (data : list Z) (count : Z) (s : uart_state)
    : Z * uart_state :=
  match data with
  | [] => (count, s)
  | d :: rest =>
      let next_head := TX_INCREMENT (uart_tx_head s) in
      if next_head =? uart_tx_tail s then
        (count,
         mkUart (uart_rx_buffer s) (uart_rx_head s) (uart_rx_tail s)
                (uart_tx_buffer s) (uart_tx_head s) (uart_tx_tail s)
                (uart_rx_overflow_count s) (u32 (uart_tx_overflow_count s + 1))
                (txfifo_empty_int_ena s) (uart_fifo_out s))
      else
        tx_write_loop rest (count + 1)
          (mkUart (uart_rx_buffer s) (uart_rx_head s) (uart_rx_tail s)
                  (aset (uart_tx_buffer s) (uart_tx_head s) d) next_head
                  (uart_tx_tail s)
                  (uart_rx_overflow_count s) (uart_tx_overflow_count s)
                  (txfifo_empty_int_ena s) (uart_fifo_out s))
  end.

(** [uart_write_bytes(data, len)]: [data] is the list of the [len] bytes the
    pointer addresses; [txfifo_empty_st] is the status bit read by the
    manual call of the transmit handler.  The body runs with UART
    interrupts disabled, so nothing else touches the statics meanwhile. *)
Definition uart_write_bytes (data : list Z) (txfifo_empty_st : bool)
    (s : uart_state) : Z * uart_state :=
  let '(count, s1) := tx_write_loop data 0 s in
  let s2 :=
    if negb (uart_tx_tail s1 =? uart_tx_head s1) then
      uart0_tx_intr_handler txfifo_empty_st (set_txfifo_empty_int_ena true s1)
    else s1 in
  (count, s2).

Definition uart_write_byte (byte : Z) (txfifo_empty_st : bool) (s : uart_state)
    : bool * uart_state :=
  let '(n, s') := uart_write_bytes [byte] txfifo_empty_st s in
  (n =? 1, s').

Definition uart_get_rx_overflow_count (s : uart_state) : Z := uart_rx_overflow_count s.
Definition uart_get_tx_overflow_count (s : uart_state) : Z := uart_tx_overflow_count s.

Definition uart_reset_stats (s : uart_state) : uart_state :=
  mkUart (uart_rx_buffer s) (uart_rx_head s) (uart_rx_tail s)
         (uart_tx_buffer s) (uart_tx_head s) (uart_tx_tail s)
         0 0 (txfifo_empty_int_ena s) (uart_fifo_out s).

(* ================================================================== *)
(** * wifi_raw.h / wifi_raw.c                                           *)
(* ================================================================== *)

(** [struct ieee80211_hdr] (packed, 24 bytes). *)
Record ieee80211_hdr : Type := mkHdr {
  frame_control : Z;
  duration_id : Z;
  addr1 : list Z;
  addr2 : list Z;
  addr3 : list Z;
  seq_ctrl : Z
}.

(** The fields of [struct RxControl] the firmware reads.  The bit-fields of
    the declaration add up to three 32-bit words. *)
Record RxControl : Type := mkRxControl {
  rssi : Z;
  sig_mode : Z;
  legacy_length : Z
}.

Definition sizeof_RxControl : Z := 12.

(** Where a store to the volatile [tx_ready] is made. *)
Inductive site : Type := InRawSend | InTxCb.

(** Observable events of wifi_raw.c: entries of [wifi_raw_send], calls of
    the SDK's [wifi_send_pkt_freedom] with the frame handed over and the
    result it gave, and stores to the volatile flag [tx_ready]. *)
Inductive event : Type :=
| EvRawSend (raw_data : option (list Z)) (len : Z)
| EvPktFreedom (frame : list Z) (frame_len : Z) (result : Z)
| EvTxReady (who : site) (v : Z).

(** The statics of wifi_raw.c.  [sta_macaddr] is what the SDK's
    [wifi_get_macaddr(STATION_IF, _)] writes; [wifi_trace] lists the
    events so far, oldest first. *)
Record wifi_state : Type := mkWifi {
  tx_frame_buffer : list Z;
  tx_sequence : Z;
  tx_ready : Z;
  tx_count : Z;
  rx_count : Z;
  tx_error_count : Z;
  rx_drop_count : Z;
  sta_macaddr : list Z;
  wifi_trace : list event
}.

Definition broadcast_mac : list Z := BROADCAST_MAC.
Definition custom_bssid : list Z := CUSTOM_BSSID.

(** A store of [src] at [dst + off]; [None] when it leaves the array. *)
Definition mem_write (dst : list Z) (off : Z) (src : list Z) : option (list Z) :=
  if (0 <=? off) && (off + Z.of_nat (length src) <=? Z.of_nat (length dst)) then
    Some (take (Z.to_nat off) dst ++ src
            ++ drop (Z.to_nat off + length src) dst)
  else None.

(** A 16-bit field in memory, low byte first (user_config.h: frame control
    0x0040 is byte 0 = 0x40, byte 1 = 0x00). *)
Definition le16 (x : Z) : list Z := [Z.land x 255; Z.land (Z.shiftr x 8) 255].

Definition hdr_bytes (h : ieee80211_hdr) : list Z :=
  le16 (frame_control h) ++ le16 (duration_id h)
    ++ addr1 h ++ addr2 h ++ addr3 h ++ le16 (seq_ctrl h).

(** [build_80211_header]: the header it fills in, and the statics after. *)
Definition build_80211_header (w : wifi_state) : ieee80211_hdr * wifi_state :=
  (mkHdr IEEE80211_FC_PROBE_REQ 0
         (take 6 broadcast_mac) (sta_macaddr w) (take 6 custom_bssid)
         (Z.land (Z.shiftl (tx_sequence w) 4) 65520),
   mkWifi (tx_frame_buffer w) (u16 (tx_sequence w + 1)) (tx_ready w)
          (tx_count w) (rx_count w) (tx_error_count w) (rx_drop_count w)
          (sta_macaddr w) (wifi_trace w)).

Definition log_event (e : event) (w : wifi_state) : wifi_state :=
  mkWifi (tx_frame_buffer w) (tx_sequence w) (tx_ready w)
         (tx_count w) (rx_count w) (tx_error_count w) (rx_drop_count w)
         (sta_macaddr w) (wifi_trace w ++ [e]).

Definition store_tx_ready (who : site) (v : Z) (w : wifi_state) : wifi_state :=
  mkWifi (tx_frame_buffer w) (tx_sequence w) v
         (tx_count w) (rx_count w) (tx_error_count w) (rx_drop_count w)
         (sta_macaddr w) (wifi_trace w ++ [EvTxReady who v]).

Definition wifi_freedom_tx_cb (status : Z) (w : wifi_state) : wifi_state :=
  store_tx_ready InTxCb 1 w.

Definition incr_tx_error_count (w : wifi_state) : wifi_state :=
  mkWifi (tx_frame_buffer w) (tx_sequence w) (tx_ready w)
         (tx_count w) (rx_count w) (u32 (tx_error_count w + 1)) (rx_drop_count w)
         (sta_macaddr w) (wifi_trace w).

Definition incr_tx_count (w : wifi_state) : wifi_state :=
  mkWifi (tx_frame_buffer w) (tx_sequence w) (tx_ready w)
         (u32 (tx_count w + 1)) (rx_count w) (tx_error_count w) (rx_drop_count w)
         (sta_macaddr w) (wifi_trace w).

Definition incr_rx_count (w : wifi_state) : wifi_state :=
  mkWifi (tx_frame_buffer w) (tx_sequence w) (tx_ready w)
         (tx_count w) (u32 (rx_count w + 1)) (tx_error_count w) (rx_drop_count w)
         (sta_macaddr w) (wifi_trace w).

Definition incr_rx_drop_count (w : wifi_state) : wifi_state :=
  mkWifi (tx_frame_buffer w) (tx_sequence w) (tx_ready w)
         (tx_count w) (rx_count w) (tx_error_count w) (u32 (rx_drop_count w + 1))
         (sta_macaddr w) (wifi_trace w).

Definition set_tx_frame_buffer (b : list Z) (w : wifi_state) : wifi_state :=
  mkWifi b (tx_sequence w) (tx_ready w)
         (tx_count w) (rx_count w) (tx_error_count w) (rx_drop_count w)
         (sta_macaddr w) (wifi_trace w).

(** The two stores of [wifi_raw_send] into [tx_frame_buffer]: the header
    through the [struct ieee80211_hdr *] cast, then
    [os_memcpy(tx_frame_buffer + IEEE80211_HEADER_SIZE, raw_data, len)]. *)
Definition assemble_frame (buf : list Z) (hdr : ieee80211_hdr) (data : list Z)
    (len : Z) : option (list Z) :=
  buf ← mem_write buf 0 (hdr_bytes hdr);
  mem_write buf IEEE80211_HEADER_SIZE (take (Z.to_nat len) data).

(** [wifi_raw_send(raw_data, len)].  [raw_data] is [None] for a NULL
    pointer and otherwise the memory it points to; [len] is a uint16_t
    value; [sdk_result] is what [wifi_send_pkt_freedom] returns.  The
    result is [None] when a store leaves [tx_frame_buffer].  Only stores
    are checked: a copy of more bytes than [raw_data] holds copies what
    there is. *)
Definition wifi_raw_send (raw_data : option (list Z)) (len : Z) (sdk_result : Z)
    (w : wifi_state) : option (Z * wifi_state) :=
  let w := log_event (EvRawSend raw_data len) w in
  match raw_data with
  | None => Some (-1, incr_tx_error_count w)
  | Some data =>
      if (len =? 0) || (len >? MAX_PACKET_SIZE) then
        Some (-1, incr_tx_error_count w)
      else if tx_ready w =? 0 then
        Some (-1, incr_tx_error_count w)
      else
        let '(hdr, w) := build_80211_header w in
        buf ← assemble_frame (tx_frame_buffer w) hdr data len;
        let w := set_tx_frame_buffer buf w in
        let frame_len := u16 (IEEE80211_HEADER_SIZE + len) in
        let w := store_tx_ready InRawSend 0 w in
        let w := log_event (EvPktFreedom (take (Z.to_nat frame_len) buf)
                              frame_len sdk_result) w in
        if sdk_result =? 0 then Some (sdk_result, incr_tx_count w)
        else Some (sdk_result, incr_tx_error_count (store_tx_ready InRawSend 1 w))
  end.

(** [os_memcmp] on the first [n] bytes: zero exactly when they agree. *)
Fixpoint os_memcmp (a b : list Z) (n : nat) : Z :=
  match n with
  | O => 0
  | S n' =>
      let x := hd 0 a in
      let y := hd 0 b in
      if x =? y then os_memcmp (tl a) (tl b) n' else x - y
  end.

(** The buffer handed to the promiscuous callback, seen through the casts
    the callback makes: the metadata block, the MAC header after it, and
    the bytes that follow the header in memory. *)
Record capture : Type := mkCapture {
  cap_rx_ctrl : RxControl;
  cap_hdr : ieee80211_hdr;
  cap_payload : list Z
}.

(** [wifi_promiscuous_rx_cb(buf, len)]; [st1] and [st2] are the status
    bits read inside the two [uart_write_bytes] calls. *)
Definition wifi_promiscuous_rx_cb (buf : capture) (len : Z) (st1 st2 : bool)
    (w : wifi_state) (u : uart_state) : wifi_state * uart_state :=
  let rx_ctrl := cap_rx_ctrl buf in
  if negb (sig_mode rx_ctrl =? 0) || (len <? sizeof_RxControl + 28) then
    (incr_rx_drop_count w, u)
  else
    let hdr := cap_hdr buf in
    let frame_type := Z.land (frame_control hdr) IEEE80211_FCTL_FTYPE in
    if negb (frame_type =? IEEE80211_FCTL_MGMT) then
      (incr_rx_drop_count w, u)
    else if negb (os_memcmp (addr3 hdr) custom_bssid 6 =? 0) then
      (incr_rx_drop_count w, u)
    else
      let payload := cap_payload buf in
      let payload_len := u16 (legacy_length rx_ctrl - IEEE80211_HEADER_SIZE - 4) in
      if payload_len >? MAX_PACKET_SIZE then
        (incr_rx_drop_count w, u)
      else
        let w := incr_rx_count w in
        let len_prefix := [Z.land (Z.shiftr payload_len 8) 255; Z.land payload_len 255] in
        let '(_, u) := uart_write_bytes len_prefix st1 u in
        let '(_, u) := uart_write_bytes (take (Z.to_nat payload_len) payload) st2 u in
        (w, u).

(** [wifi_raw_init]: the statics it resets. *)
Definition wifi_raw_init (w : wifi_state) : wifi_state :=
  mkWifi (tx_frame_buffer w) 0 (tx_ready w) 0 0 0 0 (sta_macaddr w) (wifi_trace w).

Definition wifi_get_tx_count (w : wifi_state) : Z := tx_count w.
Definition wifi_get_rx_count (w : wifi_state) : Z := rx_count w.
Definition wifi_get_tx_error_count (w : wifi_state) : Z := tx_error_count w.
Definition wifi_get_rx_drop_count (w : wifi_state) : Z := rx_drop_count w.

Definition wifi_reset_stats (w : wifi_state) : wifi_state :=
  mkWifi (tx_frame_buffer w) (tx_sequence w) (tx_ready w) 0 0 0 0
         (sta_macaddr w) (wifi_trace w).

(* ================================================================== *)
(** * main.c                                                            *)
(* ================================================================== *)

(** The statics of main.c and the level driven on the LED pin. *)
Record main_state : Type := mkMain {
  packet_buffer : list Z;
  led_counter : Z;
  heartbeat_counter : Z;
  pkt_expected : Z;
  pkt_received : Z;
  led_gpio : Z
}.

Record system : Type := mkSystem {
  sys_uart : uart_state;
  sys_wifi : wifi_state;
  sys_main : main_state
}.

(** First half of the bridge block: the length prefix. *)
Definition bridge_header (m : main_state) (u : uart_state) : main_state * uart_state :=
  if pkt_expected m =? 0 then
    if uart_rx_available u >=? 2 then
      let '(len_bytes, u) := uart_read_bytes 2 u in
      let expected := u16 (Z.lor (Z.shiftl (aget len_bytes 0) 8) (aget len_bytes 1)) in
      let expected :=
        if (expected =? 0) || (expected >? MAX_PACKET_SIZE) then 0 else expected in
      (mkMain (packet_buffer m) (led_counter m) (heartbeat_counter m)
              expected 0 (led_gpio m), u)
    else (m, u)
  else (m, u).

(** Second half of the bridge block: accumulate, and send when complete. *)
Definition bridge_payload (sdk_result : Z) (m : main_state) (u : uart_state)
    (w : wifi_state) : option (main_state * uart_state * wifi_state) :=
  if pkt_expected m >? 0 then
    let remaining := u16 (pkt_expected m - pkt_received m) in
    let avail := uart_rx_available u in
    let to_read := if avail <? remaining then avail else remaining in
    '(m, u) ←
      (if to_read >? 0 then
         let '(bytes, u) := uart_read_bytes to_read u in
         buf ← mem_write (packet_buffer m) (pkt_received m) bytes;
         Some (mkMain buf (led_counter m) (heartbeat_counter m) (pkt_expected m)
                      (u16 (pkt_received m + Z.of_nat (length bytes))) (led_gpio m), u)
       else Some (m, u));
    if pkt_received m >=? pkt_expected m then
      '(_, w) ← wifi_raw_send (Some (packet_buffer m)) (pkt_expected m) sdk_result w;
      Some (mkMain (packet_buffer m) (led_counter m) (heartbeat_counter m)
                   0 0 (led_gpio m), u, w)
    else Some (m, u, w)
  else Some (m, u, w).

(** The LED and heartbeat counters at the head of the callback (the
    heartbeat text itself is not modelled). *)
Definition led_heartbeat (m : main_state) : main_state :=
  let led := u32 (led_counter m + 1) in
  let '(led, gpio) :=
    if led =? 500 then (led, LED_ON)
    else if led =? 505 then (0, LED_OFF)
    else (led, led_gpio m) in
  let hb := u32 (heartbeat_counter m + 1) in
  let hb := if hb >=? 500 then 0 else hb in
  mkMain (packet_buffer m) led hb (pkt_expected m) (pkt_received m) gpio.

(** [main_timer_callback]: one tick.  [sdk_result] is the result of
    [wifi_send_pkt_freedom], should the tick reach it. *)
Definition main_timer_callback (sdk_result : Z) (sys : system) : option system :=
  let m := led_heartbeat (sys_main sys) in
  let '(m, u) := bridge_header m (sys_uart sys) in
  '(m, u, w) ← bridge_payload sdk_result m u (sys_wifi sys);
  Some (mkSystem u w m).

(* ================================================================== *)
(** * What a ring holds                                                 *)
(* ================================================================== *)

(** The [n] cells of a 1024-byte ring from index [tail] on, wrapping. *)
Fixpoint ring_slice (buf : list Z) (n : nat) (tail : Z) : list Z :=
  match n with
  | O => []
  | S n' => aget buf tail :: ring_slice buf n' (Z.land (tail + 1) 1023)
  end.

Definition ring_occupancy (head tail : Z) : Z := (head - tail) mod 1024.

Definition ring_contents (buf : list Z) (head tail : Z) : list Z :=
  ring_slice buf (Z.to_nat (ring_occupancy head tail)) tail.

Definition ring_wf (buf : list Z) (head tail : Z) : Prop :=
  length buf = 1024%nat /\ 0 <= head < 1024 /\ 0 <= tail < 1024.

(** Bytes waiting in the receive ring, oldest first, and its invariant. *)
Definition rx_contents (s : uart_state) : list Z :=
  ring_contents (uart_rx_buffer s) (uart_rx_head s) (uart_rx_tail s).
Definition rx_wf (s : uart_state) : Prop :=
  ring_wf (uart_rx_buffer s) (uart_rx_head s) (uart_rx_tail s).

(** Bytes waiting in the transmit ring, oldest first, and its invariant. *)
Definition tx_contents (s : uart_state) : list Z :=
  ring_contents (uart_tx_buffer s) (uart_tx_head s) (uart_tx_tail s).
Definition tx_wf (s : uart_state) : Prop :=
  ring_wf (uart_tx_buffer s) (uart_tx_head s) (uart_tx_tail s).

(** Free slots of the transmit ring: one of the 1024 cells stays empty. *)
Definition tx_free (s : uart_state) : Z :=
  UART_TX_BUFFER_SIZE - 1 - ring_occupancy (uart_tx_head s) (uart_tx_tail s).

Ltac zmod := Z.div_mod_to_equations; lia.

(* ================================================================== *)
(** * Well-formed and boot states                                       *)
(* ================================================================== *)

Definition wifi_wf (w : wifi_state) : Prop :=
  length (tx_frame_buffer w) = Z.to_nat TX_FRAME_BUFFER_SIZE
  /\ length (sta_macaddr w) = 6%nat.

(** The statics as the C initialisers and [uart_init] leave them; [mac] is
    the station address. *)
Definition uart_boot : uart_state :=
  mkUart (replicate 1024 0) 0 0 (replicate 1024 0) 0 0 0 0 false [].
Definition wifi_boot (mac : list Z) : wifi_state :=
  mkWifi (replicate 280 0) 0 1 0 0 0 0 mac [].
Definition main_boot : main_state := mkMain (replicate 256 0) 0 0 0 0 LED_OFF.
Definition system_boot (mac : list Z) : system :=
  mkSystem uart_boot (wifi_boot mac) main_boot.

(** A transmit ring with [n] bytes queued from index 0 on. *)
Definition uart_tx_filled (n : Z) : uart_state :=
  mkUart (replicate 1024 0) 0 0 (replicate 1024 7) n 0 0 0 false [].

(* ================================================================== *)
(** * The bounded queue of the specification                            *)
(* ================================================================== *)

(** Modelled from the spec's words (CircularChannel, capacity N with one
    slot reserved): a queue of at most N - 1 = 1023 bytes; a write accepts
    the bytes that fit, a read hands out the oldest bytes. *)
Definition fifo_capacity : nat := 1023.

Definition fifo_write (data : list Z) (q : list Z) : nat * list Z :=
  let accepted := take (fifo_capacity - length q) data in
  (length accepted, q ++ accepted).

Definition fifo_read (max : nat) (q : list Z) : list Z * list Z :=
  (take max q, drop max q).

(** Producer and consumer calls on the receive ring. *)
Inductive rx_op : Type :=
| RxIntr (full_st tout_st : bool) (fifo_full fifo_tout : list Z)
| RxRead (max_len : Z).

(** Bytes a receive interrupt takes from the hardware FIFO. *)
Definition rx_intr_bytes (full_st tout_st : bool) (fifo_full fifo_tout : list Z)
    : list Z :=
  (if full_st then fifo_full else []) ++ (if tout_st then fifo_tout else []).

(** Runs the calls on the ring; the result is the bytes the reads returned
    and the final state. *)
Fixpoint rx_run (ops : list rx_op) (s : uart_state) : list Z * uart_state :=
  match ops with
  | [] => ([], s)
  | RxIntr full_st tout_st fifo_full fifo_tout :: rest =>
      rx_run rest (uart0_rx_intr_handler full_st tout_st fifo_full fifo_tout s)
  | RxRead max_len :: rest =>
      let '(bs, s) := uart_read_bytes max_len s in
      let '(out, s) := rx_run rest s in
      (bs ++ out, s)
  end.

(** The same calls on the queue of the specification, started from [q]:
    bytes accepted, bytes read, final queue. *)
Fixpoint rx_run_fifo (ops : list rx_op) (q : list Z)
    : list Z * list Z * list Z :=
  match ops with
  | [] => ([], [], q)
  | RxIntr full_st tout_st fifo_full fifo_tout :: rest =>
      let data := map u8 (rx_intr_bytes full_st tout_st fifo_full fifo_tout) in
      let '(n, q) := fifo_write data q in
      let '(acc, out, q) := rx_run_fifo rest q in
      (take n data ++ acc, out, q)
  | RxRead max_len :: rest =>
      let '(bs, q) := fifo_read (Z.to_nat max_len) q in
      let '(acc, out, q) := rx_run_fifo rest q in
      (acc, bs ++ out, q)
  end.

(** Producer and consumer calls on the transmit ring. *)
Inductive tx_op : Type :=
| TxWrite (data : list Z) (txfifo_empty_st : bool)
| TxIntr (txfifo_empty_st : bool).

(** Runs the calls on the ring; the result is the bytes the writes accepted
    and the final state (what was read is [uart_fifo_out]). *)
Fixpoint tx_run (ops : list tx_op) (s : uart_state) : list Z * uart_state :=
  match ops with
  | [] => ([], s)
  | TxWrite data st :: rest =>
      let '(n, s) := uart_write_bytes data st s in
      let '(acc, s) := tx_run rest s in
      (take (Z.to_nat n) data ++ acc, s)
  | TxIntr st :: rest => tx_run rest (uart0_tx_intr_handler st s)
  end.

(** The same calls on the queue of the specification. *)
Fixpoint tx_run_fifo (ops : list tx_op) (q : list Z)
    : list Z * list Z * list Z :=
  match ops with
  | [] => ([], [], q)
  | TxWrite data st :: rest =>
      let '(n, q) := fifo_write data q in
      let '(bs, q) := fifo_read (if st then 128 else 0) q in
      let '(acc, out, q) := tx_run_fifo rest q in
      (take n data ++ acc, bs ++ out, q)
  | TxIntr st :: rest =>
      let '(bs, q) := fifo_read (if st then 128 else 0) q in
      let '(acc, out, q) := tx_run_fifo rest q in
      (acc, bs ++ out, q)
  end.

(* ================================================================== *)
(** * Runs of the transmit side and of the bridge                       *)
(* ================================================================== *)

(** Transmissions the SDK accepted, and completion callbacks delivered. *)
Definition is_accepted (e : event) : bool :=
  match e with EvPktFreedom _ _ r => r =? 0 | _ => false end.
Definition is_completion (e : event) : bool :=
  match e with EvTxReady InTxCb _ => true | _ => false end.
Definition is_transmission (e : event) : bool :=
  match e with EvPktFreedom _ _ _ => true | _ => false end.

Definition outstanding (tr : list event) : Z :=
  Z.of_nat (length (List.filter is_accepted tr))
  - Z.of_nat (length (List.filter is_completion tr)).

(** What happens to wifi_raw.c: a call of [wifi_raw_send], or the SDK
    delivering the completion callback. *)
Inductive wifi_step : Type :=
| StepSend (raw_data : option (list Z)) (len : Z) (sdk_result : Z)
| StepTxCb (status : Z).

(** The SDK delivers a completion only for a transmission it accepted and
    has not completed yet; such a step is skipped otherwise. *)
Fixpoint wifi_run (steps : list wifi_step) (w : wifi_state) : option wifi_state :=
  match steps with
  | [] => Some w
  | StepSend raw_data len sdk_result :: rest =>
      '(_, w) ← wifi_raw_send raw_data len sdk_result w;
      wifi_run rest w
  | StepTxCb status :: rest =>
      if 0 <? outstanding (wifi_trace w)
      then wifi_run rest (wifi_freedom_tx_cb status w)
      else wifi_run rest w
  end.

(** Arguments of the [wifi_raw_send] calls in a trace. *)
Fixpoint raw_send_calls (tr : list event) : list (option (list Z) * Z) :=
  match tr with
  | [] => []
  | EvRawSend raw_data len :: rest => (raw_data, len) :: raw_send_calls rest
  | _ :: rest => raw_send_calls rest
  end.

(** What happens to the bridge: a receive interrupt, or a timer tick. *)
Inductive bridge_event : Type :=
| Arrive (full_st tout_st : bool) (fifo_full fifo_tout : list Z)
| Tick (sdk_result : Z).

Definition bridge_step (e : bridge_event) (sys : system) : option system :=
  match e with
  | Arrive full_st tout_st fifo_full fifo_tout =>
      Some (mkSystem
              (uart0_rx_intr_handler full_st tout_st fifo_full fifo_tout (sys_uart sys))
              (sys_wifi sys) (sys_main sys))
  | Tick sdk_result => main_timer_callback sdk_result sys
  end.

Fixpoint bridge_run (sched : list bridge_event) (sys : system) : option system :=
  match sched with
  | [] => Some sys
  | e :: rest => sys ← bridge_step e sys; bridge_run rest sys
  end.

(** [scan sched d t]: the bytes that have arrived by the last tick of
    [sched], when [d] had arrived before [sched] and [t] by the tick before
    it. *)
Fixpoint scan (sched : list bridge_event) (d t : list Z) : list Z :=
  match sched with
  | [] => t
  | Arrive full_st tout_st fifo_full fifo_tout :: rest =>
      scan rest (d ++ rx_intr_bytes full_st tout_st fifo_full fifo_tout) t
  | Tick _ :: rest => scan rest d d
  end.

(** All the bytes a schedule brings in. *)
Fixpoint arrived (sched : list bridge_event) : list Z :=
  match sched with
  | [] => []
  | Arrive full_st tout_st fifo_full fifo_tout :: rest =>
      rx_intr_bytes full_st tout_st fifo_full fifo_tout ++ arrived rest
  | Tick _ :: rest => arrived rest
  end.

(** [LEN_HI][LEN_LO][payload...] *)
Definition length_prefixed (payload : list Z) : list Z :=
  let L := Z.of_nat (length payload) in
  [Z.land (Z.shiftr L 8) 255; Z.land L 255] ++ payload.

(* ================================================================== *)
(** * The receive filter's decision                                     *)
(* ================================================================== *)

(** The four filter stages of [wifi_promiscuous_rx_cb] let the frame
    through. *)
Definition passes_filters (buf : capture) (len : Z) : Prop :=
  sig_mode (cap_rx_ctrl buf) = 0
  /\ sizeof_RxControl + 28 <= len
  /\ Z.land (frame_control (cap_hdr buf)) IEEE80211_FCTL_FTYPE = IEEE80211_FCTL_MGMT
  /\ os_memcmp (addr3 (cap_hdr buf)) custom_bssid 6 = 0
  /\ u16 (legacy_length (cap_rx_ctrl buf) - IEEE80211_HEADER_SIZE - 4) <= MAX_PACKET_SIZE.

(** The payload the callback forwards. *)
Definition rx_payload (buf : capture) : list Z :=
  take (Z.to_nat (u16 (legacy_length (cap_rx_ctrl buf) - IEEE80211_HEADER_SIZE - 4)))
       (cap_payload buf).

(** A frame on the configured link with the given reported length and
    body. *)
Definition link_frame (reported_length : Z) (body : list Z) : capture :=
  mkCapture (mkRxControl (-40) 0 reported_length)
            (mkHdr IEEE80211_FC_PROBE_REQ 0 BROADCAST_MAC [2; 4; 6; 8; 10; 12]
                   CUSTOM_BSSID 0)
            body.

(* ================================================================== *)
(** * Statements that the code does not satisfy                         *)
(* ================================================================== *)

(** The overflow counter grows by the number of bytes refused. *)
Definition overflow_counts_excess : Prop :=
  forall (data : list Z) (st : bool) (s : uart_state),
    tx_wf s -> tx_free s < Z.of_nat (length data) ->
    uart_tx_overflow_count (uart_write_bytes data st s).2
    = u32 (uart_tx_overflow_count s + (Z.of_nat (length data) - tx_free s)).

(** What [uart_write_bytes] accepts comes out of [uart_read_bytes]. *)
Definition write_then_read_returns : Prop :=
  forall (data : list Z) (st : bool),
    Z.of_nat (length data) <= 1023 ->
    (uart_read_bytes (Z.of_nat (length data))
       (uart_write_bytes data st uart_boot).2).1 = data.

(** Only the completion callback stores 1 to [tx_ready]. *)
Definition tx_ready_set_only_by_callback : Prop :=
  forall (steps : list wifi_step) (w w' : wifi_state) (who : site),
    wifi_wf w -> tx_ready w = 1 -> wifi_trace w = [] ->
    wifi_run steps w = Some w' ->
    In (EvTxReady who 1) (wifi_trace w') -> who = InTxCb.

(** With too little room, what reaches the transmit ring is a strict prefix
    of the length-prefixed packet. *)
Definition short_room_appends_strict_prefix : Prop :=
  forall (buf : capture) (len : Z) (st1 st2 : bool) (w : wifi_state) (u : uart_state),
    tx_wf u ->
    passes_filters buf len ->
    Z.of_nat (length (rx_payload buf))
    = u16 (legacy_length (cap_rx_ctrl buf) - IEEE80211_HEADER_SIZE - 4) ->
    tx_free u < Z.of_nat (length (rx_payload buf)) + 2 ->
    exists k : nat,
      (k < length (length_prefixed (rx_payload buf)))%nat
      /\ uart_fifo_out (wifi_promiscuous_rx_cb buf len st1 st2 w u).2
         ++ tx_contents (wifi_promiscuous_rx_cb buf len st1 st2 w u).2
         = uart_fifo_out u ++ tx_contents u ++ take k (length_prefixed (rx_payload buf)).

(** The callback takes the frame: counted as received, not as dropped. *)
Definition accepts (buf : capture) (len : Z) (st1 st2 : bool)
    (w : wifi_state) (u : uart_state) : Prop :=
  rx_count (wifi_promiscuous_rx_cb buf len st1 st2 w u).1 = u32 (rx_count w + 1)
  /\ rx_drop_count (wifi_promiscuous_rx_cb buf len st1 st2 w u).1 = rx_drop_count w.

(** The acceptance law: legacy mode, plausible captured length, management
    type, third address equal to the filter key, and a computed payload
    length that is positive and at most [MAX_PACKET_SIZE]. *)
Definition filter_law (buf : capture) (len : Z) : Prop :=
  sig_mode (cap_rx_ctrl buf) = 0
  /\ sizeof_RxControl + 28 <= len
  /\ Z.land (frame_control (cap_hdr buf)) IEEE80211_FCTL_FTYPE = IEEE80211_FCTL_MGMT
  /\ take 6 (addr3 (cap_hdr buf)) = CUSTOM_BSSID
  /\ 0 < legacy_length (cap_rx_ctrl buf) - 24 - 4 <= MAX_PACKET_SIZE.

(* ================================================================== *)
(** * Invariants                                                        *)
(* ================================================================== *)

(** Traces in which [tx_ready] is stored as the code intends: 0 by
    [wifi_raw_send] right before it hands a frame to the SDK, 1 by
    [wifi_raw_send] right after the SDK refused that frame, and 1 by the
    completion callback. *)
Inductive disciplined : list event -> Prop :=
| disciplined_nil : disciplined []
| disciplined_call tr raw_data len :
    disciplined tr -> disciplined (tr ++ [EvRawSend raw_data len])
| disciplined_sent tr frame frame_len :
    disciplined tr ->
    disciplined (tr ++ [EvTxReady InRawSend 0; EvPktFreedom frame frame_len 0])
| disciplined_refused tr frame frame_len result :
    result <> 0 -> disciplined tr ->
    disciplined (tr ++ [EvTxReady InRawSend 0; EvPktFreedom frame frame_len result;
                        EvTxReady InRawSend 1])
| disciplined_completed tr v :
    disciplined tr -> disciplined (tr ++ [EvTxReady InTxCb v]).

(** The 12-bit sequence number carried in bits 15:4 of [seq_ctrl]. *)
Definition seq_number (h : ieee80211_hdr) : Z := Z.shiftr (seq_ctrl h) 4.
(** The fragment number carried in bits 3:0 of [seq_ctrl]. *)
Definition frag_number (h : ieee80211_hdr) : Z := Z.land (seq_ctrl h) 15.

(** The length a prefix announces, and what the bridge makes of it. *)
Definition announced (b0 b1 : Z) : Z := u16 (Z.lor (Z.shiftl b0 8) b1).
Definition validated (L : Z) : Z :=
  if (L =? 0) || (L >? MAX_PACKET_SIZE) then 0 else L.

(** What holds between calls: the flag is 0 exactly while one accepted
    transmission awaits its completion, and 1 exactly while none does. *)
Definition flag_inv (w : wifi_state) : Prop :=
  wifi_wf w
  /\ disciplined (wifi_trace w)
  /\ ((tx_ready w = 0 /\ outstanding (wifi_trace w) = 1)
      \/ (tx_ready w = 1 /\ outstanding (wifi_trace w) = 0)).

(** What holds of the bridge while the length-prefixed [payload] comes in:
    [d] is what has arrived so far and [t] what had arrived by the last
    tick, [calls0] the [wifi_raw_send] calls made before.  Either the
    prefix has not been read, or [length t - 2] payload bytes sit in the
    packet buffer, or the packet has been handed over, once. *)
Definition bridge_inv (payload : list Z) (calls0 : list (option (list Z) * Z))
    (sys : system) (d t : list Z) : Prop :=
  let m := sys_main sys in
  let u := sys_uart sys in
  let calls := raw_send_calls (wifi_trace (sys_wifi sys)) in
  rx_wf u /\ wifi_wf (sys_wifi sys) /\ length (packet_buffer m) = 256%nat
  /\ d `prefix_of` length_prefixed payload
  /\ t `prefix_of` d
  /\ (((length t < 2)%nat
       /\ pkt_expected m = 0 /\ rx_contents u = d /\ calls = calls0)
      \/ ((2 <= length t < 2 + length payload)%nat
          /\ pkt_expected m = Z.of_nat (length payload)
          /\ pkt_received m = Z.of_nat (length t - 2)
          /\ take (length t - 2) (packet_buffer m) = take (length t - 2) payload
          /\ rx_contents u = drop (length t) d
          /\ calls = calls0)
      \/ (t = length_prefixed payload
          /\ pkt_expected m = 0 /\ rx_contents u = []
          /\ take (length payload) (packet_buffer m) = payload
          /\ calls = calls0 ++ [(Some (packet_buffer m), Z.of_nat (length payload))])).


(* ================================================================== *)
(** * Calls on the UART driver                                          *)
(* ================================================================== *)

(** The functions of uart.c, as calls with their arguments and with what
    the hardware shows them. *)
Inductive uart_call : Type :=
| CallRxIntr (full_st tout_st : bool) (fifo_full fifo_tout : list Z)
| CallTxIntr (txfifo_empty_st : bool)
| CallInit
| CallRead (max_len : Z)
| CallReadByte
| CallWrite (data : list Z) (txfifo_empty_st : bool)
| CallWriteByte (byte : Z) (txfifo_empty_st : bool)
| CallResetStats.

(** The statics after a call (results are dropped). *)
Definition uart_exec (c : uart_call) (s : uart_state) : uart_state :=
  match c with
  | CallRxIntr full_st tout_st fifo_full fifo_tout =>
      uart0_rx_intr_handler full_st tout_st fifo_full fifo_tout s
  | CallTxIntr st => uart0_tx_intr_handler st s
  | CallInit => uart_init s
  | CallRead max_len => (uart_read_bytes max_len s).2
  | CallReadByte => (uart_read_byte s).2
  | CallWrite data st => (uart_write_bytes data st s).2
  | CallWriteByte byte st => (uart_write_byte byte st s).2
  | CallResetStats => uart_reset_stats s
  end.

Fixpoint uart_run (cs : list uart_call) (s : uart_state) : uart_state :=
  match cs with
  | [] => s
  | c :: rest => uart_run rest (uart_exec c s)
  end.

(** Calls that belong to the receive direction, and to the transmit
    direction. *)
Definition rx_side (c : uart_call) : bool :=
  match c with
  | CallRxIntr _ _ _ _ | CallRead _ | CallReadByte => true
  | _ => false
  end.
Definition tx_side (c : uart_call) : bool :=
  match c with
  | CallTxIntr _ | CallWrite _ _ | CallWriteByte _ _ => true
  | _ => false
  end.

(** The statics of one direction are the same in [s] and [s']. *)
Definition same_tx (s s' : uart_state) : Prop :=
  uart_tx_buffer s' = uart_tx_buffer s
  /\ uart_tx_head s' = uart_tx_head s
  /\ uart_tx_tail s' = uart_tx_tail s
  /\ uart_tx_overflow_count s' = uart_tx_overflow_count s
  /\ txfifo_empty_int_ena s' = txfifo_empty_int_ena s
  /\ uart_fifo_out s' = uart_fifo_out s.
Definition same_rx (s s' : uart_state) : Prop :=
  uart_rx_buffer s' = uart_rx_buffer s
  /\ uart_rx_head s' = uart_rx_head s
  /\ uart_rx_tail s' = uart_rx_tail s
  /\ uart_rx_overflow_count s' = uart_rx_overflow_count s.

(* ================================================================== *)
(** * A frame in memory, read back                                      *)
(* ================================================================== *)



(** The transmissions in a trace, and the number of [wifi_raw_send] calls
    among some steps. *)
Definition transmissions (tr : list event) : list event :=
  List.filter is_transmission tr.
Definition is_send (st : wifi_step) : bool :=
  match st with StepSend _ _ _ => true | StepTxCb _ => false end.
Definition count_sends (steps : list wifi_step) : Z :=
  Z.of_nat (length (List.filter is_send steps)).

(* ================================================================== *)
(** * The bridge between ticks                                          *)
(* ================================================================== *)

(** What the statics of main.c satisfy between ticks: the packet buffer
    has its 256 bytes, and either no packet is in progress or one of 1 to
    256 bytes is, with fewer bytes stored than announced. *)
Definition bridge_wf (m : main_state) : Prop :=
  length (packet_buffer m) = 256%nat
  /\ (pkt_expected m = 0
      \/ (0 < pkt_expected m <= MAX_PACKET_SIZE
          /\ 0 <= pkt_received m < pkt_expected m)).

Definition system_wf (sys : system) : Prop :=
  rx_wf (sys_uart sys) /\ wifi_wf (sys_wifi sys) /\ bridge_wf (sys_main sys).

(** Number of ticks in a schedule. *)
Fixpoint count_ticks (sched : list bridge_event) : nat :=
  match sched with
  | [] => 0
  | Tick _ :: rest => S (count_ticks rest)
  | Arrive _ _ _ _ :: rest => count_ticks rest
  end.

(** The bytes a recorded [wifi_raw_send] call was asked to send. *)
Definition call_payload (c : option (list Z) * Z) : list Z :=
  match c.1 with
  | Some data => take (Z.to_nat c.2) data
  | None => []
  end.

(* ================================================================== *)
(** * Ring arithmetic                                                   *)
(* ================================================================== *)

Lemma land_1023 (x : Z) : Z.land x 1023 = x mod 1024.
Proof. change 1023 with (Z.ones 10). rewrite Z.land_ones by lia. reflexivity. Qed.

Lemma ring_occupancy_range (h t : Z) : 0 <= ring_occupancy h t < 1024.
Proof. unfold ring_occupancy. zmod. Qed.

Lemma ring_slice_length (buf : list Z) (n : nat) (t : Z) :
  length (ring_slice buf n t) = n.
Proof. revert t. induction n as [|n IH]; intros t; simpl; [reflexivity|]. now rewrite IH. Qed.

Lemma aget_aset_ne (buf : list Z) (i j v : Z) :
  0 <= i -> 0 <= j -> i <> j -> aget (aset buf i v) j = aget buf j.
Proof.
  intros Hi Hj Hne. unfold aget, aset.
  rewrite list_lookup_total_insert_ne; [reflexivity|lia].
Qed.

Lemma aget_aset_eq (buf : list Z) (i v : Z) :
  0 <= i < Z.of_nat (length buf) -> aget (aset buf i v) i = v.
Proof.
  intros Hi. unfold aget, aset.
  rewrite list_lookup_total_insert_eq; [reflexivity|lia].
Qed.

(** A store outside the slice leaves it alone. *)
Lemma ring_slice_aset (buf : list Z) (n : nat) (t h v : Z) :
  0 <= t < 1024 -> 0 <= h < 1024 ->
  Z.of_nat n <= (h - t) mod 1024 ->
  ring_slice (aset buf h v) n t = ring_slice buf n t.
Proof.
  revert t. induction n as [|n IH]; intros t Ht Hh Hn; simpl; [reflexivity|].
  rewrite land_1023. f_equal.
  - apply aget_aset_ne; try lia. intros ->. rewrite Z.sub_diag in Hn.
    change (0 mod 1024) with 0 in Hn. lia.
  - apply IH; try lia; zmod.
Qed.

Lemma ring_slice_snoc (buf : list Z) (n : nat) (t : Z) :
  0 <= t < 1024 ->
  ring_slice buf (S n) t
  = ring_slice buf n t ++ [aget buf ((t + Z.of_nat n) mod 1024)].
Proof.
  revert t. induction n as [|n IH]; intros t Ht.
  - simpl. f_equal. f_equal. zmod.
  - change (ring_slice buf (S (S n)) t)
      with (aget buf t :: ring_slice buf (S n) (Z.land (t + 1) 1023)).
    rewrite IH by (rewrite land_1023; zmod).
    simpl. f_equal. f_equal. f_equal. f_equal. rewrite land_1023. zmod.
Qed.

(** Storing at [head] and advancing it appends to what the ring holds. *)
Lemma ring_push (buf : list Z) (h t v : Z) :
  ring_wf buf h t -> Z.land (h + 1) 1023 <> t ->
  ring_wf (aset buf h v) (Z.land (h + 1) 1023) t
  /\ ring_occupancy (Z.land (h + 1) 1023) t = ring_occupancy h t + 1
  /\ ring_contents (aset buf h v) (Z.land (h + 1) 1023) t
     = ring_contents buf h t ++ [v].
Proof.
  intros (Hlen & Hh & Ht) Hne. rewrite land_1023 in *.
  assert (Hocc : ring_occupancy ((h + 1) mod 1024) t = ring_occupancy h t + 1).
  { unfold ring_occupancy. zmod. }
  split; [|split]; [|exact Hocc|].
  - unfold ring_wf, aset. rewrite length_insert. repeat split; try lia; zmod.
  - unfold ring_contents. rewrite Hocc.
    pose proof (ring_occupancy_range h t) as Hr.
    replace (Z.to_nat (ring_occupancy h t + 1))
      with (S (Z.to_nat (ring_occupancy h t))) by lia.
    rewrite ring_slice_snoc by lia.
    rewrite Z2Nat.id by lia.
    replace ((t + ring_occupancy h t) mod 1024) with h
      by (unfold ring_occupancy; zmod).
    rewrite aget_aset_eq by lia.
    rewrite ring_slice_aset; try lia; [reflexivity|].
    rewrite Z2Nat.id by lia. unfold ring_occupancy. lia.
Qed.

(** A ring whose next head is the tail holds 1023 bytes. *)
Lemma ring_full (h t : Z) :
  0 <= h < 1024 -> 0 <= t < 1024 ->
  (Z.land (h + 1) 1023 = t <-> ring_occupancy h t = 1023).
Proof. intros Hh Ht. rewrite land_1023. unfold ring_occupancy. split; intros; zmod. Qed.

Lemma ring_empty (h t : Z) :
  0 <= h < 1024 -> 0 <= t < 1024 ->
  (t = h <-> ring_occupancy h t = 0).
Proof. intros Hh Ht. unfold ring_occupancy. split; intros; zmod. Qed.

(** Reading at [tail] and advancing it removes the oldest byte. *)
Lemma ring_pop (buf : list Z) (h t : Z) :
  ring_wf buf h t -> t <> h ->
  ring_wf buf h (Z.land (t + 1) 1023)
  /\ ring_occupancy h (Z.land (t + 1) 1023) = ring_occupancy h t - 1
  /\ ring_contents buf h t
     = aget buf t :: ring_contents buf h (Z.land (t + 1) 1023).
Proof.
  intros (Hlen & Hh & Ht) Hne.
  assert (Hocc : ring_occupancy h (Z.land (t + 1) 1023) = ring_occupancy h t - 1).
  { rewrite land_1023. unfold ring_occupancy. zmod. }
  split; [|split]; [|exact Hocc|].
  - unfold ring_wf. rewrite land_1023. repeat split; try lia; zmod.
  - unfold ring_contents. rewrite Hocc.
    assert (0 < ring_occupancy h t) by (unfold ring_occupancy; zmod).
    replace (Z.to_nat (ring_occupancy h t))
      with (S (Z.to_nat (ring_occupancy h t - 1))) by lia.
    reflexivity.
Qed.

Lemma ring_contents_length (buf : list Z) (h t : Z) :
  Z.of_nat (length (ring_contents buf h t)) = ring_occupancy h t.
Proof.
  unfold ring_contents. rewrite ring_slice_length.
  pose proof (ring_occupancy_range h t). lia.
Qed.

(* ================================================================== *)
(** * The receive ring: interrupt handler in, uart_read_bytes out       *)
(* ================================================================== *)

Lemma rx_store_spec (reg : Z) (s : uart_state) :
  rx_wf s ->
  rx_wf (rx_store reg s)
  /\ (if ring_occupancy (uart_rx_head s) (uart_rx_tail s) <? 1023
      then rx_contents (rx_store reg s) = rx_contents s ++ [u8 reg]
           /\ uart_rx_overflow_count (rx_store reg s) = uart_rx_overflow_count s
      else rx_contents (rx_store reg s) = rx_contents s
           /\ uart_rx_overflow_count (rx_store reg s)
              = u32 (uart_rx_overflow_count s + 1)).
Proof.
  intros Hwf. pose proof Hwf as (Hlen & Hh & Ht).
  pose proof (ring_full _ _ Hh Ht) as Hfull.
  pose proof (ring_occupancy_range (uart_rx_head s) (uart_rx_tail s)) as Hr.
  unfold rx_store, RX_INCREMENT, RX_BUFFER_MASK, UART_RX_BUFFER_SIZE.
  change (1024 - 1) with 1023.
  destruct (Z.eqb_spec (Z.land (uart_rx_head s + 1) 1023) (uart_rx_tail s)) as [E|E];
    simpl negb; cbv iota.
  - apply Hfull in E.
    destruct (Z.ltb_spec (ring_occupancy (uart_rx_head s) (uart_rx_tail s)) 1023);
      [lia|]. split; [exact Hwf|]. split; reflexivity.
  - assert (ring_occupancy (uart_rx_head s) (uart_rx_tail s) <> 1023) by tauto.
    destruct (Z.ltb_spec (ring_occupancy (uart_rx_head s) (uart_rx_tail s)) 1023);
      [|lia].
    destruct (ring_push _ _ _ (u8 reg) Hwf E) as (Hwf' & _ & Hc).
    split; [exact Hwf'|]. split; [exact Hc|reflexivity].
Qed.

(** The receive handler leaves the consumer's index and the transmit side
    alone. *)
Lemma rx_store_frame (reg : Z) (s : uart_state) :
  uart_rx_tail (rx_store reg s) = uart_rx_tail s
  /\ uart_tx_buffer (rx_store reg s) = uart_tx_buffer s
  /\ uart_tx_head (rx_store reg s) = uart_tx_head s
  /\ uart_tx_tail (rx_store reg s) = uart_tx_tail s
  /\ uart_tx_overflow_count (rx_store reg s) = uart_tx_overflow_count s
  /\ uart_fifo_out (rx_store reg s) = uart_fifo_out s.
Proof. unfold rx_store. destruct (negb _); simpl; repeat split. Qed.

Lemma rx_drain_spec (fifo : list Z) (s : uart_state) :
  rx_wf s ->
  rx_wf (rx_drain fifo s)
  /\ rx_contents (rx_drain fifo s)
     = rx_contents s
       ++ take (Z.to_nat (1023 - ring_occupancy (uart_rx_head s) (uart_rx_tail s)))
               (map u8 fifo).
Proof.
  revert s. induction fifo as [|reg rest IH]; intros s Hwf.
  - simpl. rewrite take_nil, app_nil_r. auto.
  - simpl rx_drain. destruct (rx_store_spec reg s Hwf) as (Hwf' & Hs).
    destruct (IH _ Hwf') as (Hwf'' & Hc). split; [exact Hwf''|]. rewrite Hc.
    pose proof (ring_occupancy_range (uart_rx_head s) (uart_rx_tail s)) as Hr.
    pose proof (ring_contents_length (uart_rx_buffer (rx_store reg s))
                  (uart_rx_head (rx_store reg s)) (uart_rx_tail (rx_store reg s))) as Hl'.
    pose proof (ring_contents_length (uart_rx_buffer s)
                  (uart_rx_head s) (uart_rx_tail s)) as Hl.
    fold (rx_contents (rx_store reg s)) in Hl'. fold (rx_contents s) in Hl.
    destruct (Z.ltb_spec (ring_occupancy (uart_rx_head s) (uart_rx_tail s)) 1023)
      as [Hlt|Hge]; destruct Hs as (Hs & _); rewrite Hs in *.
    + rewrite length_app in Hl'. simpl length in Hl'.
      rewrite <- Hl', <- Hl.
      replace (Z.to_nat (1023 - Z.of_nat (length (rx_contents s))))
        with (S (Z.to_nat (1023 - Z.of_nat (length (rx_contents s) + 1)))) by lia.
      simpl. rewrite <- app_assoc. reflexivity.
    + rewrite <- Hl', <- Hl.
      replace (Z.to_nat (1023 - Z.of_nat (length (rx_contents s)))) with 0%nat by lia.
      reflexivity.
Qed.

Lemma rx_drain_frame (fifo : list Z) (s : uart_state) :
  uart_rx_tail (rx_drain fifo s) = uart_rx_tail s
  /\ uart_tx_buffer (rx_drain fifo s) = uart_tx_buffer s
  /\ uart_tx_head (rx_drain fifo s) = uart_tx_head s
  /\ uart_tx_tail (rx_drain fifo s) = uart_tx_tail s
  /\ uart_tx_overflow_count (rx_drain fifo s) = uart_tx_overflow_count s
  /\ uart_fifo_out (rx_drain fifo s) = uart_fifo_out s.
Proof.
  revert s. induction fifo as [|reg rest IH]; intros s; simpl; [repeat split|].
  destruct (IH (rx_store reg s)) as (-> & -> & -> & -> & -> & ->).
  apply rx_store_frame.
Qed.

Lemma uart_rx_available_spec (s : uart_state) :
  rx_wf s -> uart_rx_available s = Z.of_nat (length (rx_contents s)).
Proof.
  intros (Hlen & Hh & Ht). unfold rx_contents. rewrite ring_contents_length.
  unfold uart_rx_available, ring_occupancy, u16, UART_RX_BUFFER_SIZE.
  destruct (Z.geb_spec (uart_rx_head s) (uart_rx_tail s)); zmod.
Qed.

Lemma rx_read_loop_spec (n : nat) (s : uart_state) :
  rx_wf s ->
  rx_wf (rx_read_loop n s).2
  /\ (rx_read_loop n s).1 = take n (rx_contents s)
  /\ rx_contents (rx_read_loop n s).2 = drop n (rx_contents s).
Proof.
  revert s. induction n as [|n IH]; intros s Hwf.
  - simpl. rewrite take_0, drop_0. auto.
  - pose proof Hwf as (Hlen & Hh & Ht).
    simpl rx_read_loop.
    destruct (Z.eqb_spec (uart_rx_tail s) (uart_rx_head s)) as [E|E]; simpl negb; cbv iota.
    + apply (ring_empty _ _ Hh Ht) in E.
      assert (Hnil : rx_contents s = []).
      { unfold rx_contents, ring_contents. rewrite E. reflexivity. }
      rewrite Hnil. simpl. rewrite Hnil. auto.
    + destruct (ring_pop _ _ _ Hwf E) as (Hwf' & _ & Hc).
      unfold RX_INCREMENT, RX_BUFFER_MASK, UART_RX_BUFFER_SIZE.
      change (1024 - 1) with 1023.
      set (s' := mkUart _ _ _ _ _ _ _ _ _ _).
      specialize (IH s' Hwf'). destruct IH as (Hwf'' & Hbs & Hc').
      destruct (rx_read_loop n s') as [bs s''] eqn:Hloop. simpl in *.
      split; [exact Hwf''|].
      change (rx_contents s) with
        (ring_contents (uart_rx_buffer s) (uart_rx_head s) (uart_rx_tail s)).
      rewrite Hc. simpl. split; [now rewrite Hbs|exact Hc'].
Qed.

Lemma uart_read_bytes_spec (max_len : Z) (s : uart_state) :
  rx_wf s ->
  rx_wf (uart_read_bytes max_len s).2
  /\ (uart_read_bytes max_len s).1 = take (Z.to_nat max_len) (rx_contents s)
  /\ rx_contents (uart_read_bytes max_len s).2
     = drop (Z.to_nat max_len) (rx_contents s).
Proof. apply rx_read_loop_spec. Qed.

(* ================================================================== *)
(** * The transmit ring: uart_write_bytes in, interrupt handler out     *)
(* ================================================================== *)

Lemma tx_free_range (s : uart_state) : 0 <= tx_free s < 1024.
Proof.
  unfold tx_free, UART_TX_BUFFER_SIZE.
  pose proof (ring_occupancy_range (uart_tx_head s) (uart_tx_tail s)). lia.
Qed.

Lemma tx_write_loop_frame (data : list Z) (c : Z) (s : uart_state) :
  let r := tx_write_loop data c s in
  uart_tx_tail r.2 = uart_tx_tail s
  /\ uart_fifo_out r.2 = uart_fifo_out s
  /\ txfifo_empty_int_ena r.2 = txfifo_empty_int_ena s
  /\ uart_rx_buffer r.2 = uart_rx_buffer s
  /\ uart_rx_head r.2 = uart_rx_head s
  /\ uart_rx_tail r.2 = uart_rx_tail s
  /\ uart_rx_overflow_count r.2 = uart_rx_overflow_count s.
Proof.
  revert c s. induction data as [|d rest IH]; intros c s; simpl; [repeat split|].
  destruct (_ =? _); simpl; [repeat split|].
  destruct (IH (c + 1) (mkUart (uart_rx_buffer s) (uart_rx_head s) (uart_rx_tail s)
       (aset (uart_tx_buffer s) (uart_tx_head s) d) (TX_INCREMENT (uart_tx_head s))
       (uart_tx_tail s) (uart_rx_overflow_count s) (uart_tx_overflow_count s)
       (txfifo_empty_int_ena s) (uart_fifo_out s)))
    as (-> & -> & -> & -> & -> & -> & ->).
  repeat split.
Qed.

Lemma tx_write_loop_spec (data : list Z) (c : Z) (s : uart_state) :
  tx_wf s ->
  let r := tx_write_loop data c s in
  let f := Z.to_nat (tx_free s) in
  tx_wf r.2
  /\ r.1 = c + Z.of_nat (length (take f data))
  /\ tx_contents r.2 = tx_contents s ++ take f data
  /\ uart_tx_overflow_count r.2
     = (if Z.of_nat (length data) <=? tx_free s
        then uart_tx_overflow_count s
        else u32 (uart_tx_overflow_count s + 1))
  /\ ring_contents (uart_tx_buffer r.2) (uart_tx_head s) (uart_tx_tail s)
     = tx_contents s.
Proof.
  revert c s. induction data as [|d rest IH]; intros c s Hwf r f.
  - subst r f. simpl. rewrite take_nil, app_nil_r. simpl.
    pose proof (tx_free_range s).
    change (Z.of_nat 0) with 0.
    destruct (Z.leb_spec 0 (tx_free s)); [|lia].
    split; [exact Hwf|]. repeat split; try lia; auto.
  - pose proof Hwf as (Hlen & Hh & Ht).
    pose proof (ring_full _ _ Hh Ht) as Hfull.
    pose proof (tx_free_range s) as Hfr.
    subst r f. simpl tx_write_loop.
    unfold TX_INCREMENT, TX_BUFFER_MASK, UART_TX_BUFFER_SIZE.
    change (1024 - 1) with 1023.
    destruct (Z.eqb_spec (Z.land (uart_tx_head s + 1) 1023) (uart_tx_tail s)) as [E|E].
    + apply Hfull in E.
      assert (Hf0 : tx_free s = 0) by (unfold tx_free, UART_TX_BUFFER_SIZE; lia).
      rewrite Hf0. simpl. rewrite app_nil_r.
      split; [exact Hwf|]. repeat split; try lia; auto.
    + assert (Hocc : ring_occupancy (uart_tx_head s) (uart_tx_tail s) <> 1023) by tauto.
      destruct (ring_push _ _ _ d Hwf E) as (Hwf' & Ho' & Hc').
      set (s1 := mkUart _ _ _ _ _ _ _ _ _ _).
      assert (Hf1 : tx_free s1 = tx_free s - 1).
      { unfold tx_free, s1. simpl. rewrite Ho'. lia. }
      specialize (IH (c + 1) s1 Hwf'). cbv zeta in IH.
      destruct IH as (Hw & Hn & Hc & Ho & Hp).
      rewrite Hf1 in Hn, Hc, Ho.
      assert (Hfpos : 0 < tx_free s).
      { unfold tx_free, UART_TX_BUFFER_SIZE.
        pose proof (ring_occupancy_range (uart_tx_head s) (uart_tx_tail s)). lia. }
      replace (Z.to_nat (tx_free s)) with (S (Z.to_nat (tx_free s - 1))) by lia.
      simpl take. simpl length.
      assert (Hcs1 : tx_contents s1 = tx_contents s ++ [d]) by exact Hc'.
      assert (Hov1 : uart_tx_overflow_count s1 = uart_tx_overflow_count s)
        by reflexivity.
      rewrite Hcs1 in Hc, Hp. rewrite Hov1 in Ho.
      change (uart_tx_head s1) with (Z.land (uart_tx_head s + 1) 1023) in Hp.
      change (uart_tx_tail s1) with (uart_tx_tail s) in Hp.
      split; [exact Hw|]. split; [lia|]. split.
      { rewrite Hc. rewrite <- app_assoc. reflexivity. }
      split.
      { rewrite Ho.
        destruct (Z.leb_spec (Z.of_nat (length rest)) (tx_free s - 1));
          destruct (Z.leb_spec (Z.of_nat (S (length rest))) (tx_free s));
          try lia; reflexivity. }
      { unfold ring_contents in Hp at 1. rewrite Ho' in Hp.
        pose proof (ring_occupancy_range (uart_tx_head s) (uart_tx_tail s)) as Hr.
        replace (Z.to_nat (ring_occupancy (uart_tx_head s) (uart_tx_tail s) + 1))
          with (S (Z.to_nat (ring_occupancy (uart_tx_head s) (uart_tx_tail s))))
          in Hp by lia.
        rewrite ring_slice_snoc in Hp by lia.
        apply app_inj_tail in Hp. destruct Hp as (Hp & _).
        exact Hp. }
Qed.

Lemma tx_drain_spec (n : nat) (s : uart_state) :
  tx_wf s ->
  tx_wf (tx_drain n s)
  /\ uart_fifo_out (tx_drain n s) = uart_fifo_out s ++ take n (tx_contents s)
  /\ tx_contents (tx_drain n s) = drop n (tx_contents s)
  /\ uart_tx_overflow_count (tx_drain n s) = uart_tx_overflow_count s
  /\ uart_tx_buffer (tx_drain n s) = uart_tx_buffer s
  /\ uart_tx_head (tx_drain n s) = uart_tx_head s.
Proof.
  revert s. induction n as [|n IH]; intros s Hwf.
  - simpl. rewrite take_0, drop_0, app_nil_r.
    split; [exact Hwf|]. repeat split; auto.
  - pose proof Hwf as (Hlen & Hh & Ht). simpl tx_drain.
    destruct (Z.eqb_spec (uart_tx_tail s) (uart_tx_head s)) as [E|E]; simpl negb; cbv iota.
    + apply (ring_empty _ _ Hh Ht) in E.
      assert (Hnil : tx_contents s = []).
      { unfold tx_contents, ring_contents. rewrite E. reflexivity. }
      rewrite Hnil. simpl. rewrite app_nil_r.
      split; [exact Hwf|]. repeat split; auto.
    + destruct (ring_pop _ _ _ Hwf E) as (Hwf' & _ & Hc).
      unfold TX_INCREMENT, TX_BUFFER_MASK, UART_TX_BUFFER_SIZE.
      change (1024 - 1) with 1023.
      set (s' := mkUart _ _ _ _ _ _ _ _ _ _).
      destruct (IH s' Hwf') as (Hw & Hf & Hcc & Ho & Hb & Hhd).
      change (tx_contents s) with
        (ring_contents (uart_tx_buffer s) (uart_tx_head s) (uart_tx_tail s)).
      rewrite Hc. simpl take. simpl drop.
      split; [exact Hw|]. split.
      { rewrite Hf. unfold s' at 1. simpl uart_fifo_out.
        rewrite <- app_assoc. reflexivity. }
      split; [exact Hcc|]. repeat split; assumption.
Qed.

Lemma tx_drain_frame (n : nat) (s : uart_state) :
  uart_rx_buffer (tx_drain n s) = uart_rx_buffer s
  /\ uart_rx_head (tx_drain n s) = uart_rx_head s
  /\ uart_rx_tail (tx_drain n s) = uart_rx_tail s
  /\ uart_rx_overflow_count (tx_drain n s) = uart_rx_overflow_count s.
Proof.
  revert s. induction n as [|n IH]; intros s; simpl; [repeat split|].
  destruct (negb _); [|repeat split].
  destruct (IH (mkUart (uart_rx_buffer s) (uart_rx_head s) (uart_rx_tail s)
       (uart_tx_buffer s) (uart_tx_head s) (TX_INCREMENT (uart_tx_tail s))
       (uart_rx_overflow_count s) (uart_tx_overflow_count s)
       (txfifo_empty_int_ena s)
       (uart_fifo_out s ++ [aget (uart_tx_buffer s) (uart_tx_tail s)])))
    as (-> & -> & -> & ->).
  repeat split.
Qed.

(** What the transmit handler does to the ring: it moves the oldest [k]
    bytes to the hardware FIFO, [k] being 0 or up to 128. *)
Lemma uart0_tx_intr_handler_spec (st : bool) (s : uart_state) :
  tx_wf s ->
  let s' := uart0_tx_intr_handler st s in
  let k := if st then 128%nat else 0%nat in
  tx_wf s'
  /\ uart_fifo_out s' = uart_fifo_out s ++ take k (tx_contents s)
  /\ tx_contents s' = drop k (tx_contents s)
  /\ uart_tx_overflow_count s' = uart_tx_overflow_count s
  /\ uart_tx_buffer s' = uart_tx_buffer s
  /\ uart_tx_head s' = uart_tx_head s.
Proof.
  intros Hwf. destruct st; cbv zeta.
  - unfold uart0_tx_intr_handler.
    destruct (tx_drain_spec 128 s Hwf) as (Hw & Hf & Hc & Ho & Hb & Hh).
    generalize dependent (tx_drain 128 s). intros s1 Hw Hf Hc Ho Hb Hh.
    destruct (_ =? _); (split; [exact Hw|]); simpl; repeat split; assumption.
  - simpl. rewrite take_0, drop_0, app_nil_r.
    split; [exact Hwf|]. repeat split; auto.
Qed.

(* ================================================================== *)
(** * uart_write_bytes                                                  *)
(* ================================================================== *)

Lemma set_ena_tx (b : bool) (s : uart_state) :
  tx_contents (set_txfifo_empty_int_ena b s) = tx_contents s
  /\ (tx_wf s -> tx_wf (set_txfifo_empty_int_ena b s))
  /\ uart_fifo_out (set_txfifo_empty_int_ena b s) = uart_fifo_out s
  /\ uart_tx_overflow_count (set_txfifo_empty_int_ena b s) = uart_tx_overflow_count s
  /\ uart_tx_buffer (set_txfifo_empty_int_ena b s) = uart_tx_buffer s.
Proof.
  split; [reflexivity|]. split; [intros H; exact H|]. repeat split.
Qed.

(** [uart_write_bytes] queues the bytes that fit, then lets the transmit
    handler move up to 128 of the oldest queued bytes to the hardware. *)
Lemma uart_write_bytes_spec (data : list Z) (st : bool) (s : uart_state) :
  tx_wf s ->
  let r := uart_write_bytes data st s in
  let f := Z.to_nat (tx_free s) in
  let k := if st then 128%nat else 0%nat in
  tx_wf r.2
  /\ r.1 = Z.of_nat (length (take f data))
  /\ uart_fifo_out r.2 = uart_fifo_out s ++ take k (tx_contents s ++ take f data)
  /\ tx_contents r.2 = drop k (tx_contents s ++ take f data)
  /\ uart_tx_overflow_count r.2
     = (if Z.of_nat (length data) <=? tx_free s
        then uart_tx_overflow_count s
        else u32 (uart_tx_overflow_count s + 1))
  /\ ring_contents (uart_tx_buffer r.2) (uart_tx_head s) (uart_tx_tail s)
     = tx_contents s.
Proof.
  intros Hwf. cbv zeta. unfold uart_write_bytes.
  destruct (tx_write_loop_spec data 0 s Hwf) as (Hw & Hn & Hc & Ho & Hp).
  destruct (tx_write_loop_frame data 0 s) as (Htl & Hfo & _).
  destruct (tx_write_loop data 0 s) as [count s1]. simpl in *.
  destruct (Z.eqb_spec (uart_tx_tail s1) (uart_tx_head s1)) as [E|E]; simpl negb; cbv iota;
    simpl.
  - pose proof Hw as (_ & Hh1 & Ht1).
    apply (ring_empty _ _ Hh1 Ht1) in E.
    assert (Hnil : tx_contents s1 = []).
    { unfold tx_contents, ring_contents. rewrite E. reflexivity. }
    rewrite <- Hc, Hnil. rewrite take_nil, drop_nil, app_nil_r.
    split; [exact Hw|]. repeat split; auto.
  - destruct (set_ena_tx true s1) as (Hc2 & Hw2 & Hf2 & Ho2 & Hb2).
    destruct (uart0_tx_intr_handler_spec st _ (Hw2 Hw))
      as (Hw3 & Hf3 & Hc3 & Ho3 & Hb3 & _).
    cbv zeta in Hf3, Hc3.
    rewrite Hc2 in Hf3, Hc3. rewrite Hf2 in Hf3. rewrite Ho2 in Ho3. rewrite Hb2 in Hb3.
    rewrite Hc in Hf3, Hc3. rewrite Hfo in Hf3.
    split; [exact Hw3|]. split; [exact Hn|]. split; [exact Hf3|].
    split; [exact Hc3|]. split; [now rewrite Ho3|]. now rewrite Hb3.
Qed.

(** Whatever the handler moved, nothing is lost or reordered: hardware
    output followed by ring contents grows by the accepted bytes. *)
Lemma uart_write_bytes_stream (data : list Z) (st : bool) (s : uart_state) :
  tx_wf s ->
  uart_fifo_out (uart_write_bytes data st s).2
    ++ tx_contents (uart_write_bytes data st s).2
  = uart_fifo_out s ++ tx_contents s ++ take (Z.to_nat (tx_free s)) data.
Proof.
  intros Hwf.
  destruct (uart_write_bytes_spec data st s Hwf) as (_ & _ & Hf & Hc & _).
  rewrite Hf, Hc, <- app_assoc, take_drop. reflexivity.
Qed.

(** ** C3 *)

(** C3 (as amended).  When [uart_write_bytes] is offered [len] bytes and
    only [f < len] slots are free, it accepts exactly the first [f] bytes
    (it returns [f], and the stream of bytes leaving through the ring grows
    by the first [f] bytes of [data]), the cells holding the previously
    buffered bytes keep their values, and the transmit overflow counter
    grows by exactly one (one overflow event per call, whatever the number
    of bytes refused). *)
Theorem uart_write_bytes_overflow (data : list Z) (st : bool) (s : uart_state) :
  tx_wf s ->
  tx_free s < Z.of_nat (length data) ->
  let r := uart_write_bytes data st s in
  r.1 = tx_free s
  /\ uart_fifo_out r.2 ++ tx_contents r.2
     = uart_fifo_out s ++ tx_contents s ++ take (Z.to_nat (tx_free s)) data
  /\ ring_contents (uart_tx_buffer r.2) (uart_tx_head s) (uart_tx_tail s)
     = tx_contents s
  /\ uart_tx_overflow_count r.2 = u32 (uart_tx_overflow_count s + 1).
Proof.
  intros Hwf Hlt. cbv zeta.
  destruct (uart_write_bytes_spec data st s Hwf) as (_ & Hn & _ & _ & Ho & Hp).
  pose proof (tx_free_range s) as Hr.
  split; [|split; [|split]].
  - rewrite Hn, length_take. lia.
  - apply uart_write_bytes_stream, Hwf.
  - exact Hp.
  - rewrite Ho. destruct (Z.leb_spec (Z.of_nat (length data)) (tx_free s)); [lia|].
    reflexivity.
Qed.

Lemma uart_tx_filled_wf (n : Z) : 0 <= n < 1024 -> tx_wf (uart_tx_filled n).
Proof.
  intros Hn. unfold tx_wf, ring_wf, uart_tx_filled.
  cbn [uart_tx_buffer uart_tx_head uart_tx_tail]. rewrite length_replicate. lia.
Qed.

Lemma uart_tx_filled_free (n : Z) : 0 <= n < 1024 -> tx_free (uart_tx_filled n) = 1023 - n.
Proof.
  intros Hn. unfold tx_free, ring_occupancy, UART_TX_BUFFER_SIZE, uart_tx_filled.
  cbn [uart_tx_head uart_tx_tail].
  rewrite Z.sub_0_r, Z.mod_small; lia.
Qed.

Lemma uart_write_bytes_overflow_witness :
  (uart_write_bytes [1; 2; 3] false (uart_tx_filled 1022)).1 = 1
  /\ uart_tx_overflow_count (uart_write_bytes [1; 2; 3] false (uart_tx_filled 1022)).2 = 1.
Proof.
  assert (Hwf : tx_wf (uart_tx_filled 1022)) by (apply uart_tx_filled_wf; lia).
  assert (Hfree : tx_free (uart_tx_filled 1022) < Z.of_nat (length [1; 2; 3])).
  { rewrite uart_tx_filled_free by lia. simpl. lia. }
  destruct (uart_write_bytes_overflow [1; 2; 3] false (uart_tx_filled 1022) Hwf Hfree)
    as (Hn & _ & _ & Ho).
  split.
  - rewrite Hn. rewrite uart_tx_filled_free by lia. reflexivity.
  - rewrite Ho. reflexivity.
Defined.

(** C3 (as stated) fails: a full ring offered three bytes refuses all
    three, and the counter grows by one, not by three. *)
Lemma overflow_counts_excess_fails : ~ overflow_counts_excess.
Proof.
  intros H.
  specialize (H [1; 2; 3] false (uart_tx_filled 1023)).
  assert (Hwf : tx_wf (uart_tx_filled 1023)) by (apply uart_tx_filled_wf; lia).
  assert (Hfree : tx_free (uart_tx_filled 1023) < Z.of_nat (length [1; 2; 3])).
  { rewrite uart_tx_filled_free by lia. simpl. lia. }
  specialize (H Hwf Hfree).
  rewrite uart_tx_filled_free in H by lia.
  vm_compute in H. discriminate H.
Qed.

(* ================================================================== *)
(** * The rings against the queue of the specification                  *)
(* ================================================================== *)

Lemma take_length_take (k : nat) (l : list Z) : take (length (take k l)) l = take k l.
Proof.
  rewrite length_take. destruct (Nat.le_gt_cases k (length l)).
  - now rewrite Nat.min_l by lia.
  - rewrite Nat.min_r by lia. rewrite !take_ge by lia. reflexivity.
Qed.

Lemma rx_drain_app (a b : list Z) (s : uart_state) :
  rx_drain (a ++ b) s = rx_drain b (rx_drain a s).
Proof. revert s. induction a as [|x a IH]; intros s; simpl; [reflexivity|apply IH]. Qed.

Lemma uart0_rx_intr_handler_drain (full_st tout_st : bool)
    (fifo_full fifo_tout : list Z) (s : uart_state) :
  uart0_rx_intr_handler full_st tout_st fifo_full fifo_tout s
  = rx_drain (rx_intr_bytes full_st tout_st fifo_full fifo_tout) s.
Proof.
  unfold uart0_rx_intr_handler, rx_intr_bytes. rewrite rx_drain_app.
  destruct full_st, tout_st; reflexivity.
Qed.

(** One receive interrupt is one write of the queue. *)
Lemma uart0_rx_intr_handler_fifo (full_st tout_st : bool)
    (fifo_full fifo_tout : list Z) (s : uart_state) :
  rx_wf s ->
  let s' := uart0_rx_intr_handler full_st tout_st fifo_full fifo_tout s in
  rx_wf s'
  /\ rx_contents s'
     = (fifo_write (map u8 (rx_intr_bytes full_st tout_st fifo_full fifo_tout))
          (rx_contents s)).2.
Proof.
  intros Hwf. cbv zeta. rewrite uart0_rx_intr_handler_drain.
  destruct (rx_drain_spec (rx_intr_bytes full_st tout_st fifo_full fifo_tout) s Hwf)
    as (Hw & Hc).
  split; [exact Hw|]. rewrite Hc. unfold fifo_write, fifo_capacity. simpl.
  f_equal. f_equal.
  pose proof (ring_contents_length (uart_rx_buffer s) (uart_rx_head s) (uart_rx_tail s)) as Hl.
  fold (rx_contents s) in Hl. lia.
Qed.

(** The queue of the specification loses, duplicates and reorders nothing. *)
Lemma rx_run_fifo_law (ops : list rx_op) (q : list Z) :
  (rx_run_fifo ops q).1.2 ++ (rx_run_fifo ops q).2 = q ++ (rx_run_fifo ops q).1.1.
Proof.
  revert q. induction ops as [|[fs ts ff ft|m] ops IH]; intros q; simpl.
  - now rewrite app_nil_r.
  - specialize (IH (q ++ take (fifo_capacity - length q)
                            (map u8 (rx_intr_bytes fs ts ff ft)))).
    destruct (rx_run_fifo ops _) as [[acc out] q']. simpl in *.
    rewrite IH, take_length_take, <- app_assoc. reflexivity.
  - specialize (IH (drop (Z.to_nat m) q)).
    destruct (rx_run_fifo ops _) as [[acc out] q']. simpl in *.
    rewrite <- app_assoc, IH, app_assoc, take_drop. reflexivity.
Qed.

Lemma tx_run_fifo_law (ops : list tx_op) (q : list Z) :
  (tx_run_fifo ops q).1.2 ++ (tx_run_fifo ops q).2 = q ++ (tx_run_fifo ops q).1.1.
Proof.
  revert q. induction ops as [|[data st|st] ops IH]; intros q; simpl.
  - now rewrite app_nil_r.
  - specialize (IH (drop (if st then 128%nat else 0%nat)
                          (q ++ take (fifo_capacity - length q) data))).
    destruct (tx_run_fifo ops _) as [[acc out] q']. simpl in *.
    rewrite <- app_assoc, IH, app_assoc, take_drop, take_length_take, <- app_assoc.
    reflexivity.
  - specialize (IH (drop (if st then 128%nat else 0%nat) q)).
    destruct (tx_run_fifo ops _) as [[acc out] q']. simpl in *.
    rewrite <- app_assoc, IH, app_assoc, take_drop. reflexivity.
Qed.

(** The receive ring, driven by interrupts and [uart_read_bytes], returns
    what the queue returns and ends holding what the queue holds. *)
Lemma rx_run_simulates (ops : list rx_op) (s : uart_state) :
  rx_wf s ->
  (rx_run ops s).1 = (rx_run_fifo ops (rx_contents s)).1.2
  /\ rx_contents (rx_run ops s).2 = (rx_run_fifo ops (rx_contents s)).2.
Proof.
  revert s. induction ops as [|[fs ts ff ft|m] ops IH]; intros s Hwf.
  - simpl. auto.
  - destruct (uart0_rx_intr_handler_fifo fs ts ff ft s Hwf) as (Hw & Hc).
    specialize (IH _ Hw). rewrite Hc in IH.
    simpl rx_run. simpl rx_run_fifo. simpl in IH.
    destruct (rx_run_fifo ops _) as [[acc out] q']. simpl in *. exact IH.
  - destruct (uart_read_bytes_spec m s Hwf) as (Hw & Hb & Hc).
    specialize (IH _ Hw). rewrite Hc in IH.
    simpl rx_run. simpl rx_run_fifo.
    destruct (uart_read_bytes m s) as [bs s1]. simpl in *.
    destruct (rx_run ops s1) as [out1 s2].
    destruct (rx_run_fifo ops _) as [[acc out] q']. simpl in *.
    destruct IH as (-> & ->). rewrite Hb. auto.
Qed.

(** The transmit ring, driven by [uart_write_bytes] and the transmit
    handler, accepts what the queue accepts, hands the hardware what the
    queue returns and ends holding what the queue holds. *)
Lemma tx_run_simulates (ops : list tx_op) (s : uart_state) :
  tx_wf s ->
  (tx_run ops s).1 = (tx_run_fifo ops (tx_contents s)).1.1
  /\ uart_fifo_out (tx_run ops s).2
     = uart_fifo_out s ++ (tx_run_fifo ops (tx_contents s)).1.2
  /\ tx_contents (tx_run ops s).2 = (tx_run_fifo ops (tx_contents s)).2.
Proof.
  revert s. induction ops as [|[data st|st] ops IH]; intros s Hwf.
  - simpl. rewrite app_nil_r. auto.
  - destruct (uart_write_bytes_spec data st s Hwf) as (Hw & Hn & Hf & Hc & _).
    pose proof (ring_contents_length (uart_tx_buffer s) (uart_tx_head s) (uart_tx_tail s)) as Hl.
    fold (tx_contents s) in Hl.
    assert (Hk : Z.to_nat (tx_free s) = (fifo_capacity - length (tx_contents s))%nat).
    { unfold tx_free, UART_TX_BUFFER_SIZE, fifo_capacity. lia. }
    rewrite Hk in *.
    specialize (IH _ Hw). rewrite Hc, Hf in IH.
    simpl tx_run. simpl tx_run_fifo.
    destruct (uart_write_bytes data st s) as [n s1]. simpl in *.
    destruct (tx_run ops s1) as [acc1 s2].
    destruct (tx_run_fifo ops _) as [[acc out] q']. simpl in *.
    destruct IH as (-> & -> & ->). rewrite Hn, Nat2Z.id, <- app_assoc. auto.
  - destruct (uart0_tx_intr_handler_spec st s Hwf) as (Hw & Hf & Hc & _).
    specialize (IH _ Hw). rewrite Hc, Hf in IH.
    simpl tx_run. simpl tx_run_fifo.
    destruct (tx_run ops _) as [acc1 s2].
    destruct (tx_run_fifo ops _) as [[acc out] q']. simpl in *.
    destruct IH as (-> & -> & ->). rewrite <- app_assoc. auto.
Qed.

(** ** C6 *)

(** C6 (as amended).  Each ring refines the bounded queue of capacity 1023
    between its own producer and consumer.  Receive ring: for every
    interleaving of receive interrupts and [uart_read_bytes] calls, the
    reads return what the queue returns, and the bytes read followed by
    the bytes still held are the bytes first held followed by the bytes
    accepted, in order.  Transmit ring: the same for every interleaving of
    [uart_write_bytes] calls and transmit-handler runs, the bytes read
    being those handed to the hardware FIFO. *)
Theorem ring_refines_fifo (rx_ops : list rx_op) (tx_ops : list tx_op)
    (s : uart_state) :
  rx_wf s -> tx_wf s ->
  ((rx_run rx_ops s).1 = (rx_run_fifo rx_ops (rx_contents s)).1.2
   /\ rx_contents (rx_run rx_ops s).2 = (rx_run_fifo rx_ops (rx_contents s)).2
   /\ (rx_run rx_ops s).1 ++ rx_contents (rx_run rx_ops s).2
      = rx_contents s ++ (rx_run_fifo rx_ops (rx_contents s)).1.1)
  /\ ((tx_run tx_ops s).1 = (tx_run_fifo tx_ops (tx_contents s)).1.1
      /\ tx_contents (tx_run tx_ops s).2 = (tx_run_fifo tx_ops (tx_contents s)).2
      /\ uart_fifo_out (tx_run tx_ops s).2 ++ tx_contents (tx_run tx_ops s).2
         = uart_fifo_out s ++ tx_contents s ++ (tx_run tx_ops s).1).
Proof.
  intros Hrx Htx. split.
  - destruct (rx_run_simulates rx_ops s Hrx) as (Hr & Hc).
    split; [exact Hr|]. split; [exact Hc|].
    rewrite Hr, Hc. apply rx_run_fifo_law.
  - destruct (tx_run_simulates tx_ops s Htx) as (Ha & Hf & Hc).
    split; [exact Ha|]. split; [exact Hc|].
    rewrite Hf, Hc, Ha, <- app_assoc. f_equal. apply tx_run_fifo_law.
Qed.

Lemma uart_boot_wf : rx_wf uart_boot /\ tx_wf uart_boot.
Proof.
  unfold rx_wf, tx_wf, ring_wf, uart_boot.
  cbn [uart_rx_buffer uart_rx_head uart_rx_tail uart_tx_buffer uart_tx_head uart_tx_tail].
  rewrite length_replicate. lia.
Qed.

Lemma ring_refines_fifo_witness :
  (rx_run [RxIntr true false [65; 66; 67] []; RxRead 2; RxRead 5] uart_boot).1
  = [65; 66; 67]
  /\ uart_fifo_out
       (tx_run [TxWrite [1; 2] false; TxWrite [3] true; TxIntr true] uart_boot).2
     = [1; 2; 3].
Proof.
  destruct (ring_refines_fifo
              [RxIntr true false [65; 66; 67] []; RxRead 2; RxRead 5]
              [TxWrite [1; 2] false; TxWrite [3] true; TxIntr true]
              uart_boot (proj1 uart_boot_wf) (proj2 uart_boot_wf))
    as ((Hr & _ & _) & (_ & _ & _)).
  split; [rewrite Hr; reflexivity|vm_compute; reflexivity].
Defined.

(** C6 (as stated) fails: a byte accepted by [uart_write_bytes] goes to
    the transmit ring, and [uart_read_bytes], which reads the receive ring,
    returns nothing. *)
Lemma write_then_read_returns_fails : ~ write_then_read_returns.
Proof.
  intros H. specialize (H [65] false).
  assert (Hlen : Z.of_nat (length [65]) <= 1023) by (simpl; lia).
  specialize (H Hlen). vm_compute in H. discriminate H.
Qed.

(* ================================================================== *)
(** * wifi_raw_send: bounds of the frame buffer                         *)
(* ================================================================== *)

Lemma mem_write_Some (dst : list Z) (off : Z) (src : list Z) :
  0 <= off -> off + Z.of_nat (length src) <= Z.of_nat (length dst) ->
  exists buf, mem_write dst off src = Some buf /\ length buf = length dst
              /\ buf = take (Z.to_nat off) dst ++ src
                        ++ drop (Z.to_nat off + length src) dst.
Proof.
  intros H0 H1. unfold mem_write.
  destruct (Z.leb_spec 0 off); [|lia].
  destruct (Z.leb_spec (off + Z.of_nat (length src)) (Z.of_nat (length dst))); [|lia].
  simpl. eexists. split; [reflexivity|]. split; [|reflexivity].
  rewrite !length_app, length_take, length_drop. lia.
Qed.

Lemma mem_write_None (dst : list Z) (off : Z) (src : list Z) :
  Z.of_nat (length dst) < off + Z.of_nat (length src) ->
  mem_write dst off src = None.
Proof.
  intros H. unfold mem_write.
  destruct (Z.leb_spec (off + Z.of_nat (length src)) (Z.of_nat (length dst))); [lia|].
  now rewrite andb_false_r.
Qed.

Lemma hdr_bytes_length (h : ieee80211_hdr) :
  length (hdr_bytes h) = (6 + length (addr1 h) + length (addr2 h) + length (addr3 h))%nat.
Proof. unfold hdr_bytes. rewrite !length_app. simpl. lia. Qed.

Lemma build_80211_header_length (w : wifi_state) :
  length (sta_macaddr w) = 6%nat ->
  length (hdr_bytes (build_80211_header w).1) = 24%nat.
Proof. intros Hm. rewrite hdr_bytes_length. simpl. rewrite Hm. reflexivity. Qed.

(** With a 24-byte header and [len] within the guard of [wifi_raw_send],
    both stores stay inside a buffer of [TX_FRAME_BUFFER_SIZE] bytes, and
    the frame sits at its start. *)
Lemma assemble_frame_Some (buf : list Z) (hdr : ieee80211_hdr) (data : list Z) (len : Z) :
  length buf = Z.to_nat TX_FRAME_BUFFER_SIZE ->
  length (hdr_bytes hdr) = 24%nat ->
  len <= MAX_PACKET_SIZE ->
  exists buf', assemble_frame buf hdr data len = Some buf'
               /\ length buf' = length buf
               /\ take (length (hdr_bytes hdr ++ take (Z.to_nat len) data)) buf'
                  = hdr_bytes hdr ++ take (Z.to_nat len) data.
Proof.
  intros Hb Hh Hl. unfold assemble_frame.
  assert (Hb' : length buf = 280%nat) by exact Hb.
  assert (Hl' : len <= 256) by exact Hl.
  destruct (mem_write_Some buf 0 (hdr_bytes hdr)) as (b1 & E1 & L1 & C1); try lia.
  rewrite E1. simpl mbind.
  assert (Hd : (length (take (Z.to_nat len) data) <= Z.to_nat len)%nat)
    by (rewrite length_take; lia).
  destruct (mem_write_Some b1 IEEE80211_HEADER_SIZE (take (Z.to_nat len) data))
    as (b2 & E2 & L2 & C2); unfold IEEE80211_HEADER_SIZE; try lia.
  unfold IEEE80211_HEADER_SIZE in E2. rewrite E2.
  exists b2. split; [reflexivity|]. split; [lia|].
  assert (Ht : take (Z.to_nat 24) b1 = hdr_bytes hdr).
  { rewrite C1. change (Z.to_nat 0) with 0%nat. rewrite take_0, app_nil_l.
    apply take_app_length'. rewrite Hh. reflexivity. }
  unfold IEEE80211_HEADER_SIZE in C2.
  rewrite C2, Ht, app_assoc. apply take_app_length.
Qed.

(** Without the guard the copy would leave the buffer. *)
Lemma assemble_frame_None (buf : list Z) (hdr : ieee80211_hdr) (data : list Z) (len : Z) :
  length buf = Z.to_nat TX_FRAME_BUFFER_SIZE ->
  length (hdr_bytes hdr) = 24%nat ->
  MAX_PACKET_SIZE < len -> len <= Z.of_nat (length data) ->
  assemble_frame buf hdr data len = None.
Proof.
  intros Hb Hh Hl Hd. unfold assemble_frame.
  unfold TX_FRAME_BUFFER_SIZE, IEEE80211_HEADER_SIZE, MAX_PACKET_SIZE in *.
  destruct (mem_write_Some buf 0 (hdr_bytes hdr)) as (b1 & E1 & L1 & _); try lia.
  rewrite E1. simpl mbind. apply mem_write_None. rewrite length_take. lia.
Qed.

(** The shape of a call of [wifi_raw_send]: either it is refused at the
    guards, or it builds the frame, clears [tx_ready], hands the frame to
    the SDK and, when the SDK refuses it, sets [tx_ready] again. *)
Lemma wifi_raw_send_cases (raw_data : option (list Z)) (len sdk_result : Z)
    (w : wifi_state) :
  wifi_wf w ->
  exists res w',
    wifi_raw_send raw_data len sdk_result w = Some (res, w')
    /\ wifi_wf w'
    /\ ((res = -1
         /\ (raw_data = None \/ len = 0 \/ len > MAX_PACKET_SIZE \/ tx_ready w = 0)
         /\ w' = incr_tx_error_count (log_event (EvRawSend raw_data len) w))
        \/ (exists data frame,
              raw_data = Some data /\ len <> 0 /\ len <= MAX_PACKET_SIZE
              /\ tx_ready w <> 0
              /\ res = sdk_result
              /\ frame = hdr_bytes (build_80211_header w).1 ++ take (Z.to_nat len) data
              /\ tx_sequence w' = u16 (tx_sequence w + 1)
              /\ tx_ready w' = (if sdk_result =? 0 then 0 else 1)
              /\ wifi_trace w'
                 = wifi_trace w
                   ++ [EvRawSend raw_data len; EvTxReady InRawSend 0;
                       EvPktFreedom
                         (take (Z.to_nat (u16 (IEEE80211_HEADER_SIZE + len)))
                               (tx_frame_buffer w'))
                         (u16 (IEEE80211_HEADER_SIZE + len)) sdk_result]
                   ++ (if sdk_result =? 0 then [] else [EvTxReady InRawSend 1])
              /\ take (length frame) (tx_frame_buffer w') = frame
              /\ tx_count w' = (if sdk_result =? 0 then u32 (tx_count w + 1) else tx_count w)
              /\ tx_error_count w'
                 = (if sdk_result =? 0 then tx_error_count w
                    else u32 (tx_error_count w + 1)))).
Proof.
  intros (Hb & Hm). unfold wifi_raw_send.
  destruct raw_data as [data|].
  2:{ eexists _, _. split; [reflexivity|]. split; [split; assumption|].
      left. repeat split. auto. }
  destruct (Z.eqb_spec len 0) as [E0|E0]; simpl orb; cbv iota.
  { eexists _, _. split; [reflexivity|]. split; [split; assumption|].
    left. repeat split. auto. }
  destruct (Z.gtb_spec len MAX_PACKET_SIZE) as [E1|E1].
  { eexists _, _. split; [reflexivity|]. split; [split; assumption|].
    left. repeat split. right. right. left. lia. }
  change (tx_ready (log_event (EvRawSend (Some data) len) w)) with (tx_ready w).
  destruct (Z.eqb_spec (tx_ready w) 0) as [E2|E2].
  { eexists _, _. split; [reflexivity|]. split; [split; assumption|].
    left. repeat split. auto. }
  destruct (assemble_frame_Some (tx_frame_buffer w) (build_80211_header w).1 data len)
    as (buf & Ea & Lb & Hfr); [assumption|now apply build_80211_header_length|lia|].
  simpl. simpl in Ea. rewrite Ea. simpl.
  destruct (Z.eqb_spec sdk_result 0) as [Er|Er];
    (eexists _, _; split; [reflexivity|];
     split; [split; simpl; [now rewrite Lb|assumption]|];
     right; exists data, (hdr_bytes (build_80211_header w).1 ++ take (Z.to_nat len) data);
     split; [reflexivity|]; split; [assumption|]; split; [lia|];
     split; [assumption|]; split; [reflexivity|]; split; [reflexivity|];
     split; [reflexivity|]; split; [reflexivity|];
     split; [simpl; rewrite <- !app_assoc; reflexivity|];
     split; [exact Hfr|]; split; reflexivity).
Qed.

(** ** C9 *)

(** C9.  [TX_FRAME_BUFFER_SIZE] is 24 + 256 = 280.  Every call of
    [wifi_raw_send] on a 280-byte [tx_frame_buffer] completes without a
    store outside the buffer; for [len <= MAX_PACKET_SIZE] the header and
    payload stores succeed and the frame they lay down is at most 280
    bytes long; the same stores with a larger [len], which the guard
    excludes, would leave the buffer. *)
Theorem tx_frame_buffer_in_bounds (raw_data : option (list Z))
    (len sdk_result : Z) (w : wifi_state) :
  wifi_wf w ->
  TX_FRAME_BUFFER_SIZE = 280
  /\ (exists res w',
        wifi_raw_send raw_data len sdk_result w = Some (res, w') /\ wifi_wf w')
  /\ (forall data,
        len <= MAX_PACKET_SIZE ->
        exists buf,
          assemble_frame (tx_frame_buffer w) (build_80211_header w).1 data len = Some buf
          /\ Z.of_nat (length buf) = TX_FRAME_BUFFER_SIZE
          /\ Z.of_nat (length (hdr_bytes (build_80211_header w).1
                               ++ take (Z.to_nat len) data))
             <= TX_FRAME_BUFFER_SIZE)
  /\ (forall data,
        MAX_PACKET_SIZE < len <= Z.of_nat (length data) ->
        assemble_frame (tx_frame_buffer w) (build_80211_header w).1 data len = None).
Proof.
  intros Hwf. pose proof Hwf as (Hb & Hm).
  split; [reflexivity|]. split; [|split].
  - destruct (wifi_raw_send_cases raw_data len sdk_result w Hwf) as (res & w' & E & Hw' & _).
    exists res, w'. auto.
  - intros data Hl.
    destruct (assemble_frame_Some (tx_frame_buffer w) (build_80211_header w).1 data len)
      as (buf & Ea & Lb & _); [assumption|now apply build_80211_header_length|assumption|].
    exists buf. split; [exact Ea|]. split.
    + rewrite Lb, Hb. reflexivity.
    + rewrite length_app, build_80211_header_length, length_take by assumption.
      unfold TX_FRAME_BUFFER_SIZE, IEEE80211_HEADER_SIZE, MAX_PACKET_SIZE in *. lia.
  - intros data (H1 & H2).
    apply assemble_frame_None; try assumption. now apply build_80211_header_length.
Qed.

Lemma wifi_boot_wf (mac : list Z) : length mac = 6%nat -> wifi_wf (wifi_boot mac).
Proof.
  intros Hm. split; [|exact Hm]. unfold wifi_boot. cbn [tx_frame_buffer].
  rewrite length_replicate. reflexivity.
Qed.

Lemma tx_frame_buffer_in_bounds_witness :
  exists res w',
    wifi_raw_send (Some [9; 8; 7]) 3 0 (wifi_boot [2; 4; 6; 8; 10; 12]) = Some (res, w')
    /\ wifi_wf w'.
Proof.
  exact (proj1 (proj2 (tx_frame_buffer_in_bounds (Some [9; 8; 7]) 3 0
                         (wifi_boot [2; 4; 6; 8; 10; 12])
                         (wifi_boot_wf [2; 4; 6; 8; 10; 12] eq_refl)))).
Defined.

(** ** C8 *)

(** C8.  Called with a NULL pointer, with [len == 0], with
    [len > MAX_PACKET_SIZE], or while [tx_ready] is 0, [wifi_raw_send]
    returns -1, increments [tx_error_count] by one, hands nothing to
    [wifi_send_pkt_freedom] (the only new event is the call itself) and
    keeps no copy of the packet: frame buffer, sequence number, ready flag
    and success counter are as before. *)
Theorem wifi_raw_send_rejects (raw_data : option (list Z)) (len sdk_result : Z)
    (w : wifi_state) :
  raw_data = None \/ len = 0 \/ len > MAX_PACKET_SIZE \/ tx_ready w = 0 ->
  exists w',
    wifi_raw_send raw_data len sdk_result w = Some (-1, w')
    /\ tx_error_count w' = u32 (tx_error_count w + 1)
    /\ wifi_trace w' = wifi_trace w ++ [EvRawSend raw_data len]
    /\ List.filter is_transmission (wifi_trace w')
       = List.filter is_transmission (wifi_trace w)
    /\ tx_frame_buffer w' = tx_frame_buffer w
    /\ tx_sequence w' = tx_sequence w
    /\ tx_ready w' = tx_ready w
    /\ tx_count w' = tx_count w.
Proof.
  intros H.
  exists (incr_tx_error_count (log_event (EvRawSend raw_data len) w)).
  split.
  - unfold wifi_raw_send. destruct raw_data as [data|]; [|reflexivity].
    destruct (Z.eqb_spec len 0) as [E0|E0]; [reflexivity|].
    destruct (Z.gtb_spec len MAX_PACKET_SIZE) as [E1|E1]; [reflexivity|].
    simpl orb. cbv iota.
    change (tx_ready (log_event (EvRawSend (Some data) len) w)) with (tx_ready w).
    destruct (Z.eqb_spec (tx_ready w) 0) as [E2|E2]; [reflexivity|].
    exfalso. destruct H as [H|[H|[H|H]]]; try discriminate; lia.
  - simpl. rewrite List.filter_app. simpl. rewrite app_nil_r. repeat split.
Qed.

Lemma wifi_raw_send_rejects_witness :
  exists w',
    wifi_raw_send (Some [1; 2; 3]) 3 0
      (store_tx_ready InRawSend 0 (wifi_boot [2; 4; 6; 8; 10; 12])) = Some (-1, w')
    /\ tx_error_count w' = 1.
Proof.
  destruct (wifi_raw_send_rejects (Some [1; 2; 3]) 3 0
              (store_tx_ready InRawSend 0 (wifi_boot [2; 4; 6; 8; 10; 12])))
    as (w' & E & Hc & _).
  - right. right. right. reflexivity.
  - exists w'. split; [exact E|]. rewrite Hc. reflexivity.
Defined.

(** ** C7 *)

Lemma seq_ctrl_bits (x : Z) :
  Z.land (Z.shiftl x 4) 65520 = Z.shiftl (x mod 4096) 4.
Proof.
  change 65520 with (Z.shiftl (Z.ones 12) 4).
  rewrite <- Z.shiftl_land, Z.land_ones by lia. reflexivity.
Qed.

Lemma seq_ctrl_number (x : Z) : Z.shiftr (Z.land (Z.shiftl x 4) 65520) 4 = x mod 4096.
Proof.
  rewrite seq_ctrl_bits, Z.shiftr_shiftl_l by lia. apply Z.shiftl_0_r.
Qed.

Lemma seq_ctrl_fragment (x : Z) : Z.land (Z.land (Z.shiftl x 4) 65520) 15 = 0.
Proof.
  rewrite seq_ctrl_bits. apply Z.bits_inj'. intros n Hn.
  rewrite Z.land_spec, Z.bits_0.
  destruct (Z.lt_ge_cases n 4).
  - rewrite Z.shiftl_spec_low by lia. reflexivity.
  - change 15 with (Z.ones 4). rewrite Z.ones_spec_high by lia. apply andb_false_r.
Qed.

(** C7.  The header built by [build_80211_header] carries the running
    counter modulo 4096 in bits 15:4 of [seq_ctrl] and zero in bits 3:0,
    and the counter advances on every build.  A call of [wifi_raw_send]
    that reaches the build leaves the counter advanced by one whatever
    [wifi_send_pkt_freedom] returns, so the header built next carries the
    previous sequence number plus one modulo 4096. *)
Theorem sequence_number_law (data : list Z) (len sdk_result : Z) (w : wifi_state) :
  wifi_wf w -> len <> 0 -> len <= MAX_PACKET_SIZE -> tx_ready w <> 0 ->
  seq_number (build_80211_header w).1 = tx_sequence w mod 4096
  /\ frag_number (build_80211_header w).1 = 0
  /\ seq_number (build_80211_header (build_80211_header w).2).1
     = (seq_number (build_80211_header w).1 + 1) mod 4096
  /\ exists res w',
       wifi_raw_send (Some data) len sdk_result w = Some (res, w')
       /\ res = sdk_result
       /\ tx_sequence w' = tx_sequence (build_80211_header w).2
       /\ seq_number (build_80211_header w').1
          = (seq_number (build_80211_header w).1 + 1) mod 4096
       /\ frag_number (build_80211_header w').1 = 0.
Proof.
  intros Hwf Hl0 Hl1 Hr.
  assert (Hstep : forall x, u16 (x + 1) mod 4096 = (x mod 4096 + 1) mod 4096).
  { intros x. unfold u16. zmod. }
  unfold seq_number, frag_number. simpl.
  rewrite !seq_ctrl_number, !seq_ctrl_fragment, Hstep.
  split; [reflexivity|]. split; [reflexivity|]. split; [reflexivity|].
  destruct (wifi_raw_send_cases (Some data) len sdk_result w Hwf)
    as (res & w' & E & _ & [(_ & Hrej & _)|(d & fr & _ & _ & _ & _ & Hres & _ & Hseq & _)]).
  - exfalso. destruct Hrej as [H|[H|[H|H]]]; try discriminate; lia.
  - exists res, w'. rewrite Hseq. split; [exact E|]. split; [exact Hres|].
    split; [reflexivity|]. split; [|apply seq_ctrl_fragment].
    rewrite seq_ctrl_number. apply Hstep.
Qed.

Lemma sequence_number_law_witness :
  exists res w',
    wifi_raw_send (Some [1]) 1 (-1) (wifi_boot [2; 4; 6; 8; 10; 12]) = Some (res, w')
    /\ res = -1
    /\ seq_number (build_80211_header w').1 = 1.
Proof.
  destruct (sequence_number_law [1] 1 (-1) (wifi_boot [2; 4; 6; 8; 10; 12]))
    as (_ & _ & _ & res & w' & E & Hres & _ & Hseq & _).
  - apply wifi_boot_wf. reflexivity.
  - discriminate.
  - unfold MAX_PACKET_SIZE. lia.
  - discriminate.
  - exists res, w'. split; [exact E|]. split; [exact Hres|]. rewrite Hseq. reflexivity.
Defined.

(* ================================================================== *)
(** * The transmit-ready flag                                           *)
(* ================================================================== *)

Lemma outstanding_app (a b : list event) :
  outstanding (a ++ b) = outstanding a + outstanding b.
Proof. unfold outstanding. rewrite !List.filter_app, !length_app. lia. Qed.

Lemma wifi_raw_send_flag_inv (raw_data : option (list Z)) (len sdk_result : Z)
    (w : wifi_state) :
  flag_inv w ->
  exists res w', wifi_raw_send raw_data len sdk_result w = Some (res, w') /\ flag_inv w'.
Proof.
  intros (Hwf & Hd & Hf).
  destruct (wifi_raw_send_cases raw_data len sdk_result w Hwf)
    as (res & w' & E & Hwf' & [(_ & _ & ->)|(d & fr & _ & _ & _ & Hr & _ & _ & _ & Hrdy & Htr & _)]).
  - eexists _, _. split; [exact E|]. split; [exact Hwf'|]. split.
    + simpl. now apply disciplined_call.
    + simpl. rewrite outstanding_app. unfold outstanding at 2 4. simpl.
      rewrite !Z.add_0_r. exact Hf.
  - exists res, w'. split; [exact E|]. split; [exact Hwf'|].
    destruct Hf as [(H0 & _)|(H1 & Ho)]; [congruence|].
    rewrite Htr, Hrdy.
    change [EvRawSend raw_data len; EvTxReady InRawSend 0;
            EvPktFreedom
              (take (Z.to_nat (u16 (IEEE80211_HEADER_SIZE + len))) (tx_frame_buffer w'))
              (u16 (IEEE80211_HEADER_SIZE + len)) sdk_result]
      with ([EvRawSend raw_data len]
              ++ [EvTxReady InRawSend 0;
                  EvPktFreedom
                    (take (Z.to_nat (u16 (IEEE80211_HEADER_SIZE + len))) (tx_frame_buffer w'))
                    (u16 (IEEE80211_HEADER_SIZE + len)) sdk_result]).
    destruct (Z.eqb_spec sdk_result 0) as [Er|Er].
    + subst sdk_result. rewrite app_nil_r, app_assoc. split.
      * apply disciplined_sent. now apply disciplined_call.
      * left. split; [reflexivity|]. rewrite !outstanding_app, Ho. reflexivity.
    + rewrite <- app_assoc, app_assoc. split.
      * apply (disciplined_refused _ _ _ sdk_result Er). now apply disciplined_call.
      * right. split; [reflexivity|]. rewrite !outstanding_app, Ho.
        unfold outstanding. simpl.
        destruct (Z.eqb_spec sdk_result 0); [contradiction|]. reflexivity.
Qed.

Lemma wifi_freedom_tx_cb_flag_inv (status : Z) (w : wifi_state) :
  flag_inv w -> 0 < outstanding (wifi_trace w) ->
  flag_inv (wifi_freedom_tx_cb status w).
Proof.
  intros (Hwf & Hd & Hf) Hpos. split; [exact Hwf|]. split.
  - simpl. now apply disciplined_completed.
  - right. split; [reflexivity|]. simpl. rewrite outstanding_app.
    destruct Hf as [(_ & Ho)|(_ & Ho)]; [|lia]. rewrite Ho. reflexivity.
Qed.

Lemma wifi_run_flag_inv (steps : list wifi_step) (w : wifi_state) :
  flag_inv w -> exists w', wifi_run steps w = Some w' /\ flag_inv w'.
Proof.
  revert w. induction steps as [|[raw_data len r|status] steps IH]; intros w Hinv.
  - exists w. auto.
  - destruct (wifi_raw_send_flag_inv raw_data len r w Hinv) as (res & w1 & E & Hinv1).
    simpl. rewrite E. simpl. apply IH, Hinv1.
  - simpl. destruct (Z.ltb_spec 0 (outstanding (wifi_trace w))).
    + apply IH. now apply wifi_freedom_tx_cb_flag_inv.
    + apply IH, Hinv.
Qed.

(** ** C4 *)

(** C4 (as amended).  From the initial statics ([tx_ready] = 1, nothing
    sent), whatever calls of [wifi_raw_send] and completion callbacks
    follow: [tx_ready] is stored 0 only by [wifi_raw_send], right before it
    hands a frame to [wifi_send_pkt_freedom]; it is stored 1 by the
    completion callback, and by [wifi_raw_send] itself right after the SDK
    refused the frame; at most one accepted transmission is outstanding,
    and [tx_ready] is 0 exactly while one is. *)
Theorem tx_ready_protocol (steps : list wifi_step) (w : wifi_state) :
  wifi_wf w -> tx_ready w = 1 -> wifi_trace w = [] ->
  exists w',
    wifi_run steps w = Some w'
    /\ disciplined (wifi_trace w')
    /\ 0 <= outstanding (wifi_trace w') <= 1
    /\ (tx_ready w' = 0 <-> outstanding (wifi_trace w') = 1)
    /\ (tx_ready w' = 1 <-> outstanding (wifi_trace w') = 0).
Proof.
  intros Hwf Hr Ht.
  assert (Hinv : flag_inv w).
  { split; [exact Hwf|]. rewrite Ht. split; [constructor|]. right. auto. }
  destruct (wifi_run_flag_inv steps w Hinv) as (w' & E & _ & Hd & Hf).
  exists w'. split; [exact E|]. split; [exact Hd|].
  destruct Hf as [(H0 & Ho)|(H1 & Ho)]; rewrite Ho; [rewrite H0|rewrite H1];
    repeat split; intros; lia.
Qed.

Lemma tx_ready_protocol_witness :
  exists w',
    wifi_run [StepSend (Some [1]) 1 0; StepSend (Some [2]) 1 0; StepTxCb 0]
      (wifi_boot [2; 4; 6; 8; 10; 12]) = Some w'
    /\ disciplined (wifi_trace w')
    /\ 0 <= outstanding (wifi_trace w') <= 1.
Proof.
  destruct (tx_ready_protocol
              [StepSend (Some [1]) 1 0; StepSend (Some [2]) 1 0; StepTxCb 0]
              (wifi_boot [2; 4; 6; 8; 10; 12]))
    as (w' & E & Hd & Ho & _).
  - apply wifi_boot_wf. reflexivity.
  - reflexivity.
  - reflexivity.
  - exists w'. auto.
Defined.

(** C4 (as stated) fails: when [wifi_send_pkt_freedom] refuses the frame,
    [wifi_raw_send] itself stores 1 to [tx_ready]. *)
Lemma tx_ready_set_only_by_callback_fails : ~ tx_ready_set_only_by_callback.
Proof.
  intros H.
  destruct (wifi_raw_send_cases (Some [1]) 1 (-1) (wifi_boot [2; 4; 6; 8; 10; 12])
              (wifi_boot_wf [2; 4; 6; 8; 10; 12] eq_refl))
    as (res & w' & E & _ & [(_ & Hrej & _)|(d & fr & _ & _ & _ & _ & _ & _ & _ & _ & Htr & _)]).
  { destruct Hrej as [Hr|[Hr|[Hr|Hr]]]; discriminate. }
  assert (Hrun : wifi_run [StepSend (Some [1]) 1 (-1)] (wifi_boot [2; 4; 6; 8; 10; 12])
                 = Some w').
  { cbn [wifi_run]. rewrite E. reflexivity. }
  specialize (H [StepSend (Some [1]) 1 (-1)] (wifi_boot [2; 4; 6; 8; 10; 12]) w' InRawSend
                (wifi_boot_wf [2; 4; 6; 8; 10; 12] eq_refl) eq_refl eq_refl Hrun).
  rewrite Htr in H.
  assert (Hfalse : InRawSend = InTxCb).
  { apply H. apply in_or_app. right. apply in_or_app. right. left. reflexivity. }
  discriminate Hfalse.
Qed.

(* ================================================================== *)
(** * The receive filter                                                *)
(* ================================================================== *)

Lemma os_memcmp_key (a : list Z) :
  take 6 a = CUSTOM_BSSID -> os_memcmp a custom_bssid 6 = 0.
Proof.
  intros H. do 6 (destruct a as [|? a]; [discriminate H|]).
  simpl in H. injection H as -> -> -> -> -> ->. reflexivity.
Qed.

(** A frame stopped by a filter stage: one drop counted, nothing else
    touched. *)
Lemma wifi_promiscuous_rx_cb_drop (buf : capture) (len : Z) (st1 st2 : bool)
    (w : wifi_state) (u : uart_state) :
  ~ passes_filters buf len ->
  wifi_promiscuous_rx_cb buf len st1 st2 w u = (incr_rx_drop_count w, u).
Proof.
  intros Hn. unfold wifi_promiscuous_rx_cb.
  destruct (Z.eqb_spec (sig_mode (cap_rx_ctrl buf)) 0) as [E1|E1]; [|reflexivity].
  destruct (Z.ltb_spec len (sizeof_RxControl + 28)) as [E2|E2]; [reflexivity|].
  cbn [negb orb].
  destruct (Z.eqb_spec (Z.land (frame_control (cap_hdr buf)) IEEE80211_FCTL_FTYPE)
              IEEE80211_FCTL_MGMT) as [E3|E3]; [|reflexivity].
  cbn [negb orb].
  destruct (Z.eqb_spec (os_memcmp (addr3 (cap_hdr buf)) custom_bssid 6) 0) as [E4|E4];
    [|reflexivity].
  cbn [negb orb].
  destruct (Z.gtb_spec (u16 (legacy_length (cap_rx_ctrl buf) - IEEE80211_HEADER_SIZE - 4))
              MAX_PACKET_SIZE) as [E5|E5]; [reflexivity|].
  exfalso. apply Hn. unfold passes_filters. repeat split; assumption || lia.
Qed.

(** A frame let through: counted as received, then the two
    [uart_write_bytes] calls. *)
Lemma wifi_promiscuous_rx_cb_pass (buf : capture) (len : Z) (st1 st2 : bool)
    (w : wifi_state) (u : uart_state) :
  passes_filters buf len ->
  let payload_len := u16 (legacy_length (cap_rx_ctrl buf) - IEEE80211_HEADER_SIZE - 4) in
  wifi_promiscuous_rx_cb buf len st1 st2 w u
  = (incr_rx_count w,
     (uart_write_bytes (rx_payload buf) st2
        (uart_write_bytes [Z.land (Z.shiftr payload_len 8) 255; Z.land payload_len 255]
           st1 u).2).2).
Proof.
  intros (E1 & E2 & E3 & E4 & E5). cbv zeta. unfold wifi_promiscuous_rx_cb.
  rewrite E1, E3, E4. cbn [negb orb]. rewrite !Z.eqb_refl. cbn [negb orb].
  destruct (Z.ltb_spec len (sizeof_RxControl + 28)) as [E2'|_]; [lia|].
  cbn [negb orb].
  destruct (Z.gtb_spec (u16 (legacy_length (cap_rx_ctrl buf) - IEEE80211_HEADER_SIZE - 4))
              MAX_PACKET_SIZE) as [E5'|_]; [lia|].
  unfold rx_payload.
  destruct (uart_write_bytes [_; _] st1 u) as [n1 u1]. cbn [snd].
  destruct (uart_write_bytes _ st2 u1) as [n2 u2]. reflexivity.
Qed.

Lemma tx_free_contents (s : uart_state) :
  tx_free s = 1023 - Z.of_nat (length (tx_contents s)).
Proof.
  unfold tx_free, UART_TX_BUFFER_SIZE, tx_contents.
  rewrite ring_contents_length. lia.
Qed.

(** What an accepted frame adds to the byte stream leaving through the
    transmit ring: a prefix of the length prefix, then a prefix of the
    payload. *)
Lemma wifi_promiscuous_rx_cb_stream (buf : capture) (len : Z) (st1 st2 : bool)
    (w : wifi_state) (u : uart_state) :
  tx_wf u -> passes_filters buf len ->
  let payload_len := u16 (legacy_length (cap_rx_ctrl buf) - IEEE80211_HEADER_SIZE - 4) in
  let prefix := [Z.land (Z.shiftr payload_len 8) 255; Z.land payload_len 255] in
  let r := wifi_promiscuous_rx_cb buf len st1 st2 w u in
  let u1 := (uart_write_bytes prefix st1 u).2 in
  r.1 = incr_rx_count w
  /\ uart_fifo_out r.2 ++ tx_contents r.2
     = uart_fifo_out u ++ tx_contents u
       ++ take (Z.to_nat (tx_free u)) prefix
       ++ take (Z.to_nat (tx_free u1)) (rx_payload buf)
  /\ tx_contents u1
     = drop (if st1 then 128%nat else 0%nat)
            (tx_contents u ++ take (Z.to_nat (tx_free u)) prefix)
  /\ uart_tx_overflow_count r.2
     = (let o1 := if 2 <=? tx_free u then uart_tx_overflow_count u
                  else u32 (uart_tx_overflow_count u + 1) in
        if Z.of_nat (length (rx_payload buf)) <=? tx_free u1 then o1 else u32 (o1 + 1)).
Proof.
  intros Hwf Hp. cbv zeta. rewrite (wifi_promiscuous_rx_cb_pass _ _ _ _ _ _ Hp).
  cbv zeta. cbn [fst snd].
  set (prefix := [_; _]).
  destruct (uart_write_bytes_spec prefix st1 u Hwf) as (Hw1 & _ & _ & Hc1 & Ho1 & _).
  pose proof (uart_write_bytes_stream prefix st1 u Hwf) as Hs1.
  set (u1 := (uart_write_bytes prefix st1 u).2) in *.
  destruct (uart_write_bytes_spec (rx_payload buf) st2 u1 Hw1) as (_ & _ & _ & _ & Ho2 & _).
  pose proof (uart_write_bytes_stream (rx_payload buf) st2 u1 Hw1) as Hs2.
  split; [reflexivity|]. split; [|split; [exact Hc1|]].
  - rewrite Hs2, app_assoc, Hs1, <- !app_assoc. reflexivity.
  - rewrite Ho2, Ho1. reflexivity.
Qed.

(** ** C2 *)

(** C2 (the code departs from it).  A management frame on the configured
    link whose reported length is exactly header plus FCS has computed
    payload length 0, which the acceptance law excludes; the callback
    nevertheless counts it as received, counts no drop, and queues the
    two-byte prefix 00 00 for the serial side. *)
Theorem zero_length_frame_accepted :
  let r := wifi_promiscuous_rx_cb (link_frame 28 []) 128 false false
             (wifi_boot [2; 4; 6; 8; 10; 12]) uart_boot in
  ~ filter_law (link_frame 28 []) 128
  /\ accepts (link_frame 28 []) 128 false false (wifi_boot [2; 4; 6; 8; 10; 12]) uart_boot
  /\ rx_count r.1 = 1
  /\ rx_drop_count r.1 = 0
  /\ tx_contents r.2 = [0; 0].
Proof.
  cbv zeta. split; [|split; [|split; [|split]]].
  - intros (_ & _ & _ & _ & H & _). simpl in H. lia.
  - split; vm_compute; reflexivity.
  - vm_compute. reflexivity.
  - vm_compute. reflexivity.
  - vm_compute. reflexivity.
Qed.

(** Apart from the zero length, the filter is the acceptance law: a frame
    that fails a stage is dropped and counted, and nothing reaches the
    transmit ring. *)
Lemma filter_law_passes (buf : capture) (len : Z) :
  filter_law buf len -> passes_filters buf len.
Proof.
  intros (H1 & H2 & H3 & H4 & H5). unfold passes_filters.
  split; [exact H1|]. split; [exact H2|]. split; [exact H3|].
  split; [now apply os_memcmp_key|].
  unfold u16, IEEE80211_HEADER_SIZE, MAX_PACKET_SIZE in *. zmod.
Qed.

(** ** C10 *)

(** C10 (as amended).  A frame that passes the filters is counted in
    [rx_count] before anything is written, and the prefix and the payload
    go through two unchecked [uart_write_bytes] calls: what reaches the
    serial output is a prefix of the two length bytes followed by a prefix
    of the payload.  When fewer than [payload_len + 2] slots are free and
    the transmit handler run inside the first write moves nothing to the
    hardware (its status bit is clear), what reaches the output is the
    strict prefix of [LEN_HI][LEN_LO][payload] that fits; the rest is
    dropped, counted once or twice in the transmit overflow counter and
    not at all in [rx_drop_count]. *)
Theorem accepted_frame_short_room (buf : capture) (len : Z) (st1 st2 : bool)
    (w : wifi_state) (u : uart_state) :
  tx_wf u ->
  passes_filters buf len ->
  Z.of_nat (length (rx_payload buf))
  = u16 (legacy_length (cap_rx_ctrl buf) - IEEE80211_HEADER_SIZE - 4) ->
  tx_free u < Z.of_nat (length (rx_payload buf)) + 2 ->
  let r := wifi_promiscuous_rx_cb buf len st1 st2 w u in
  rx_count r.1 = u32 (rx_count w + 1)
  /\ rx_drop_count r.1 = rx_drop_count w
  /\ (exists a1 a2 : nat,
        uart_fifo_out r.2 ++ tx_contents r.2
        = uart_fifo_out u ++ tx_contents u
          ++ take a1 (take 2 (length_prefixed (rx_payload buf)))
          ++ take a2 (rx_payload buf))
  /\ (st1 = false ->
      (Z.to_nat (tx_free u) < length (length_prefixed (rx_payload buf)))%nat
      /\ uart_fifo_out r.2 ++ tx_contents r.2
         = uart_fifo_out u ++ tx_contents u
           ++ take (Z.to_nat (tx_free u)) (length_prefixed (rx_payload buf))
      /\ (uart_tx_overflow_count r.2 = u32 (uart_tx_overflow_count u + 1)
          \/ uart_tx_overflow_count r.2
             = u32 (u32 (uart_tx_overflow_count u + 1) + 1))).
Proof.
  intros Hwf Hp Hlen Hfree. cbv zeta.
  destruct (wifi_promiscuous_rx_cb_stream buf len st1 st2 w u Hwf Hp)
    as (Hw & Hs & Hc1 & Ho).
  cbv zeta in Hs, Hc1, Ho.
  pose proof (tx_free_range u) as Hfr.
  assert (Hlp : length_prefixed (rx_payload buf)
                = [Z.land (Z.shiftr (Z.of_nat (length (rx_payload buf))) 8) 255;
                   Z.land (Z.of_nat (length (rx_payload buf))) 255] ++ rx_payload buf)
    by reflexivity.
  rewrite <- Hlen in Hs, Hc1, Ho.
  set (prefix := [Z.land (Z.shiftr (Z.of_nat (length (rx_payload buf))) 8) 255;
                  Z.land (Z.of_nat (length (rx_payload buf))) 255]) in *.
  set (u1 := (uart_write_bytes prefix st1 u).2) in *.
  rewrite Hw. split; [reflexivity|]. split; [reflexivity|]. split.
  - exists (Z.to_nat (tx_free u)), (Z.to_nat (tx_free u1)). rewrite Hs, Hlp.
    reflexivity.
  - intros ->. rewrite drop_0 in Hc1.
    assert (Hf1 : tx_free u1 = tx_free u - Z.of_nat (length (take (Z.to_nat (tx_free u)) prefix))).
    { rewrite (tx_free_contents u1), Hc1, length_app, (tx_free_contents u). lia. }
    assert (Hlt : length (take (Z.to_nat (tx_free u)) prefix)
                  = Nat.min (Z.to_nat (tx_free u)) 2) by apply length_take.
    split; [|split].
    + rewrite Hlp, length_app. change (length prefix) with 2%nat. lia.
    + rewrite Hs, Hlp, take_app. do 3 f_equal.
      rewrite Hf1, Hlt. change (length prefix) with 2%nat. f_equal. lia.
    + rewrite Ho. rewrite Hf1, Hlt.
      destruct (Z.leb_spec 2 (tx_free u));
        destruct (Z.leb_spec (Z.of_nat (length (rx_payload buf)))
                    (tx_free u - Z.of_nat (Z.to_nat (tx_free u) `min` 2))); auto; lia.
Qed.

Lemma link_frame_passes (n : Z) (body : list Z) :
  28 <= n <= 284 -> passes_filters (link_frame n body) 128.
Proof.
  intros Hn. unfold passes_filters, link_frame. cbn [cap_rx_ctrl cap_hdr sig_mode
    legacy_length frame_control addr3].
  split; [reflexivity|]. split; [unfold sizeof_RxControl; lia|].
  split; [reflexivity|]. split; [reflexivity|].
  unfold u16, IEEE80211_HEADER_SIZE, MAX_PACKET_SIZE. zmod.
Qed.

Lemma uart_tx_filled_length (n : Z) :
  0 <= n < 1024 -> length (tx_contents (uart_tx_filled n)) = Z.to_nat n.
Proof.
  intros Hn. pose proof (tx_free_contents (uart_tx_filled n)) as H.
  rewrite uart_tx_filled_free in H by assumption. lia.
Qed.

Lemma accepted_frame_short_room_witness :
  let r := wifi_promiscuous_rx_cb (link_frame 31 [17; 34; 51]) 128 false false
             (wifi_boot [2; 4; 6; 8; 10; 12]) (uart_tx_filled 1020) in
  rx_count r.1 = 1
  /\ uart_fifo_out r.2 ++ tx_contents r.2
     = tx_contents (uart_tx_filled 1020) ++ [0; 3; 17].
Proof.
  cbv zeta.
  destruct (accepted_frame_short_room (link_frame 31 [17; 34; 51]) 128 false false
              (wifi_boot [2; 4; 6; 8; 10; 12]) (uart_tx_filled 1020))
    as (Hc & _ & _ & Hst).
  - apply uart_tx_filled_wf. lia.
  - apply link_frame_passes. lia.
  - reflexivity.
  - rewrite uart_tx_filled_free by lia. simpl. lia.
  - split; [rewrite Hc; reflexivity|].
    destruct (Hst eq_refl) as (_ & Hs & _). rewrite Hs.
    rewrite uart_tx_filled_free by lia. reflexivity.
Defined.

(** C10 (as stated) fails: with one free slot and the status bit raised,
    the first write queues [LEN_HI] and drops [LEN_LO], the handler then
    moves 128 bytes out, and the second write queues the whole payload:
    what reaches the output is 00 55, not a prefix of 00 01 55. *)
Lemma short_room_appends_strict_prefix_fails : ~ short_room_appends_strict_prefix.
Proof.
  intros H.
  assert (Hwf : tx_wf (uart_tx_filled 1022)) by (apply uart_tx_filled_wf; lia).
  assert (Hp : passes_filters (link_frame 29 [85]) 128) by (apply link_frame_passes; lia).
  specialize (H (link_frame 29 [85]) 128 true false (wifi_boot [2; 4; 6; 8; 10; 12])
                (uart_tx_filled 1022) Hwf Hp eq_refl).
  destruct H as (k & Hk & Heq).
  { rewrite uart_tx_filled_free by lia. simpl. lia. }
  destruct (wifi_promiscuous_rx_cb_stream (link_frame 29 [85]) 128 true false
              (wifi_boot [2; 4; 6; 8; 10; 12]) (uart_tx_filled 1022) Hwf Hp)
    as (_ & Hs & Hc1 & _).
  cbv zeta in Hs, Hc1. rewrite Hs in Heq.
  apply app_inv_head in Heq. apply app_inv_head in Heq.
  rewrite (tx_free_contents (uart_write_bytes _ true (uart_tx_filled 1022)).2) in Heq.
  rewrite Hc1 in Heq.
  rewrite length_drop, length_app, uart_tx_filled_length in Heq by lia.
  rewrite uart_tx_filled_free in Heq by lia.
  simpl in Hk.
  destruct k as [|[|[|k]]]; [discriminate Heq|discriminate Heq|discriminate Heq|lia].
Qed.

(* ================================================================== *)
(** * The bridge: length prefix                                         *)
(* ================================================================== *)

Lemma bridge_header_idle (m : main_state) (u : uart_state) :
  rx_wf u -> (length (rx_contents u) < 2)%nat -> bridge_header m u = (m, u).
Proof.
  intros Hwf Hlen. unfold bridge_header.
  rewrite (uart_rx_available_spec u Hwf).
  destruct (Z.geb_spec (Z.of_nat (length (rx_contents u))) 2); [lia|].
  destruct (pkt_expected m =? 0); reflexivity.
Qed.

Lemma bridge_header_busy (m : main_state) (u : uart_state) :
  pkt_expected m <> 0 -> bridge_header m u = (m, u).
Proof.
  intros Hne. unfold bridge_header.
  destruct (Z.eqb_spec (pkt_expected m) 0); [contradiction|reflexivity].
Qed.

Lemma bridge_header_read (m : main_state) (u : uart_state) (b0 b1 : Z) (rest : list Z) :
  rx_wf u -> pkt_expected m = 0 -> rx_contents u = b0 :: b1 :: rest ->
  exists u',
    bridge_header m u
    = (mkMain (packet_buffer m) (led_counter m) (heartbeat_counter m)
              (validated (announced b0 b1)) 0 (led_gpio m), u')
    /\ rx_wf u' /\ rx_contents u' = rest.
Proof.
  intros Hwf He Hc. unfold bridge_header. rewrite He. cbn [Z.eqb].
  rewrite (uart_rx_available_spec u Hwf), Hc.
  destruct (Z.geb_spec (Z.of_nat (length (b0 :: b1 :: rest))) 2) as [_|Hlt];
    [|simpl in Hlt; lia].
  destruct (uart_read_bytes_spec 2 u Hwf) as (Hw' & Hb & Hc').
  rewrite Hc in Hb, Hc'. change (Z.to_nat 2) with 2%nat in Hb, Hc'.
  destruct (uart_read_bytes 2 u) as [len_bytes u']. cbn [fst snd] in *.
  subst len_bytes. exists u'. split; [reflexivity|]. split; [exact Hw'|exact Hc'].
Qed.

Lemma bridge_payload_idle (sdk_result : Z) (m : main_state) (u : uart_state)
    (w : wifi_state) :
  pkt_expected m = 0 -> bridge_payload sdk_result m u w = Some (m, u, w).
Proof. intros He. unfold bridge_payload. rewrite He. reflexivity. Qed.

Lemma led_heartbeat_frame (m : main_state) :
  pkt_expected (led_heartbeat m) = pkt_expected m
  /\ pkt_received (led_heartbeat m) = pkt_received m
  /\ packet_buffer (led_heartbeat m) = packet_buffer m.
Proof.
  unfold led_heartbeat.
  destruct (_ =? 500); [repeat split|]. destruct (_ =? 505); repeat split.
Qed.

(** ** C5 *)

(** C5.  In the waiting-for-header state, with a length prefix at the head
    of the receive ring that announces 0 or more than [MAX_PACKET_SIZE],
    a tick consumes exactly the two prefix bytes, calls and transmits
    nothing (the wifi statics are untouched), stores nothing in the packet
    buffer and stays in the waiting-for-header state; on the next pass the
    bridge reads the two bytes that follow as the length prefix. *)
Theorem malformed_header_law (sdk_result : Z) (sys : system) (b0 b1 : Z) (rest : list Z) :
  rx_wf (sys_uart sys) ->
  pkt_expected (sys_main sys) = 0 ->
  rx_contents (sys_uart sys) = b0 :: b1 :: rest ->
  announced b0 b1 = 0 \/ announced b0 b1 > MAX_PACKET_SIZE ->
  exists sys',
    main_timer_callback sdk_result sys = Some sys'
    /\ pkt_expected (sys_main sys') = 0
    /\ pkt_received (sys_main sys') = 0
    /\ packet_buffer (sys_main sys') = packet_buffer (sys_main sys)
    /\ sys_wifi sys' = sys_wifi sys
    /\ rx_wf (sys_uart sys')
    /\ rx_contents (sys_uart sys') = rest
    /\ forall c0 c1 rest',
         rest = c0 :: c1 :: rest' ->
         exists u'',
           (bridge_header (led_heartbeat (sys_main sys')) (sys_uart sys')).1
           = mkMain (packet_buffer (sys_main sys))
                    (led_counter (led_heartbeat (sys_main sys')))
                    (heartbeat_counter (led_heartbeat (sys_main sys')))
                    (validated (announced c0 c1)) 0
                    (led_gpio (led_heartbeat (sys_main sys')))
           /\ (bridge_header (led_heartbeat (sys_main sys')) (sys_uart sys')).2 = u''
           /\ rx_contents u'' = rest'.
Proof.
  intros Hwf He Hc Hbad.
  assert (Hv : validated (announced b0 b1) = 0).
  { unfold validated. destruct Hbad as [->|Hgt]; [reflexivity|].
    destruct (Z.gtb_spec (announced b0 b1) MAX_PACKET_SIZE); [|lia].
    now rewrite orb_true_r. }
  destruct (led_heartbeat_frame (sys_main sys)) as (He' & _ & Hpb).
  rewrite He in He'.
  destruct (bridge_header_read _ _ _ _ _ Hwf He' Hc) as (u' & Eh & Hw' & Hc').
  rewrite Hv in Eh.
  unfold main_timer_callback. rewrite Eh.
  rewrite bridge_payload_idle by reflexivity. cbn [mbind option_bind].
  eexists. split; [reflexivity|]. cbn [sys_main sys_wifi sys_uart pkt_expected
    pkt_received packet_buffer].
  split; [reflexivity|]. split; [reflexivity|]. split; [exact Hpb|].
  split; [reflexivity|]. split; [exact Hw'|]. split; [exact Hc'|].
  intros c0 c1 rest' ->.
  match goal with |- context [led_heartbeat ?m] => set (m1 := led_heartbeat m) end.
  assert (He1 : pkt_expected m1 = 0).
  { unfold m1. now rewrite (proj1 (led_heartbeat_frame _)). }
  assert (Hpb1 : packet_buffer m1 = packet_buffer (sys_main sys)).
  { unfold m1. rewrite (proj2 (proj2 (led_heartbeat_frame _))). exact Hpb. }
  destruct (bridge_header_read m1 u' c0 c1 rest' Hw' He1 Hc') as (u'' & Eh' & _ & Hc'').
  exists u''. rewrite Eh'. cbn [fst snd]. rewrite Hpb1. auto.
Qed.

Lemma rx_contents_after_intr (bytes : list Z) :
  Forall is_byte bytes -> (length bytes <= 1023)%nat ->
  rx_contents (uart0_rx_intr_handler true false bytes [] uart_boot) = bytes.
Proof.
  intros Hb Hl.
  destruct (uart0_rx_intr_handler_fifo true false bytes [] uart_boot (proj1 uart_boot_wf))
    as (_ & Hc).
  cbv zeta in Hc. rewrite Hc. unfold fifo_write, rx_intr_bytes. cbn [snd].
  rewrite app_nil_r.
  change (rx_contents uart_boot) with (@nil Z). cbn [app length].
  rewrite take_ge by (rewrite length_map; unfold fifo_capacity; lia).
  clear Hl Hc. induction Hb as [|b bs Hb _ IH]; [reflexivity|].
  simpl. rewrite IH. f_equal. unfold u8. change 255 with (Z.ones 8).
  rewrite Z.land_ones by lia. apply Z.mod_small. exact Hb.
Qed.

Lemma malformed_header_law_witness :
  exists sys',
    main_timer_callback 0
      (mkSystem (uart0_rx_intr_handler true false [1; 1; 0; 2; 17; 34] [] uart_boot)
                (wifi_boot [2; 4; 6; 8; 10; 12]) main_boot) = Some sys'
    /\ pkt_expected (sys_main sys') = 0
    /\ rx_contents (sys_uart sys') = [0; 2; 17; 34].
Proof.
  destruct (malformed_header_law 0
              (mkSystem (uart0_rx_intr_handler true false [1; 1; 0; 2; 17; 34] [] uart_boot)
                        (wifi_boot [2; 4; 6; 8; 10; 12]) main_boot)
              1 1 [0; 2; 17; 34])
    as (sys' & E & He & _ & _ & _ & _ & Hc & _).
  - apply uart0_rx_intr_handler_fifo, uart_boot_wf.
  - reflexivity.
  - apply rx_contents_after_intr; [|simpl; lia].
    repeat constructor; unfold is_byte; lia.
  - right. vm_compute. reflexivity.
  - exists sys'. auto.
Defined.

(* ================================================================== *)
(** * The bridge: accumulation and hand-over                            *)
(* ================================================================== *)

Lemma raw_send_calls_app (a b : list event) :
  raw_send_calls (a ++ b) = raw_send_calls a ++ raw_send_calls b.
Proof.
  induction a as [|e a IH]; [reflexivity|].
  destruct e; simpl; rewrite IH; reflexivity.
Qed.

(** Every call of [wifi_raw_send] returns, and is recorded once. *)
Lemma wifi_raw_send_call (raw_data : option (list Z)) (len sdk_result : Z)
    (w : wifi_state) :
  wifi_wf w ->
  exists res w',
    wifi_raw_send raw_data len sdk_result w = Some (res, w')
    /\ wifi_wf w'
    /\ raw_send_calls (wifi_trace w') = raw_send_calls (wifi_trace w) ++ [(raw_data, len)].
Proof.
  intros Hwf.
  destruct (wifi_raw_send_cases raw_data len sdk_result w Hwf)
    as (res & w' & E & Hwf' & [(_ & _ & ->)|(d & fr & _ & _ & _ & _ & _ & _ & _ & _ & Htr & _)]).
  - eexists res, _. split; [exact E|]. split; [exact Hwf'|].
    simpl. rewrite raw_send_calls_app. reflexivity.
  - exists res, w'. split; [exact E|]. split; [exact Hwf'|].
    rewrite Htr, !raw_send_calls_app. simpl.
    destruct (sdk_result =? 0); simpl; rewrite ?app_nil_r; reflexivity.
Qed.

(** The accumulating half of a tick, when the receive ring holds [c], the
    next bytes of [payload] after the [pkt_received] already stored. *)
Lemma bridge_payload_accumulate (sdk_result : Z) (m : main_state) (u : uart_state)
    (w : wifi_state) (payload : list Z) :
  rx_wf u -> wifi_wf w -> length (packet_buffer m) = 256%nat ->
  (1 <= length payload <= 256)%nat ->
  pkt_expected m = Z.of_nat (length payload) ->
  0 <= pkt_received m < Z.of_nat (length payload) ->
  let recv := Z.to_nat (pkt_received m) in
  let n := length (rx_contents u) in
  take recv (packet_buffer m) = take recv payload ->
  rx_contents u = take n (drop recv payload) ->
  (recv + n <= length payload)%nat ->
  exists m' u' w',
    bridge_payload sdk_result m u w = Some (m', u', w')
    /\ rx_wf u' /\ rx_contents u' = [] /\ wifi_wf w'
    /\ length (packet_buffer m') = 256%nat
    /\ ((recv + n = length payload)%nat ->
        pkt_expected m' = 0
        /\ take (length payload) (packet_buffer m') = payload
        /\ raw_send_calls (wifi_trace w')
           = raw_send_calls (wifi_trace w)
             ++ [(Some (packet_buffer m'), Z.of_nat (length payload))])
    /\ ((recv + n < length payload)%nat ->
        pkt_expected m' = Z.of_nat (length payload)
        /\ pkt_received m' = Z.of_nat (recv + n)
        /\ take (recv + n) (packet_buffer m') = take (recv + n) payload
        /\ w' = w).
Proof.
  intros Hwf Hww Hpb HL He Hr recv n Hbuf Hc Hfit.
  unfold bridge_payload. rewrite He.
  destruct (Z.gtb_spec (Z.of_nat (length payload)) 0) as [_|Hbad]; [|lia].
  rewrite (uart_rx_available_spec u Hwf). fold n.
  assert (Hrem : u16 (Z.of_nat (length payload) - pkt_received m)
                 = Z.of_nat (length payload) - pkt_received m).
  { unfold u16. apply Z.mod_small. lia. }
  rewrite Hrem.
  assert (Hto : (if Z.of_nat n <? Z.of_nat (length payload) - pkt_received m
                 then Z.of_nat n else Z.of_nat (length payload) - pkt_received m)
                = Z.of_nat n).
  { destruct (Z.ltb_spec (Z.of_nat n) (Z.of_nat (length payload) - pkt_received m));
      [reflexivity|]. subst recv. lia. }
  rewrite Hto.
  destruct (Z.gtb_spec (Z.of_nat n) 0) as [Hpos|Hzero].
  - destruct (uart_read_bytes_spec (Z.of_nat n) u Hwf) as (Hw' & Hb & Hc').
    rewrite Nat2Z.id in Hb, Hc'.
    rewrite take_ge in Hb by (unfold n; lia).
    rewrite drop_ge in Hc' by (unfold n; lia).
    destruct (uart_read_bytes (Z.of_nat n) u) as [bytes u']. cbn [fst snd] in *.
    subst bytes.
    destruct (mem_write_Some (packet_buffer m) (pkt_received m) (rx_contents u))
      as (buf & Ew & Lw & Cw); [lia|fold n; subst recv; lia|].
    rewrite Ew. cbn [mbind option_bind]. cbn [pkt_received pkt_expected packet_buffer].
    fold n. fold recv in Cw.
    assert (Hrecv' : u16 (pkt_received m + Z.of_nat n) = Z.of_nat (recv + n)).
    { unfold u16. rewrite Z.mod_small; subst recv; lia. }
    rewrite Hrecv'.
    assert (Htk : take (recv + n) buf = take (recv + n) payload).
    { rewrite Cw, app_assoc. fold n.
      rewrite take_app_length'.
      - rewrite Hbuf, Hc. apply take_take_drop.
      - rewrite length_app, length_take. fold n. lia. }
    destruct (Z.geb_spec (Z.of_nat (recv + n)) (Z.of_nat (length payload))) as [Hge|Hlt].
    + destruct (wifi_raw_send_call (Some buf) (Z.of_nat (length payload)) sdk_result w Hww)
        as (res & w' & Es & Hww' & Hcalls).
      rewrite Es. cbn [mbind option_bind].
      eexists _, _, _. split; [reflexivity|].
      cbn [packet_buffer pkt_expected pkt_received].
      split; [exact Hw'|]. split; [exact Hc'|]. split; [exact Hww'|].
      split; [lia|]. split.
      * intros Heq. split; [reflexivity|]. split; [|exact Hcalls].
        rewrite <- Heq, Htk. apply take_ge. lia.
      * intros Hlt. lia.
    + eexists _, _, _. split; [reflexivity|].
      cbn [packet_buffer pkt_expected pkt_received].
      split; [exact Hw'|]. split; [exact Hc'|]. split; [exact Hww|].
      split; [lia|]. split; [intros; lia|].
      intros _. repeat split; auto.
  - assert (Hn0 : n = 0%nat) by lia.
    cbn [mbind option_bind]. rewrite He.
    destruct (Z.geb_spec (pkt_received m) (Z.of_nat (length payload))) as [Hge|Hlt]; [lia|].
    exists m, u, w. split; [reflexivity|].
    split; [exact Hwf|]. split; [apply nil_length_inv; exact Hn0|]. split; [exact Hww|].
    split; [exact Hpb|]. split; [intros; subst recv; lia|].
    intros _. rewrite Hn0, Nat.add_0_r. subst recv. rewrite Z2Nat.id by lia.
    repeat split; auto.
Qed.

(* ================================================================== *)
(** * The bridge: one packet, however it is split                       *)
(* ================================================================== *)

Lemma u8_byte (b : Z) : is_byte b -> u8 b = b.
Proof.
  intros Hb. unfold u8. change 255 with (Z.ones 8).
  rewrite Z.land_ones by lia. apply Z.mod_small. exact Hb.
Qed.

Lemma map_u8_bytes (bytes : list Z) : Forall is_byte bytes -> map u8 bytes = bytes.
Proof.
  induction 1 as [|b bs Hb _ IH]; [reflexivity|].
  simpl. rewrite IH, u8_byte by assumption. reflexivity.
Qed.

Lemma land_255_byte (x : Z) : is_byte (Z.land x 255).
Proof.
  unfold is_byte. change 255 with (Z.ones 8). rewrite Z.land_ones by lia.
  apply Z.mod_pos_bound. lia.
Qed.

(** The two prefix bytes announce the length they were made from. *)
Lemma announced_prefix (L : Z) :
  0 <= L < 65536 -> announced (Z.land (Z.shiftr L 8) 255) (Z.land L 255) = L.
Proof.
  intros HL. unfold announced, u16.
  assert (E : Z.lor (Z.shiftl (Z.land (Z.shiftr L 8) 255) 8) (Z.land L 255)
              = L mod 65536).
  { change 65536 with (2 ^ 16). rewrite <- Z.land_ones by lia.
    change 255 with (Z.ones 8).
    apply Z.bits_inj'. intros n Hn.
    rewrite Z.lor_spec, !Z.land_spec.
    destruct (Z.lt_ge_cases n 8) as [H8|H8].
    - rewrite Z.shiftl_spec_low by lia.
      rewrite !Z.ones_spec_low by lia. reflexivity.
    - rewrite Z.shiftl_spec_high by lia.
      rewrite Z.land_spec, Z.shiftr_spec by lia.
      rewrite (Z.ones_spec_high 8 n) by lia.
      replace (n - 8 + 8) with n by lia.
      destruct (Z.lt_ge_cases n 16) as [H16|H16].
      + rewrite !Z.ones_spec_low by lia. now rewrite andb_false_r, orb_false_r.
      + rewrite !Z.ones_spec_high by lia. now rewrite !andb_false_r. }
  rewrite E, Z.mod_mod by lia. apply Z.mod_small. exact HL.
Qed.

Section Reassembly.

Variable payload : list Z.
Variable calls0 : list (option (list Z) * Z).
Hypothesis payload_length : (1 <= length payload <= 256)%nat.
Hypothesis payload_bytes : Forall is_byte payload.

Lemma packet_length : length (length_prefixed payload) = (2 + length payload)%nat.
Proof. reflexivity. Qed.

Lemma packet_bytes : Forall is_byte (length_prefixed payload).
Proof.
  unfold length_prefixed. cbn [app].
  repeat constructor; try apply land_255_byte. exact payload_bytes.
Qed.

Lemma packet_validated :
  validated (announced (Z.land (Z.shiftr (Z.of_nat (length payload)) 8) 255)
                       (Z.land (Z.of_nat (length payload)) 255))
  = Z.of_nat (length payload).
Proof.
  rewrite announced_prefix by lia. unfold validated, MAX_PACKET_SIZE.
  destruct (Z.eqb_spec (Z.of_nat (length payload)) 0); [lia|].
  destruct (Z.gtb_spec (Z.of_nat (length payload)) 256); [lia|]. reflexivity.
Qed.

(** A prefix of the packet with the two length bytes in it. *)
Lemma packet_prefix_long (d : list Z) :
  d `prefix_of` (length_prefixed payload) -> (2 <= length d)%nat ->
  d = [Z.land (Z.shiftr (Z.of_nat (length payload)) 8) 255;
       Z.land (Z.of_nat (length payload)) 255]
      ++ take (length d - 2) payload.
Proof.
  intros (k & Hk) Hlen.
  assert (Hd : d = take (length d) (length_prefixed payload))
    by (rewrite Hk; now rewrite take_app_length).
  rewrite Hd at 1. unfold length_prefixed.
  destruct (length d) as [|[|n]]; [lia|lia|]. cbn [app take].
  replace (S (S n) - 2)%nat with n by lia. reflexivity.
Qed.

Lemma prefix_length_le (a b : list Z) : a `prefix_of` b -> (length a <= length b)%nat.
Proof. intros (k & ->). rewrite length_app. lia. Qed.

Lemma prefix_same_length (a b : list Z) :
  a `prefix_of` b -> (length b <= length a)%nat -> a = b.
Proof.
  intros (k & ->) Hl. rewrite length_app in Hl.
  destruct k; [now rewrite app_nil_r|simpl in Hl; lia].
Qed.

(** A receive interrupt that brings more of the packet. *)
Lemma bridge_inv_arrive (sys : system) (d t : list Z)
    (full_st tout_st : bool) (fifo_full fifo_tout : list Z) :
  bridge_inv payload calls0 sys d t ->
  (d ++ rx_intr_bytes full_st tout_st fifo_full fifo_tout) `prefix_of` (length_prefixed payload) ->
  bridge_inv payload calls0
    (mkSystem (uart0_rx_intr_handler full_st tout_st fifo_full fifo_tout (sys_uart sys))
              (sys_wifi sys) (sys_main sys))
    (d ++ rx_intr_bytes full_st tout_st fifo_full fifo_tout) t.
Proof.
  intros (Hwf & Hww & Hpb & Hd & Ht & Hph) Hd'.
  set (bytes := rx_intr_bytes full_st tout_st fifo_full fifo_tout) in *.
  destruct (uart0_rx_intr_handler_fifo full_st tout_st fifo_full fifo_tout
              (sys_uart sys) Hwf) as (Hwf' & Hc).
  cbv zeta in Hc. fold bytes in Hc.
  assert (Hbytes : Forall is_byte bytes).
  { destruct Hd' as (k & Hk). pose proof packet_bytes as HP. rewrite Hk in HP.
    apply Forall_app in HP. destruct HP as (HP & _).
    apply Forall_app in HP. apply HP. }
  rewrite (map_u8_bytes _ Hbytes) in Hc.
  pose proof (prefix_length_le _ _ Hd') as Hl'. rewrite length_app, packet_length in Hl'.
  pose proof (prefix_length_le _ _ Ht) as Hlt.
  assert (Hcl : (length (rx_contents (sys_uart sys)) <= length d)%nat).
  { destruct Hph as [(_ & _ & -> & _)|[(_ & _ & _ & _ & -> & _)|(_ & _ & -> & _)]];
      [lia|rewrite length_drop; lia|simpl; lia]. }
  assert (Hc' : rx_contents (uart0_rx_intr_handler full_st tout_st fifo_full fifo_tout
                               (sys_uart sys))
                = rx_contents (sys_uart sys) ++ bytes).
  { rewrite Hc. unfold fifo_write, fifo_capacity. cbn [snd].
    rewrite take_ge by lia. reflexivity. }
  unfold bridge_inv. cbn [sys_main sys_uart sys_wifi].
  split; [exact Hwf'|]. split; [exact Hww|]. split; [exact Hpb|].
  split; [exact Hd'|]. split; [now apply prefix_app_r|].
  rewrite Hc'.
  destruct Hph as [(H1 & H2 & H3 & H4)|[(H1 & H2 & H3 & H4 & H5 & H6)|(H1 & H2 & H3 & H4 & H5)]].
  - left. rewrite H3. auto.
  - right. left. rewrite H5, drop_app_le by lia. auto 10.
  - right. right. rewrite H3.
    assert (Hb0 : bytes = []).
    { apply nil_length_inv. rewrite H1, packet_length in Hlt. lia. }
    rewrite Hb0. auto 10.
Qed.

(** A tick. *)
Lemma bridge_inv_tick (sdk_result : Z) (sys : system) (d t : list Z) :
  bridge_inv payload calls0 sys d t ->
  exists sys',
    main_timer_callback sdk_result sys = Some sys'
    /\ bridge_inv payload calls0 sys' d d.
Proof.
  intros (Hwf & Hww & Hpb & Hd & Ht & Hph).
  destruct (led_heartbeat_frame (sys_main sys)) as (He & Hr & Hb).
  pose proof (prefix_length_le _ _ Hd) as Hld. rewrite packet_length in Hld.
  pose proof (prefix_length_le _ _ Ht) as Hlt.
  unfold main_timer_callback.
  set (m := led_heartbeat (sys_main sys)) in *.
  destruct Hph as [(H1 & H2 & H3 & H4)|[(H1 & H2 & H3 & H4 & H5 & H6)|(H1 & H2 & H3 & H4 & H5)]].
  - (* the prefix has not been read *)
    destruct (Nat.lt_ge_cases (length d) 2) as [Hshort|Hlong].
    + rewrite bridge_header_idle by (rewrite ?H3; assumption).
      rewrite bridge_payload_idle by congruence. cbn [mbind option_bind].
      eexists. split; [reflexivity|]. unfold bridge_inv. cbn [sys_main sys_uart sys_wifi].
      split; [exact Hwf|]. split; [exact Hww|]. split; [congruence|].
      split; [exact Hd|]. split; [reflexivity|].
      left. repeat split; congruence.
    + pose proof (packet_prefix_long d Hd Hlong) as Hdd.
      assert (Hc : rx_contents (sys_uart sys)
                   = Z.land (Z.shiftr (Z.of_nat (length payload)) 8) 255
                     :: Z.land (Z.of_nat (length payload)) 255
                     :: take (length d - 2) payload) by (rewrite H3; exact Hdd).
      destruct (bridge_header_read m (sys_uart sys) _ _ _ Hwf ltac:(congruence) Hc)
        as (u' & Eh & Hwf' & Hc').
      rewrite packet_validated in Eh. rewrite Eh.
      set (m1 := mkMain _ _ _ _ _ _).
      assert (Hn : length (rx_contents u') = (length d - 2)%nat).
      { rewrite Hc', length_take. lia. }
      destruct (bridge_payload_accumulate sdk_result m1 u' (sys_wifi sys) payload)
        as (m' & u'' & w' & Ep & Hwf'' & Hc'' & Hww' & Hpb' & Hdone & Hmore);
        try assumption; try reflexivity.
      { unfold m1. cbn [packet_buffer]. congruence. }
      { unfold m1. cbn [pkt_received]. lia. }
      { unfold m1. cbn [pkt_received]. rewrite Hn, Hc'. reflexivity. }
      { unfold m1. cbn [pkt_received]. rewrite Hn. simpl. lia. }
      rewrite Ep. cbn [mbind option_bind].
      eexists. split; [reflexivity|]. unfold bridge_inv. cbn [sys_main sys_uart sys_wifi].
      split; [exact Hwf''|]. split; [exact Hww'|]. split; [exact Hpb'|].
      split; [exact Hd|]. split; [reflexivity|].
      unfold m1 in Hdone, Hmore. cbn [pkt_received] in Hdone, Hmore.
      rewrite Hn in Hdone, Hmore. change (Z.to_nat 0) with 0%nat in Hdone, Hmore.
      destruct (Nat.eq_dec (length d) (2 + length payload)) as [Hall|Hpart].
      * destruct Hdone as (E1 & E2 & E3); [lia|].
        right. right. split; [apply prefix_same_length; [exact Hd|rewrite packet_length; lia]|].
        split; [exact E1|]. split; [exact Hc''|]. split; [exact E2|].
        rewrite E3, H4. reflexivity.
      * destruct Hmore as (E1 & E2 & E3 & E4); [lia|].
        right. left. split; [lia|]. split; [exact E1|]. split; [rewrite E2; f_equal|].
        split; [exact E3|]. split; [now rewrite Hc'', drop_all|]. now rewrite E4.
  - (* payload bytes are being accumulated *)
    rewrite bridge_header_busy by (rewrite He, H2; lia).
    pose proof (packet_prefix_long d Hd ltac:(lia)) as Hdd.
    assert (Hn : length (rx_contents (sys_uart sys)) = (length d - length t)%nat).
    { rewrite H5, length_drop. reflexivity. }
    assert (Hseg : rx_contents (sys_uart sys)
                   = take (length d - length t) (drop (length t - 2) payload)).
    { rewrite H5. rewrite Hdd at 1.
      replace (length t) with (2 + (length t - 2))%nat at 1 by lia.
      rewrite <- drop_drop. cbn [app drop].
      rewrite take_drop_commute, drop_0. do 2 f_equal. lia. }
    destruct (bridge_payload_accumulate sdk_result m (sys_uart sys) (sys_wifi sys) payload)
      as (m' & u'' & w' & Ep & Hwf'' & Hc'' & Hww' & Hpb' & Hdone & Hmore);
      try assumption; try congruence.
    { rewrite Hr, H3. lia. }
    { rewrite Hr, H3, Nat2Z.id, Hb. exact H4. }
    { rewrite Hr, H3, Nat2Z.id, Hn. exact Hseg. }
    { rewrite Hr, H3, Nat2Z.id, Hn. lia. }
    rewrite Ep. cbn [mbind option_bind].
    eexists. split; [reflexivity|]. unfold bridge_inv. cbn [sys_main sys_uart sys_wifi].
    split; [exact Hwf''|]. split; [exact Hww'|]. split; [exact Hpb'|].
    split; [exact Hd|]. split; [reflexivity|].
    rewrite Hr, H3, Nat2Z.id, Hn in Hdone, Hmore.
    replace (length t - 2 + (length d - length t))%nat with (length d - 2)%nat
      in Hdone, Hmore by lia.
    destruct (Nat.eq_dec (length d) (2 + length payload)) as [Hall|Hpart].
    * destruct Hdone as (E1 & E2 & E3); [lia|].
      right. right. split; [apply prefix_same_length; [exact Hd|rewrite packet_length; lia]|].
      split; [exact E1|]. split; [exact Hc''|]. split; [exact E2|].
      rewrite E3, H6. reflexivity.
    * destruct Hmore as (E1 & E2 & E3 & E4); [lia|].
      right. left. split; [lia|]. split; [exact E1|]. split; [exact E2|].
      split; [exact E3|]. split; [now rewrite Hc'', drop_all|]. now rewrite E4.
  - (* the packet has been handed over *)
    rewrite bridge_header_idle by (rewrite ?H3; simpl; try assumption; lia).
    rewrite bridge_payload_idle by congruence. cbn [mbind option_bind].
    eexists. split; [reflexivity|]. unfold bridge_inv. cbn [sys_main sys_uart sys_wifi].
    split; [exact Hwf|]. split; [exact Hww|]. split; [congruence|].
    split; [exact Hd|]. split; [reflexivity|].
    right. right.
    split; [apply prefix_same_length; [exact Hd|subst t; exact Hlt]|].
    split; [congruence|]. split; [exact H3|]. rewrite Hb. auto.
Qed.

(** A whole schedule. *)
Lemma bridge_inv_run (sched : list bridge_event) (sys : system) (d t : list Z) :
  bridge_inv payload calls0 sys d t ->
  (d ++ arrived sched) `prefix_of` (length_prefixed payload) ->
  exists sys',
    bridge_run sched sys = Some sys'
    /\ bridge_inv payload calls0 sys' (d ++ arrived sched) (scan sched d t).
Proof.
  revert sys d t.
  induction sched as [|[full_st tout_st fifo_full fifo_tout|r] sched IH];
    intros sys d t Hinv Hpre.
  - exists sys. simpl. rewrite app_nil_r. auto.
  - cbn [arrived] in *. rewrite app_assoc in *.
    cbn [bridge_run bridge_step mbind option_bind scan].
    apply IH; [|exact Hpre].
    apply bridge_inv_arrive; [exact Hinv|].
    destruct Hpre as (k & Hk). exists (arrived sched ++ k).
    rewrite Hk, <- !app_assoc. reflexivity.
  - cbn [arrived] in *.
    destruct (bridge_inv_tick r sys d t Hinv) as (sys1 & E & Hinv1).
    cbn [bridge_run bridge_step scan]. rewrite E. cbn [mbind option_bind].
    apply IH; assumption.
Qed.

End Reassembly.

(** ** C1 *)

(** C1.  Let the bridge wait for a header with an empty receive ring, and
    let the bytes [LEN_HI][LEN_LO][payload] of a payload of 1 to 256 bytes
    come in through receive interrupts, split in any way and interleaved
    with ticks in any way.  Every tick returns.  Once a tick has run after
    the last byte arrived, exactly one call of [wifi_raw_send] has been
    made, its arguments being the packet buffer, whose first [L] bytes are
    the payload in order, and [L]; the ring is drained and the bridge
    waits for the next header.  As long as no tick has seen the whole
    packet, no call has been made. *)
Theorem reassembly_law (payload : list Z) (sched : list bridge_event) (sys : system) :
  (1 <= length payload <= 256)%nat ->
  Forall is_byte payload ->
  rx_wf (sys_uart sys) -> rx_contents (sys_uart sys) = [] ->
  wifi_wf (sys_wifi sys) ->
  length (packet_buffer (sys_main sys)) = 256%nat ->
  pkt_expected (sys_main sys) = 0 ->
  arrived sched `prefix_of` length_prefixed payload ->
  exists sys',
    bridge_run sched sys = Some sys'
    /\ (scan sched [] [] = length_prefixed payload ->
        raw_send_calls (wifi_trace (sys_wifi sys'))
        = raw_send_calls (wifi_trace (sys_wifi sys))
          ++ [(Some (packet_buffer (sys_main sys')), Z.of_nat (length payload))]
        /\ take (length payload) (packet_buffer (sys_main sys')) = payload
        /\ rx_contents (sys_uart sys') = []
        /\ pkt_expected (sys_main sys') = 0)
    /\ (scan sched [] [] <> length_prefixed payload ->
        raw_send_calls (wifi_trace (sys_wifi sys'))
        = raw_send_calls (wifi_trace (sys_wifi sys))).
Proof.
  intros HL Hbytes Hwf Hc Hww Hpb He Hpre.
  assert (Hinv : bridge_inv payload (raw_send_calls (wifi_trace (sys_wifi sys))) sys [] []).
  { unfold bridge_inv. split; [exact Hwf|]. split; [exact Hww|]. split; [exact Hpb|].
    split; [apply prefix_nil|]. split; [reflexivity|].
    left. simpl. repeat split; auto; lia. }
  destruct (bridge_inv_run payload _ HL Hbytes sched sys [] [] Hinv Hpre)
    as (sys' & E & _ & _ & _ & _ & _ & Hph).
  exists sys'. split; [exact E|].
  destruct Hph as [(H1 & H2 & H3 & H4)|[(H1 & H2 & H3 & H4 & H5 & H6)|(H1 & H2 & H3 & H4 & H5)]].
  - split; [|intros _; exact H4].
    intros Hs. rewrite Hs in H1. simpl in H1. lia.
  - split; [|intros _; exact H6].
    intros Hs. rewrite Hs in H1. simpl in H1. lia.
  - split; [|intros Hs; contradiction].
    intros _. auto.
Qed.

(** Two bytes, a tick, two more bytes, a tick: no call after the first
    tick, one call with payload 11 22 after the second. *)
Lemma reassembly_law_witness :
  (exists sys1,
     bridge_run [Arrive true false [0; 2] []; Tick 0]
       (system_boot [2; 4; 6; 8; 10; 12]) = Some sys1
     /\ raw_send_calls (wifi_trace (sys_wifi sys1)) = [])
  /\ (exists sys2,
        bridge_run [Arrive true false [0; 2] []; Tick 0;
                    Arrive false true [] [17; 34]; Tick 0]
          (system_boot [2; 4; 6; 8; 10; 12]) = Some sys2
        /\ raw_send_calls (wifi_trace (sys_wifi sys2))
           = [(Some (packet_buffer (sys_main sys2)), 2)]
        /\ take 2 (packet_buffer (sys_main sys2)) = [17; 34]).
Proof.
  assert (HL : (1 <= length [17; 34] <= 256)%nat) by (simpl; lia).
  assert (Hb : Forall is_byte [17; 34]) by (repeat constructor; unfold is_byte; lia).
  assert (Hw : wifi_wf (sys_wifi (system_boot [2; 4; 6; 8; 10; 12])))
    by (apply wifi_boot_wf; reflexivity).
  assert (Hp : length (packet_buffer (sys_main (system_boot [2; 4; 6; 8; 10; 12])))
               = 256%nat) by apply length_replicate.
  split.
  - destruct (reassembly_law [17; 34] [Arrive true false [0; 2] []; Tick 0]
                (system_boot [2; 4; 6; 8; 10; 12]) HL Hb (proj1 uart_boot_wf)
                eq_refl Hw Hp eq_refl)
      as (sys1 & E & _ & Hnone).
    + exists [17; 34]. reflexivity.
    + exists sys1. split; [exact E|]. apply Hnone. discriminate.
  - destruct (reassembly_law [17; 34]
                [Arrive true false [0; 2] []; Tick 0; Arrive false true [] [17; 34]; Tick 0]
                (system_boot [2; 4; 6; 8; 10; 12]) HL Hb (proj1 uart_boot_wf)
                eq_refl Hw Hp eq_refl)
      as (sys2 & E & Hone & _).
    + exists []. reflexivity.
    + exists sys2. split; [exact E|].
      destruct (Hone eq_refl) as (Hc & Ht & _). split; [exact Hc|exact Ht].
Defined.

(* ================================================================== *)
(** * More on the UART driver                                           *)
(* ================================================================== *)

(** X1.  [uart_rx_available] is the number of bytes waiting, never more
    than 1023; [uart_read_bytes] returns the oldest
    [min (max_len, available)] of them and leaves the rest available. *)
Theorem uart_read_bytes_available (max_len : Z) (s : uart_state) :
  rx_wf s -> 0 <= max_len ->
  0 <= uart_rx_available s <= 1023
  /\ uart_rx_available s = Z.of_nat (length (rx_contents s))
  /\ (uart_read_bytes max_len s).1 = take (Z.to_nat max_len) (rx_contents s)
  /\ Z.of_nat (length (uart_read_bytes max_len s).1)
     = Z.min max_len (uart_rx_available s)
  /\ uart_rx_available (uart_read_bytes max_len s).2
     = uart_rx_available s - Z.min max_len (uart_rx_available s).
Proof.
  intros Hwf Hm.
  destruct (uart_read_bytes_spec max_len s Hwf) as (Hw' & Hb & Hc).
  pose proof (ring_contents_length (uart_rx_buffer s) (uart_rx_head s) (uart_rx_tail s)) as Hl.
  pose proof (ring_occupancy_range (uart_rx_head s) (uart_rx_tail s)) as Hr.
  fold (rx_contents s) in Hl.
  rewrite (uart_rx_available_spec _ Hw'), (uart_rx_available_spec _ Hwf), Hc, Hb.
  rewrite length_take, length_drop. repeat split; lia.
Qed.

Lemma uart_read_bytes_available_witness :
  let s := uart0_rx_intr_handler true false [10; 20; 30] [] uart_boot in
  uart_rx_available s = 3
  /\ (uart_read_bytes 2 s).1 = [10; 20]
  /\ uart_rx_available (uart_read_bytes 2 s).2 = 1.
Proof.
  cbv zeta.
  assert (Hwf : rx_wf (uart0_rx_intr_handler true false [10; 20; 30] [] uart_boot))
    by apply uart0_rx_intr_handler_fifo, uart_boot_wf.
  assert (Hc : rx_contents (uart0_rx_intr_handler true false [10; 20; 30] [] uart_boot)
               = [10; 20; 30]).
  { apply rx_contents_after_intr; [|simpl; lia].
    repeat constructor; unfold is_byte; lia. }
  destruct (uart_read_bytes_available 2 _ Hwf ltac:(lia)) as (_ & Ha & Hb & _ & Hr).
  rewrite Hr, Hb, Ha, Hc. repeat split.
Defined.

(** X2.  [uart_read_byte] is [uart_read_bytes] with [max_len = 1]: it
    fails exactly when nothing waits, and otherwise hands out the oldest
    byte and removes just that one. *)
Theorem uart_read_byte_oldest (s : uart_state) :
  rx_wf s ->
  (uart_read_byte s).1 = head (rx_contents s)
  /\ (uart_read_byte s).1 = head (uart_read_bytes 1 s).1
  /\ (uart_read_byte s).2 = (uart_read_bytes 1 s).2
  /\ rx_contents (uart_read_byte s).2 = tail (rx_contents s)
  /\ rx_wf (uart_read_byte s).2
  /\ ((uart_read_byte s).1 = None <-> uart_rx_available s = 0).
Proof.
  intros Hwf. pose proof Hwf as (Hlen & Hh & Ht).
  destruct (uart_read_bytes_spec 1 s Hwf) as (Hw' & Hb & Hc).
  change (Z.to_nat 1) with 1%nat in Hb, Hc.
  rewrite (uart_rx_available_spec _ Hwf).
  assert (E : uart_read_byte s = (head (uart_read_bytes 1 s).1, (uart_read_bytes 1 s).2)).
  { unfold uart_read_byte, uart_read_bytes. change (Z.to_nat 1) with 1%nat.
    cbn [rx_read_loop].
    destruct (uart_rx_tail s =? uart_rx_head s); reflexivity. }
  rewrite E. cbn [fst snd]. rewrite Hb, Hc.
  split; [now destruct (rx_contents s)|]. split; [reflexivity|].
  split; [reflexivity|].
  split; [now destruct (rx_contents s)|]. split; [exact Hw'|].
  destruct (rx_contents s) as [|b rest]; simpl; split; intros; discriminate || lia || auto.
Qed.

Lemma uart_read_byte_oldest_witness :
  (uart_read_byte (uart0_rx_intr_handler true false [10; 20; 30] [] uart_boot)).1
  = Some 10.
Proof.
  destruct (uart_read_byte_oldest
              (uart0_rx_intr_handler true false [10; 20; 30] [] uart_boot))
    as (H & _).
  - apply uart0_rx_intr_handler_fifo, uart_boot_wf.
  - rewrite H, rx_contents_after_intr; [reflexivity| |simpl; lia].
    repeat constructor; unfold is_byte; lia.
Defined.

Lemma u32_succ_add (a k : Z) : u32 (u32 (a + 1) + k) = u32 (a + (1 + k)).
Proof. unfold u32. zmod. Qed.

Lemma rx_drain_overflow (fifo : list Z) (s : uart_state) :
  rx_wf s ->
  let dropped :=
    (length fifo - Z.to_nat (1023 - ring_occupancy (uart_rx_head s) (uart_rx_tail s)))%nat in
  uart_rx_overflow_count (rx_drain fifo s)
  = if (dropped =? 0)%nat then uart_rx_overflow_count s
    else u32 (uart_rx_overflow_count s + Z.of_nat dropped).
Proof.
  revert s. induction fifo as [|reg rest IH]; intros s Hwf; cbv zeta.
  - reflexivity.
  - simpl rx_drain. destruct (rx_store_spec reg s Hwf) as (Hwf' & Hs).
    rewrite (IH _ Hwf'). cbv zeta.
    pose proof (ring_occupancy_range (uart_rx_head s) (uart_rx_tail s)) as Hr.
    pose proof (ring_contents_length (uart_rx_buffer (rx_store reg s))
                  (uart_rx_head (rx_store reg s)) (uart_rx_tail (rx_store reg s))) as Hl'.
    pose proof (ring_contents_length (uart_rx_buffer s)
                  (uart_rx_head s) (uart_rx_tail s)) as Hl.
    fold (rx_contents (rx_store reg s)) in Hl'. fold (rx_contents s) in Hl.
    destruct (Z.ltb_spec (ring_occupancy (uart_rx_head s) (uart_rx_tail s)) 1023)
      as [Hlt|Hge]; destruct Hs as (Hs & Ho); rewrite Hs in Hl'; rewrite Ho.
    + rewrite length_app in Hl'. simpl length in Hl'.
      assert (Hocc : ring_occupancy (uart_rx_head (rx_store reg s))
                       (uart_rx_tail (rx_store reg s))
                     = ring_occupancy (uart_rx_head s) (uart_rx_tail s) + 1) by lia.
      rewrite Hocc.
      replace (length rest
               - Z.to_nat (1023 - (ring_occupancy (uart_rx_head s) (uart_rx_tail s) + 1)))%nat
        with (length (reg :: rest)
              - Z.to_nat (1023 - ring_occupancy (uart_rx_head s) (uart_rx_tail s)))%nat
        by (simpl length; lia).
      reflexivity.
    + rewrite <- Hl', Hl.
      replace (Z.to_nat (1023 - ring_occupancy (uart_rx_head s) (uart_rx_tail s)))
        with 0%nat by lia.
      rewrite !Nat.sub_0_r. simpl length.
      destruct (length rest) as [|n]; [reflexivity|].
      cbn [Nat.eqb]. rewrite u32_succ_add. f_equal. lia.
Qed.

(** X3.  A receive interrupt stores the bytes that fit, in order and
    masked to 8 bits, drops the rest, and counts every dropped byte in
    [uart_rx_overflow_count]; it never moves the read index, so what was
    waiting stays at the head of the ring. *)
Theorem rx_interrupt_overflow (full_st tout_st : bool) (fifo_full fifo_tout : list Z)
    (s : uart_state) :
  rx_wf s ->
  let s' := uart0_rx_intr_handler full_st tout_st fifo_full fifo_tout s in
  let bytes := rx_intr_bytes full_st tout_st fifo_full fifo_tout in
  let free := Z.to_nat (1023 - uart_rx_available s) in
  rx_wf s'
  /\ rx_contents s' = rx_contents s ++ take free (map u8 bytes)
  /\ uart_rx_overflow_count s'
     = (if (length bytes - free =? 0)%nat then uart_rx_overflow_count s
        else u32 (uart_rx_overflow_count s + Z.of_nat (length bytes - free)))
  /\ uart_rx_tail s' = uart_rx_tail s.
Proof.
  intros Hwf. cbv zeta. rewrite uart0_rx_intr_handler_drain.
  destruct (rx_drain_spec (rx_intr_bytes full_st tout_st fifo_full fifo_tout) s Hwf)
    as (Hw & Hc).
  pose proof (ring_contents_length (uart_rx_buffer s) (uart_rx_head s) (uart_rx_tail s)) as Hl.
  fold (rx_contents s) in Hl.
  rewrite (uart_rx_available_spec _ Hwf), Hl.
  split; [exact Hw|]. split; [exact Hc|].
  split; [exact (rx_drain_overflow _ s Hwf)|]. apply rx_drain_frame.
Qed.

Lemma rx_interrupt_overflow_witness :
  let s := uart0_rx_intr_handler true true [1; 2] [3] uart_boot in
  rx_contents s = [1; 2; 3] /\ uart_rx_overflow_count s = 0.
Proof.
  cbv zeta.
  destruct (rx_interrupt_overflow true true [1; 2] [3] uart_boot)
    as (_ & Hc & Ho & _).
  - exact (proj1 uart_boot_wf).
  - rewrite Hc, Ho. split; reflexivity.
Defined.

(** X4.  [uart_write_bytes] with room for all [len] bytes accepts them
    all: it returns [len], counts no overflow, and the bytes leaving
    through the ring are extended by exactly [data]. *)
Theorem uart_write_bytes_fits (data : list Z) (st : bool) (s : uart_state) :
  tx_wf s -> Z.of_nat (length data) <= tx_free s ->
  (uart_write_bytes data st s).1 = Z.of_nat (length data)
  /\ uart_fifo_out (uart_write_bytes data st s).2
       ++ tx_contents (uart_write_bytes data st s).2
     = uart_fifo_out s ++ tx_contents s ++ data
  /\ uart_tx_overflow_count (uart_write_bytes data st s).2 = uart_tx_overflow_count s
  /\ tx_wf (uart_write_bytes data st s).2.
Proof.
  intros Hwf Hfit.
  destruct (uart_write_bytes_spec data st s Hwf) as (Hw & Hn & _ & _ & Ho & _).
  pose proof (uart_write_bytes_stream data st s Hwf) as Hs.
  rewrite take_ge in Hn, Hs by lia.
  split; [exact Hn|]. split; [exact Hs|]. split; [|exact Hw].
  rewrite Ho. destruct (Z.leb_spec (Z.of_nat (length data)) (tx_free s)); [reflexivity|lia].
Qed.

Lemma uart_write_bytes_fits_witness :
  (uart_write_bytes [1; 2; 3] true uart_boot).1 = 3
  /\ uart_fifo_out (uart_write_bytes [1; 2; 3] true uart_boot).2
       ++ tx_contents (uart_write_bytes [1; 2; 3] true uart_boot).2
     = [1; 2; 3].
Proof.
  destruct (uart_write_bytes_fits [1; 2; 3] true uart_boot) as (Hn & Hs & _).
  - exact (proj2 uart_boot_wf).
  - vm_compute. discriminate.
  - split; [exact Hn|]. rewrite Hs. reflexivity.
Defined.

(** X5.  [uart_write_byte] succeeds exactly when the ring is not full; on
    success the byte joins the stream, on failure nothing is queued and
    one overflow is counted. *)
Theorem uart_write_byte_full (byte : Z) (st : bool) (s : uart_state) :
  tx_wf s ->
  let r := uart_write_byte byte st s in
  (r.1 = true <-> 0 < tx_free s)
  /\ (0 < tx_free s ->
      uart_fifo_out r.2 ++ tx_contents r.2 = uart_fifo_out s ++ tx_contents s ++ [byte]
      /\ uart_tx_overflow_count r.2 = uart_tx_overflow_count s)
  /\ (tx_free s = 0 ->
      uart_fifo_out r.2 ++ tx_contents r.2 = uart_fifo_out s ++ tx_contents s
      /\ uart_tx_overflow_count r.2 = u32 (uart_tx_overflow_count s + 1)).
Proof.
  intros Hwf. cbv zeta. unfold uart_write_byte.
  destruct (uart_write_bytes_spec [byte] st s Hwf) as (_ & Hn & _ & _ & Ho & _).
  pose proof (uart_write_bytes_stream [byte] st s Hwf) as Hs.
  pose proof (tx_free_range s) as Hr.
  destruct (uart_write_bytes [byte] st s) as [n s']. cbn [fst snd] in *.
  destruct (Z.eq_dec (tx_free s) 0) as [E|E].
  - rewrite E in *. simpl in Hn, Hs, Ho. subst n. rewrite app_nil_r in Hs.
    split; [split; [discriminate|lia]|]. split; [lia|]. auto.
  - replace (Z.to_nat (tx_free s)) with (S (Z.to_nat (tx_free s - 1))) in Hn, Hs by lia.
    cbn [take length] in Hn, Hs. rewrite take_nil in Hn, Hs. cbn [length] in Hn.
    subst n. change (Z.of_nat 1 =? 1) with true.
    destruct (Z.leb_spec (Z.of_nat (length [byte])) (tx_free s)) as [_|Hbad];
      [|simpl in Hbad; lia].
    split; [split; [lia|reflexivity]|]. split; [auto|lia].
Qed.

Lemma uart_write_byte_full_witness :
  (uart_write_byte 5 false (uart_tx_filled 1023)).1 = false
  /\ (uart_write_byte 5 false (uart_tx_filled 1022)).1 = true.
Proof.
  destruct (uart_write_byte_full 5 false (uart_tx_filled 1023)) as (H1 & _ & _).
  { apply uart_tx_filled_wf. lia. }
  destruct (uart_write_byte_full 5 false (uart_tx_filled 1022)) as (H2 & _ & _).
  { apply uart_tx_filled_wf. lia. }
  rewrite uart_tx_filled_free in H1, H2 by lia. split.
  - destruct (uart_write_byte 5 false (uart_tx_filled 1023)).1; [|reflexivity].
    assert (0 < 1023 - 1023) by (apply H1; reflexivity). lia.
  - apply H2. lia.
Defined.

Lemma tx_drain_ena (n : nat) (s : uart_state) :
  txfifo_empty_int_ena (tx_drain n s) = txfifo_empty_int_ena s.
Proof.
  revert s. induction n as [|n IH]; intros s; simpl; [reflexivity|].
  destruct (negb _); [|reflexivity]. rewrite IH. reflexivity.
Qed.

Lemma uart0_tx_intr_handler_ena (s : uart_state) :
  tx_wf s ->
  txfifo_empty_int_ena (uart0_tx_intr_handler true s)
  = (if (length (tx_contents s) <=? 128)%nat then false else txfifo_empty_int_ena s).
Proof.
  intros Hwf. unfold uart0_tx_intr_handler.
  destruct (tx_drain_spec 128 s Hwf) as (Hw1 & _ & Hc1 & _).
  pose proof (tx_drain_ena 128 s) as He.
  set (s1 := tx_drain 128 s) in *. clearbody s1.
  pose proof Hw1 as (_ & Hh1 & Ht1).
  pose proof (ring_empty _ _ Hh1 Ht1) as Hemp.
  pose proof (ring_contents_length (uart_tx_buffer s1) (uart_tx_head s1)
                (uart_tx_tail s1)) as Hl.
  fold (tx_contents s1) in Hl. rewrite Hc1, length_drop in Hl.
  destruct (Z.eqb_spec (uart_tx_tail s1) (uart_tx_head s1)) as [E|E].
  - apply Hemp in E.
    destruct (Nat.leb_spec (length (tx_contents s)) 128); [reflexivity|lia].
  - destruct (Nat.leb_spec (length (tx_contents s)) 128); [|exact He].
    exfalso. apply E, Hemp. lia.
Qed.

(** X6.  One run of the transmit handler moves the oldest bytes of the
    ring, at most 128 and in order, to the hardware FIFO, and nothing when
    its status bit is clear; it switches the transmit interrupt off exactly
    when that leaves the ring empty. *)
Theorem tx_handler_moves (st : bool) (s : uart_state) :
  tx_wf s ->
  let s' := uart0_tx_intr_handler st s in
  let n := length (tx_contents s) in
  let k := if st then Nat.min 128 n else 0%nat in
  tx_wf s'
  /\ uart_fifo_out s' = uart_fifo_out s ++ take k (tx_contents s)
  /\ tx_contents s' = drop k (tx_contents s)
  /\ txfifo_empty_int_ena s'
     = (if st && (n <=? 128)%nat then false else txfifo_empty_int_ena s)
  /\ uart_tx_overflow_count s' = uart_tx_overflow_count s.
Proof.
  intros Hwf. cbv zeta.
  destruct (uart0_tx_intr_handler_spec st s Hwf) as (Hw & Hf & Hc & Ho & _ & _).
  cbv zeta in Hf, Hc.
  assert (Htk : forall l : list Z,
             take (Nat.min 128 (length l)) l = take 128 l
             /\ drop (Nat.min 128 (length l)) l = drop 128 l).
  { intros l. destruct (Nat.le_gt_cases 128 (length l)).
    - rewrite Nat.min_l by lia. auto.
    - rewrite Nat.min_r by lia. rewrite !take_ge, !drop_ge by lia. auto. }
  split; [exact Hw|]. destruct st.
  - destruct (Htk (tx_contents s)) as (-> & ->).
    split; [exact Hf|]. split; [exact Hc|]. split; [|exact Ho].
    cbn [andb]. now apply uart0_tx_intr_handler_ena.
  - cbn [andb]. split; [exact Hf|]. split; [exact Hc|]. split; [reflexivity|exact Ho].
Qed.

Lemma tx_handler_moves_witness :
  let s := (uart_write_bytes [1; 2; 3] false uart_boot).2 in
  uart_fifo_out (uart0_tx_intr_handler true s) = [1; 2; 3]
  /\ txfifo_empty_int_ena (uart0_tx_intr_handler true s) = false.
Proof.
  cbv zeta.
  destruct (uart_write_bytes_spec [1; 2; 3] false uart_boot (proj2 uart_boot_wf))
    as (Hw & _ & Hf & Hc & _).
  destruct (tx_handler_moves true _ Hw) as (_ & Hf' & _ & He & _).
  cbv zeta in Hf', He. rewrite Hf', He, Hf, Hc. split; reflexivity.
Defined.

(* ================================================================== *)
(** * The two directions of the UART driver                             *)
(* ================================================================== *)

Lemma same_tx_refl (s : uart_state) : same_tx s s.
Proof. repeat split. Qed.

Lemma same_rx_refl (s : uart_state) : same_rx s s.
Proof. repeat split. Qed.

Lemma same_tx_trans (a b c : uart_state) : same_tx a b -> same_tx b c -> same_tx a c.
Proof.
  intros (H1 & H2 & H3 & H4 & H5 & H6) (K1 & K2 & K3 & K4 & K5 & K6).
  unfold same_tx. rewrite K1, K2, K3, K4, K5, K6. auto 10.
Qed.

Lemma same_rx_trans (a b c : uart_state) : same_rx a b -> same_rx b c -> same_rx a c.
Proof.
  intros (H1 & H2 & H3 & H4) (K1 & K2 & K3 & K4).
  unfold same_rx. rewrite K1, K2, K3, K4. auto.
Qed.



Lemma rx_drain_same_tx (fifo : list Z) (s : uart_state) : same_tx s (rx_drain fifo s).
Proof.
  revert s. induction fifo as [|reg rest IH]; intros s; [apply same_tx_refl|].
  simpl. apply same_tx_trans with (rx_store reg s); [|apply IH].
  unfold rx_store. destruct (negb _); repeat split.
Qed.

Lemma rx_read_loop_same_tx (n : nat) (s : uart_state) : same_tx s (rx_read_loop n s).2.
Proof.
  revert s. induction n as [|n IH]; intros s; [apply same_tx_refl|].
  simpl. destruct (negb _); [|apply same_tx_refl].
  set (s1 := mkUart _ _ _ _ _ _ _ _ _ _).
  specialize (IH s1). destruct (rx_read_loop n s1) as [bs s2]. cbn [snd] in *.
  apply same_tx_trans with s1; [repeat split|exact IH].
Qed.

Lemma uart_read_byte_as_bytes (s : uart_state) :
  uart_read_byte s = (head (uart_read_bytes 1 s).1, (uart_read_bytes 1 s).2).
Proof.
  unfold uart_read_byte, uart_read_bytes. change (Z.to_nat 1) with 1%nat.
  cbn [rx_read_loop]. destruct (uart_rx_tail s =? uart_rx_head s); reflexivity.
Qed.

Lemma tx_drain_same_rx (n : nat) (s : uart_state) : same_rx s (tx_drain n s).
Proof. destruct (tx_drain_frame n s) as (H1 & H2 & H3 & H4). now repeat split. Qed.

Lemma uart0_tx_intr_handler_same_rx (st : bool) (s : uart_state) :
  same_rx s (uart0_tx_intr_handler st s).
Proof.
  unfold uart0_tx_intr_handler. destruct st; [|apply same_rx_refl].
  pose proof (tx_drain_same_rx 128 s) as H.
  set (s1 := tx_drain 128 s) in *. clearbody s1.
  destruct (_ =? _); [|exact H].
  apply same_rx_trans with s1; [exact H|repeat split].
Qed.

Lemma uart_write_bytes_same_rx (data : list Z) (st : bool) (s : uart_state) :
  same_rx s (uart_write_bytes data st s).2.
Proof.
  unfold uart_write_bytes.
  destruct (tx_write_loop_frame data 0 s) as (_ & _ & _ & H1 & H2 & H3 & H4).
  destruct (tx_write_loop data 0 s) as [n s1]. cbn [fst snd] in *.
  assert (Hs1 : same_rx s s1) by now repeat split.
  destruct (negb _); [|exact Hs1].
  apply same_rx_trans with (set_txfifo_empty_int_ena true s1).
  - apply same_rx_trans with s1; [exact Hs1|repeat split].
  - apply uart0_tx_intr_handler_same_rx.
Qed.




Lemma uart_exec_rx_side (c : uart_call) (s : uart_state) :
  rx_side c = true -> same_tx s (uart_exec c s).
Proof.
  destruct c as [fs ts ff ft|st| |m| |data st|b st|]; try discriminate; intros _;
    cbn [uart_exec].
  - rewrite uart0_rx_intr_handler_drain. apply rx_drain_same_tx.
  - apply rx_read_loop_same_tx.
  - rewrite uart_read_byte_as_bytes. apply rx_read_loop_same_tx.
Qed.

Lemma uart_exec_tx_side (c : uart_call) (s : uart_state) :
  tx_side c = true -> same_rx s (uart_exec c s).
Proof.
  destruct c as [fs ts ff ft|st| |m| |data st|b st|]; try discriminate; intros _;
    cbn [uart_exec].
  - apply uart0_tx_intr_handler_same_rx.
  - apply uart_write_bytes_same_rx.
  - unfold uart_write_byte. pose proof (uart_write_bytes_same_rx [b] st s) as H.
    destruct (uart_write_bytes [b] st s) as [n s1]. exact H.
Qed.

(** X8.  The two directions do not touch each other: receive interrupts
    and reads leave the transmit ring, its overflow counter, the transmit
    interrupt enable and the hardware output as they are; writes and
    transmit-handler runs leave the receive ring and its overflow counter
    as they are. *)
Theorem uart_directions_independent (rx_calls tx_calls : list uart_call)
    (s : uart_state) :
  Forall (fun c => rx_side c = true) rx_calls ->
  Forall (fun c => tx_side c = true) tx_calls ->
  same_tx s (uart_run rx_calls s) /\ same_rx s (uart_run tx_calls s).
Proof.
  intros Hr Ht. split.
  - revert s. induction Hr as [|c cs Hc _ IH]; intros s; [apply same_tx_refl|].
    simpl. apply same_tx_trans with (uart_exec c s); [now apply uart_exec_rx_side|apply IH].
  - revert s. induction Ht as [|c cs Hc _ IH]; intros s; [apply same_rx_refl|].
    simpl. apply same_rx_trans with (uart_exec c s); [now apply uart_exec_tx_side|apply IH].
Qed.

Lemma uart_directions_independent_witness :
  same_tx uart_boot (uart_run [CallRxIntr true true [1] [2]; CallRead 1; CallReadByte] uart_boot)
  /\ same_rx uart_boot (uart_run [CallWrite [1; 2] true; CallTxIntr true] uart_boot).
Proof.
  apply uart_directions_independent; repeat constructor.
Defined.

(* ================================================================== *)
(** * More on the transmit path                                         *)
(* ================================================================== *)

Lemma transmissions_app (a b : list event) :
  transmissions (a ++ b) = transmissions a ++ transmissions b.
Proof. apply List.filter_app. Qed.

(** A call that passes the guards: what reaches the SDK and what the
    statics hold afterwards. *)
Lemma wifi_raw_send_issue (data : list Z) (len sdk_result : Z) (w : wifi_state) :
  wifi_wf w -> 0 < len <= MAX_PACKET_SIZE -> len <= Z.of_nat (length data) ->
  tx_ready w <> 0 ->
  exists w',
    wifi_raw_send (Some data) len sdk_result w = Some (sdk_result, w')
    /\ wifi_wf w'
    /\ transmissions (wifi_trace w')
       = transmissions (wifi_trace w)
         ++ [EvPktFreedom (hdr_bytes (build_80211_header w).1 ++ take (Z.to_nat len) data)
               (IEEE80211_HEADER_SIZE + len) sdk_result]
    /\ tx_ready w' = (if sdk_result =? 0 then 0 else 1)
    /\ tx_count w' = (if sdk_result =? 0 then u32 (tx_count w + 1) else tx_count w)
    /\ tx_error_count w'
       = (if sdk_result =? 0 then tx_error_count w else u32 (tx_error_count w + 1))
    /\ tx_sequence w' = u16 (tx_sequence w + 1).
Proof.
  intros Hwf Hlen Hdata Hr. pose proof Hwf as (_ & Hm).
  destruct (wifi_raw_send_cases (Some data) len sdk_result w Hwf)
    as (res & w' & E & Hwf' & [(_ & Hrej & _)|
         (d & fr & Hd & _ & _ & _ & Hres & Hfr & Hseq & Hrdy & Htr & Hbuf & Hc & He)]).
  { exfalso. unfold MAX_PACKET_SIZE in *.
    destruct Hrej as [H|[H|[H|H]]]; try discriminate; lia. }
  injection Hd as <-. subst res.
  exists w'. split; [exact E|]. split; [exact Hwf'|].
  assert (Hfl : length fr = Z.to_nat (u16 (IEEE80211_HEADER_SIZE + len))).
  { rewrite Hfr, length_app, build_80211_header_length, length_take by exact Hm.
    unfold u16, IEEE80211_HEADER_SIZE, MAX_PACKET_SIZE in *.
    rewrite Z.mod_small by lia. lia. }
  assert (Hu : u16 (IEEE80211_HEADER_SIZE + len) = IEEE80211_HEADER_SIZE + len).
  { unfold u16, IEEE80211_HEADER_SIZE, MAX_PACKET_SIZE in *. apply Z.mod_small. lia. }
  split.
  - rewrite Htr, !transmissions_app. rewrite <- Hfl, Hbuf, Hu, Hfr.
    destruct (sdk_result =? 0); cbn; rewrite ?app_nil_r; reflexivity.
  - auto.
Qed.

(** X9.  A call of [wifi_raw_send] that passes the guards hands the SDK one
    frame: the 24 header bytes followed by the first [len] bytes of the
    payload, with total length [24 + len].  It returns what the SDK
    returned.  On 0 it counts a success and leaves [tx_ready] cleared; on
    anything else it counts an error and leaves [tx_ready] set. *)
Theorem wifi_raw_send_frame (data : list Z) (len sdk_result : Z) (w : wifi_state) :
  wifi_wf w -> 0 < len <= MAX_PACKET_SIZE -> len <= Z.of_nat (length data) ->
  tx_ready w <> 0 ->
  exists w',
    wifi_raw_send (Some data) len sdk_result w = Some (sdk_result, w')
    /\ transmissions (wifi_trace w')
       = transmissions (wifi_trace w)
         ++ [EvPktFreedom (hdr_bytes (build_80211_header w).1 ++ take (Z.to_nat len) data)
               (IEEE80211_HEADER_SIZE + len) sdk_result]
    /\ Z.of_nat (length (hdr_bytes (build_80211_header w).1 ++ take (Z.to_nat len) data))
       = IEEE80211_HEADER_SIZE + len
    /\ (sdk_result = 0 ->
        tx_count w' = u32 (tx_count w + 1) /\ tx_error_count w' = tx_error_count w
        /\ tx_ready w' = 0)
    /\ (sdk_result <> 0 ->
        tx_count w' = tx_count w /\ tx_error_count w' = u32 (tx_error_count w + 1)
        /\ tx_ready w' = 1).
Proof.
  intros Hwf Hlen Hdata Hr.
  destruct (wifi_raw_send_issue data len sdk_result w Hwf Hlen Hdata Hr)
    as (w' & E & _ & Htr & Hrdy & Hc & He & _).
  exists w'. split; [exact E|]. split; [exact Htr|]. split.
  - rewrite length_app, build_80211_header_length, length_take by apply Hwf.
    unfold IEEE80211_HEADER_SIZE. lia.
  - destruct (Z.eqb_spec sdk_result 0); split; intros; auto; contradiction.
Qed.

Lemma wifi_raw_send_frame_witness :
  exists w',
    wifi_raw_send (Some [17; 34]) 2 0 (wifi_boot [2; 4; 6; 8; 10; 12]) = Some (0, w')
    /\ transmissions (wifi_trace w')
       = [EvPktFreedom
            ([64; 0; 0; 0; 255; 255; 255; 255; 255; 255; 2; 4; 6; 8; 10; 12;
              170; 187; 204; 221; 238; 0; 0; 0] ++ [17; 34]) 26 0].
Proof.
  destruct (wifi_raw_send_frame [17; 34] 2 0 (wifi_boot [2; 4; 6; 8; 10; 12]))
    as (w' & E & Htr & _).
  - apply wifi_boot_wf. reflexivity.
  - unfold MAX_PACKET_SIZE. lia.
  - simpl. lia.
  - discriminate.
  - exists w'. split; [exact E|]. rewrite Htr. reflexivity.
Defined.

(** X10.  After a transmission the SDK accepted, a further call before the
    completion callback is refused: -1, an error counted, nothing handed to
    the SDK.  Once the callback has run the same call goes through.  After
    a transmission the SDK refused, the next call goes through at once. *)
Theorem send_busy_until_completion (d1 d2 : list Z) (l1 l2 r1 r2 status : Z)
    (w : wifi_state) :
  wifi_wf w -> tx_ready w <> 0 ->
  0 < l1 <= MAX_PACKET_SIZE -> l1 <= Z.of_nat (length d1) ->
  0 < l2 <= MAX_PACKET_SIZE -> l2 <= Z.of_nat (length d2) ->
  exists w1,
    wifi_raw_send (Some d1) l1 r1 w = Some (r1, w1)
    /\ (r1 = 0 ->
        (exists w2,
           wifi_raw_send (Some d2) l2 r2 w1 = Some (-1, w2)
           /\ transmissions (wifi_trace w2) = transmissions (wifi_trace w1)
           /\ tx_error_count w2 = u32 (tx_error_count w1 + 1))
        /\ (exists w2,
              wifi_raw_send (Some d2) l2 r2 (wifi_freedom_tx_cb status w1) = Some (r2, w2)
              /\ length (transmissions (wifi_trace w2))
                 = S (length (transmissions (wifi_trace w1)))))
    /\ (r1 <> 0 ->
        exists w2,
          wifi_raw_send (Some d2) l2 r2 w1 = Some (r2, w2)
          /\ length (transmissions (wifi_trace w2))
             = S (length (transmissions (wifi_trace w1)))).
Proof.
  intros Hwf Hr H1 H1' H2 H2'.
  destruct (wifi_raw_send_issue d1 l1 r1 w Hwf H1 H1' Hr)
    as (w1 & E1 & Hwf1 & _ & Hrdy & _).
  exists w1. split; [exact E1|]. split.
  - intros ->. cbn [Z.eqb] in Hrdy. split.
    + destruct (wifi_raw_send_cases (Some d2) l2 r2 w1 Hwf1)
        as (res & w2 & E2 & _ & [(-> & _ & ->)|(d & fr & _ & _ & _ & Hne & _)]);
        [|contradiction].
      eexists. split; [exact E2|]. split; [|reflexivity].
      cbn [wifi_trace incr_tx_error_count log_event].
      rewrite transmissions_app. cbn. now rewrite app_nil_r.
    + assert (Hwf1' : wifi_wf (wifi_freedom_tx_cb status w1)) by exact Hwf1.
      destruct (wifi_raw_send_issue d2 l2 r2 _ Hwf1' H2 H2' ltac:(discriminate))
        as (w2 & E2 & _ & Htr & _).
      exists w2. split; [exact E2|]. rewrite Htr, length_app.
      cbn [wifi_freedom_tx_cb store_tx_ready wifi_trace].
      rewrite transmissions_app. cbn. rewrite app_nil_r. simpl. lia.
  - intros Hne. destruct (Z.eqb_spec r1 0); [contradiction|].
    destruct (wifi_raw_send_issue d2 l2 r2 w1 Hwf1 H2 H2' ltac:(rewrite Hrdy; discriminate))
      as (w2 & E2 & _ & Htr & _).
    exists w2. split; [exact E2|]. rewrite Htr, length_app. simpl. lia.
Qed.

Lemma send_busy_until_completion_witness :
  exists w1 w2,
    wifi_raw_send (Some [1]) 1 0 (wifi_boot [2; 4; 6; 8; 10; 12]) = Some (0, w1)
    /\ wifi_raw_send (Some [2]) 1 0 w1 = Some (-1, w2).
Proof.
  destruct (send_busy_until_completion [1] [2] 1 1 0 0 0 (wifi_boot [2; 4; 6; 8; 10; 12]))
    as (w1 & E1 & Hbusy & _);
    try (unfold MAX_PACKET_SIZE; simpl; lia); try discriminate.
  - apply wifi_boot_wf. reflexivity.
  - destruct (Hbusy eq_refl) as ((w2 & E2 & _) & _).
    exists w1, w2. auto.
Defined.

(* ================================================================== *)
(** * From one radio to the other                                       *)
(* ================================================================== *)







(* ================================================================== *)
(** * More on the receive filter                                        *)
(* ================================================================== *)




Lemma passes_filters_dec (buf : capture) (len : Z) :
  passes_filters buf len \/ ~ passes_filters buf len.
Proof.
  unfold passes_filters.
  destruct (Z.eq_dec (sig_mode (cap_rx_ctrl buf)) 0); [|tauto].
  destruct (Z_le_dec (sizeof_RxControl + 28) len); [|tauto].
  destruct (Z.eq_dec (Z.land (frame_control (cap_hdr buf)) IEEE80211_FCTL_FTYPE)
              IEEE80211_FCTL_MGMT); [|tauto].
  destruct (Z.eq_dec (os_memcmp (addr3 (cap_hdr buf)) custom_bssid 6) 0); [|tauto].
  destruct (Z_le_dec (u16 (legacy_length (cap_rx_ctrl buf) - IEEE80211_HEADER_SIZE - 4))
              MAX_PACKET_SIZE); tauto.
Qed.

(** X13.  Every captured frame is counted exactly once.  If it passes the
    four stages, [rx_count] grows by one and [rx_drop_count] stays; if it
    fails one, [rx_drop_count] grows by one, [rx_count] stays and the UART
    statics are untouched.  Either way the transmit-side statics (frame
    buffer, sequence number, [tx_ready], transmit counters, events) are
    untouched. *)
Theorem capture_counted_once (buf : capture) (len : Z) (st1 st2 : bool)
    (w : wifi_state) (u : uart_state) :
  let r := wifi_promiscuous_rx_cb buf len st1 st2 w u in
  ((passes_filters buf len
    /\ rx_count r.1 = u32 (rx_count w + 1) /\ rx_drop_count r.1 = rx_drop_count w)
   \/ (~ passes_filters buf len
       /\ rx_count r.1 = rx_count w /\ rx_drop_count r.1 = u32 (rx_drop_count w + 1)
       /\ r.2 = u))
  /\ tx_frame_buffer r.1 = tx_frame_buffer w /\ tx_sequence r.1 = tx_sequence w
  /\ tx_ready r.1 = tx_ready w /\ tx_count r.1 = tx_count w
  /\ tx_error_count r.1 = tx_error_count w /\ wifi_trace r.1 = wifi_trace w.
Proof.
  cbv zeta. destruct (passes_filters_dec buf len) as [Hp|Hn].
  - rewrite (wifi_promiscuous_rx_cb_pass _ _ st1 st2 w u Hp). cbv zeta. cbn [fst snd].
    split; [left; auto|]. repeat split.
  - rewrite (wifi_promiscuous_rx_cb_drop _ _ st1 st2 w u Hn). cbn [fst snd].
    split; [right; auto|]. repeat split.
Qed.

Lemma os_memcmp_zero (a b : list Z) (n : nat) :
  (n <= length a)%nat -> (n <= length b)%nat ->
  (os_memcmp a b n = 0 <-> take n a = take n b).
Proof.
  revert a b. induction n as [|n IH]; intros a b Ha Hb; [simpl; tauto|].
  destruct a as [|x a]; [simpl in Ha; lia|]. destruct b as [|y b]; [simpl in Hb; lia|].
  simpl in Ha, Hb. cbn [os_memcmp hd tl take].
  destruct (Z.eqb_spec x y) as [->|Hne].
  - rewrite IH by lia. split; [intros ->; reflexivity|intros H; now injection H].
  - split; [lia|intros H; injection H; contradiction].
Qed.

(** X14.  What the four stages test, in terms of the frame: legacy mode,
    at least 40 captured bytes, management type, third address equal to
    the filter key, and a reported length (a 12-bit field) between 28 and
    284.  A reported length below 28 is refused because the 16-bit
    subtraction wraps to a value above [MAX_PACKET_SIZE]. *)
Theorem filter_stages (buf : capture) (len : Z) :
  0 <= legacy_length (cap_rx_ctrl buf) < 4096 ->
  length (addr3 (cap_hdr buf)) = 6%nat ->
  (passes_filters buf len
   <-> sig_mode (cap_rx_ctrl buf) = 0
       /\ 40 <= len
       /\ Z.land (frame_control (cap_hdr buf)) 12 = 0
       /\ addr3 (cap_hdr buf) = CUSTOM_BSSID
       /\ 28 <= legacy_length (cap_rx_ctrl buf) <= 284).
Proof.
  intros Hll Ha. unfold passes_filters.
  rewrite (os_memcmp_zero (addr3 (cap_hdr buf)) custom_bssid 6) by (rewrite ?Ha; simpl; lia).
  rewrite (take_ge (addr3 (cap_hdr buf))) by lia.
  change (take 6 custom_bssid) with CUSTOM_BSSID.
  unfold sizeof_RxControl, IEEE80211_FCTL_FTYPE, IEEE80211_FCTL_MGMT, u16,
    IEEE80211_HEADER_SIZE, MAX_PACKET_SIZE.
  assert (Hw : (legacy_length (cap_rx_ctrl buf) - 24 - 4) mod 65536 <= 256
               <-> 28 <= legacy_length (cap_rx_ctrl buf) <= 284).
  { split; intros; zmod. }
  rewrite Hw. intuition lia.
Qed.

Lemma filter_stages_witness :
  ~ passes_filters (link_frame 27 []) 128 /\ passes_filters (link_frame 284 []) 128.
Proof.
  split.
  - intros H. apply (filter_stages (link_frame 27 []) 128) in H.
    + cbn in H. lia.
    + cbn. lia.
    + reflexivity.
  - apply (filter_stages (link_frame 284 []) 128).
    + cbn. lia.
    + reflexivity.
    + cbn. repeat split; lia.
Defined.

(* ================================================================== *)
(** * Counting the calls                                                *)
(* ================================================================== *)

(** X15.  Every call of [wifi_raw_send] is counted exactly once, as a
    success or as an error: over any run of calls and completion
    callbacks, [tx_count + tx_error_count] grows by the number of calls
    (in 32-bit arithmetic), and the receive counters do not move. *)
Theorem tx_calls_accounted (steps : list wifi_step) (w : wifi_state) :
  wifi_wf w ->
  exists w',
    wifi_run steps w = Some w'
    /\ u32 (tx_count w' + tx_error_count w')
       = u32 (tx_count w + tx_error_count w + count_sends steps)
    /\ rx_count w' = rx_count w /\ rx_drop_count w' = rx_drop_count w.
Proof.
  revert w. induction steps as [|[raw_data len r|status] steps IH]; intros w Hwf.
  - exists w. unfold count_sends. simpl. rewrite Z.add_0_r. auto.
  - assert (Hstep : exists res w1,
               wifi_raw_send raw_data len r w = Some (res, w1) /\ wifi_wf w1
               /\ u32 (tx_count w1 + tx_error_count w1)
                  = u32 (tx_count w + tx_error_count w + 1)
               /\ rx_count w1 = rx_count w /\ rx_drop_count w1 = rx_drop_count w).
    { unfold wifi_raw_send.
      destruct (wifi_raw_send_cases raw_data len r w Hwf) as (res & w1 & E & Hwf1 & Hc).
      exists res, w1. split; [exact E|]. split; [exact Hwf1|].
      unfold wifi_raw_send in E.
      destruct raw_data as [data|];
        [|injection E as <- <-; simpl; unfold u32; repeat split; zmod].
      destruct ((len =? 0) || (len >? MAX_PACKET_SIZE));
        [injection E as <- <-; simpl; unfold u32; repeat split; zmod|].
      cbn [tx_ready log_event] in E.
      destruct (tx_ready w =? 0);
        [injection E as <- <-; simpl; unfold u32; repeat split; zmod|].
      cbn [build_80211_header] in E.
      destruct (assemble_frame _ _ _ _) as [b|]; [|discriminate E].
      cbn [mbind option_bind] in E.
      destruct (r =? 0); injection E as <- <-; simpl; unfold u32; repeat split; zmod. }
    destruct Hstep as (res & w1 & E & Hwf1 & Hsum & Hrx & Hrd).
    destruct (IH w1 Hwf1) as (w' & Erun & Hsum' & Hrx' & Hrd').
    exists w'. cbn [wifi_run]. rewrite E. cbn [mbind option_bind].
    split; [exact Erun|]. split; [|split; congruence].
    rewrite Hsum'. unfold count_sends in *. cbn [List.filter is_send length].
    rewrite Nat2Z.inj_succ. unfold u32 in *. zmod.
  - cbn [wifi_run].
    assert (Hcs : count_sends (StepTxCb status :: steps) = count_sends steps) by reflexivity.
    rewrite Hcs.
    destruct (0 <? outstanding (wifi_trace w)); [|now apply IH].
    destruct (IH (wifi_freedom_tx_cb status w) Hwf) as (w' & Erun & Hsum' & Hrx' & Hrd').
    exists w'. auto.
Qed.

Lemma tx_calls_accounted_witness :
  exists w',
    wifi_run [StepSend (Some [1]) 1 0; StepSend None 0 0; StepTxCb 0; StepSend (Some [2]) 1 (-1)]
      (wifi_boot [2; 4; 6; 8; 10; 12]) = Some w'
    /\ u32 (tx_count w' + tx_error_count w') = 3.
Proof.
  destruct (tx_calls_accounted
              [StepSend (Some [1]) 1 0; StepSend None 0 0; StepTxCb 0;
               StepSend (Some [2]) 1 (-1)]
              (wifi_boot [2; 4; 6; 8; 10; 12]))
    as (w' & E & Hs & _).
  - apply wifi_boot_wf. reflexivity.
  - exists w'. split; [exact E|]. rewrite Hs. reflexivity.
Defined.

(* ================================================================== *)
(** * Ticks on any input                                                *)
(* ================================================================== *)

Lemma bridge_header_led (m : main_state) (u : uart_state) :
  led_counter (bridge_header m u).1 = led_counter m
  /\ heartbeat_counter (bridge_header m u).1 = heartbeat_counter m
  /\ led_gpio (bridge_header m u).1 = led_gpio m
  /\ packet_buffer (bridge_header m u).1 = packet_buffer m.
Proof.
  unfold bridge_header. destruct (pkt_expected m =? 0); [|auto].
  destruct (uart_rx_available u >=? 2); [|auto].
  destruct (uart_read_bytes 2 u) as [bs u']. auto.
Qed.

(** The second half of a tick on a packet in progress, whatever the ring
    holds: it takes what is there, up to the bytes still missing, and
    hands the packet over when that completes it. *)
Lemma bridge_payload_general (sdk_result : Z) (m : main_state) (u : uart_state)
    (w : wifi_state) :
  rx_wf u -> wifi_wf w -> length (packet_buffer m) = 256%nat ->
  0 < pkt_expected m <= MAX_PACKET_SIZE -> 0 <= pkt_received m < pkt_expected m ->
  let recv := Z.to_nat (pkt_received m) in
  let n := Nat.min (length (rx_contents u)) (Z.to_nat (pkt_expected m - pkt_received m)) in
  exists m' u' w',
    bridge_payload sdk_result m u w = Some (m', u', w')
    /\ rx_wf u' /\ rx_contents u' = drop n (rx_contents u) /\ same_tx u u'
    /\ wifi_wf w'
    /\ packet_buffer m'
       = take recv (packet_buffer m) ++ take n (rx_contents u)
         ++ drop (recv + n) (packet_buffer m)
    /\ led_counter m' = led_counter m /\ heartbeat_counter m' = heartbeat_counter m
    /\ led_gpio m' = led_gpio m
    /\ (n = 0%nat -> m' = m /\ u' = u /\ w' = w)
    /\ ((recv + n = Z.to_nat (pkt_expected m))%nat ->
        pkt_expected m' = 0 /\ pkt_received m' = 0
        /\ raw_send_calls (wifi_trace w')
           = raw_send_calls (wifi_trace w) ++ [(Some (packet_buffer m'), pkt_expected m)]
        /\ exists res,
             wifi_raw_send (Some (packet_buffer m')) (pkt_expected m) sdk_result w
             = Some (res, w'))
    /\ ((recv + n < Z.to_nat (pkt_expected m))%nat ->
        pkt_expected m' = pkt_expected m
        /\ pkt_received m' = pkt_received m + Z.of_nat n
        /\ w' = w).
Proof.
  intros Hwf Hww Hpb He Hr recv n. unfold MAX_PACKET_SIZE in He.
  unfold bridge_payload.
  destruct (Z.gtb_spec (pkt_expected m) 0) as [_|Hbad]; [|lia].
  rewrite (uart_rx_available_spec u Hwf).
  assert (Hrem : u16 (pkt_expected m - pkt_received m) = pkt_expected m - pkt_received m).
  { unfold u16. apply Z.mod_small. lia. }
  rewrite Hrem.
  pose proof (ring_contents_length (uart_rx_buffer u) (uart_rx_head u) (uart_rx_tail u)) as Hcl.
  pose proof (ring_occupancy_range (uart_rx_head u) (uart_rx_tail u)) as Hor.
  fold (rx_contents u) in Hcl.
  assert (Hto : (if Z.of_nat (length (rx_contents u)) <? pkt_expected m - pkt_received m
                 then Z.of_nat (length (rx_contents u))
                 else pkt_expected m - pkt_received m)
                = Z.of_nat n).
  { subst n. destruct (Z.ltb_spec (Z.of_nat (length (rx_contents u)))
                         (pkt_expected m - pkt_received m)); lia. }
  rewrite Hto.
  assert (Hnle : (recv + n <= Z.to_nat (pkt_expected m))%nat) by (subst recv n; lia).
  destruct (Z.gtb_spec (Z.of_nat n) 0) as [Hpos|Hzero].
  - destruct (uart_read_bytes_spec (Z.of_nat n) u Hwf) as (Hw' & Hb & Hc').
    pose proof (rx_read_loop_same_tx (Z.to_nat (Z.of_nat n)) u) as Hst.
    fold (uart_read_bytes (Z.of_nat n) u) in Hst.
    rewrite Nat2Z.id in Hb, Hc'.
    destruct (uart_read_bytes (Z.of_nat n) u) as [bytes u']. cbn [fst snd] in *.
    subst bytes.
    assert (Hbl : length (take n (rx_contents u)) = n)
      by (rewrite length_take; subst n; lia).
    destruct (mem_write_Some (packet_buffer m) (pkt_received m) (take n (rx_contents u)))
      as (buf & Ew & Lw & Cw); [lia|rewrite Hbl; subst recv; lia|].
    rewrite Ew. cbn [mbind option_bind]. cbn [pkt_received pkt_expected packet_buffer].
    rewrite Hbl in *. fold recv in Cw.
    assert (Hrecv' : u16 (pkt_received m + Z.of_nat n) = pkt_received m + Z.of_nat n).
    { unfold u16. rewrite Z.mod_small; subst recv; lia. }
    rewrite Hrecv'.
    destruct (Z.geb_spec (pkt_received m + Z.of_nat n) (pkt_expected m)) as [Hge|Hlt].
    + destruct (wifi_raw_send_call (Some buf) (pkt_expected m) sdk_result w Hww)
        as (res & w' & Es & Hww' & Hcalls).
      rewrite Es. cbn [mbind option_bind].
      eexists _, _, _. split; [reflexivity|].
      cbn [packet_buffer pkt_expected pkt_received led_counter heartbeat_counter led_gpio].
      split; [exact Hw'|]. split; [exact Hc'|]. split; [exact Hst|]. split; [exact Hww'|].
      split; [exact Cw|]. split; [reflexivity|]. split; [reflexivity|].
      split; [reflexivity|]. split; [lia|].
      split; [intros _; split; [reflexivity|split; [reflexivity|split; [exact Hcalls|]]];
              exists res; exact Es|].
      intros Hlt. subst recv. lia.
    + eexists _, _, _. split; [reflexivity|].
      cbn [packet_buffer pkt_expected pkt_received led_counter heartbeat_counter led_gpio].
      split; [exact Hw'|]. split; [exact Hc'|]. split; [exact Hst|]. split; [exact Hww|].
      split; [exact Cw|]. split; [reflexivity|]. split; [reflexivity|].
      split; [reflexivity|]. split; [lia|]. split; [intros; subst recv; lia|]. auto.
  - assert (Hn0 : n = 0%nat) by lia.
    cbn [mbind option_bind].
    destruct (Z.geb_spec (pkt_received m) (pkt_expected m)) as [Hge|Hlt]; [lia|].
    exists m, u, w. split; [reflexivity|].
    split; [exact Hwf|]. split; [now rewrite Hn0, drop_0|]. split; [apply same_tx_refl|].
    split; [exact Hww|]. split.
    { rewrite Hn0, take_0, Nat.add_0_r. cbn [app]. now rewrite take_drop. }
    split; [reflexivity|]. split; [reflexivity|]. split; [reflexivity|].
    split; [auto|]. split; [intros; subst recv; lia|].
    intros _. rewrite Hn0. repeat split; lia.
Qed.

Lemma validated_range (b0 b1 : Z) :
  validated (announced b0 b1) = 0
  \/ (0 < validated (announced b0 b1) <= MAX_PACKET_SIZE
      /\ validated (announced b0 b1) = announced b0 b1).
Proof.
  assert (H0 : 0 <= announced b0 b1).
  { unfold announced, u16. apply Z.mod_pos_bound. lia. }
  unfold validated, MAX_PACKET_SIZE.
  destruct (Z.eqb_spec (announced b0 b1) 0); [now left|].
  destruct (Z.gtb_spec (announced b0 b1) 256); [now left|].
  right. cbn [orb]. lia.
Qed.

Lemma bridge_header_same_tx (m : main_state) (u : uart_state) :
  same_tx u (bridge_header m u).2.
Proof.
  unfold bridge_header. destruct (pkt_expected m =? 0); [|apply same_tx_refl].
  destruct (uart_rx_available u >=? 2); [|apply same_tx_refl].
  pose proof (rx_read_loop_same_tx (Z.to_nat 2) u) as H.
  fold (uart_read_bytes 2 u) in H.
  destruct (uart_read_bytes 2 u) as [bs u']. exact H.
Qed.

Lemma led_heartbeat_wf (m : main_state) : bridge_wf m -> bridge_wf (led_heartbeat m).
Proof.
  intros H. destruct (led_heartbeat_frame m) as (He & Hr & Hb).
  unfold bridge_wf. now rewrite He, Hr, Hb.
Qed.

(** One tick from any well-formed state. *)
Lemma main_timer_callback_general (sdk_result : Z) (sys : system) :
  system_wf sys ->
  exists sys',
    main_timer_callback sdk_result sys = Some sys'
    /\ system_wf sys'
    /\ same_tx (sys_uart sys) (sys_uart sys')
    /\ (exists k, rx_contents (sys_uart sys') = drop k (rx_contents (sys_uart sys)))
    /\ (raw_send_calls (wifi_trace (sys_wifi sys'))
        = raw_send_calls (wifi_trace (sys_wifi sys))
        \/ exists pb len,
             raw_send_calls (wifi_trace (sys_wifi sys'))
             = raw_send_calls (wifi_trace (sys_wifi sys)) ++ [(Some pb, len)]
             /\ 0 < len <= MAX_PACKET_SIZE /\ length pb = 256%nat
             /\ pkt_expected (sys_main sys') = 0)
    /\ led_counter (sys_main sys') = led_counter (led_heartbeat (sys_main sys))
    /\ heartbeat_counter (sys_main sys') = heartbeat_counter (led_heartbeat (sys_main sys))
    /\ led_gpio (sys_main sys') = led_gpio (led_heartbeat (sys_main sys)).
Proof.
  intros (Hwf & Hww & Hbw).
  apply led_heartbeat_wf in Hbw. unfold main_timer_callback.
  set (m := led_heartbeat (sys_main sys)) in *. clearbody m.
  set (u := sys_uart sys) in *. set (w := sys_wifi sys) in *.
  assert (Hpay : forall m1 u1,
             rx_wf u1 -> bridge_wf m1 -> same_tx u u1 ->
             (exists k, rx_contents u1 = drop k (rx_contents u)) ->
             led_counter m1 = led_counter m -> heartbeat_counter m1 = heartbeat_counter m ->
             led_gpio m1 = led_gpio m ->
             exists sys',
               (bridge_payload sdk_result m1 u1 w
                ≫= λ '(m2, u2, w2), Some (mkSystem u2 w2 m2)) = Some sys'
               /\ system_wf sys' /\ same_tx u (sys_uart sys')
               /\ (exists k, rx_contents (sys_uart sys') = drop k (rx_contents u))
               /\ (raw_send_calls (wifi_trace (sys_wifi sys')) = raw_send_calls (wifi_trace w)
                   \/ exists pb len,
                        raw_send_calls (wifi_trace (sys_wifi sys'))
                        = raw_send_calls (wifi_trace w) ++ [(Some pb, len)]
                        /\ 0 < len <= MAX_PACKET_SIZE /\ length pb = 256%nat
                        /\ pkt_expected (sys_main sys') = 0)
               /\ led_counter (sys_main sys') = led_counter m
               /\ heartbeat_counter (sys_main sys') = heartbeat_counter m
               /\ led_gpio (sys_main sys') = led_gpio m).
  { intros m1 u1 Hwf1 (Hpb1 & Hst1) Htx1 (k1 & Hk1) Hl1 Hh1 Hg1.
    destruct Hst1 as [Hidle|(He1 & Hr1)].
    - rewrite bridge_payload_idle by exact Hidle. cbn [mbind option_bind].
      eexists. split; [reflexivity|]. cbn [sys_uart sys_wifi sys_main].
      split; [split; [exact Hwf1|split; [exact Hww|split; [exact Hpb1|now left]]]|].
      split; [exact Htx1|]. split; [now exists k1|]. split; [now left|]. auto.
    - destruct (bridge_payload_general sdk_result m1 u1 w Hwf1 Hww Hpb1 He1 Hr1)
        as (m2 & u2 & w2 & Ep & Hwf2 & Hc2 & Htx2 & Hww2 & Hbuf & Hl2 & Hh2 & Hg2 & _
            & Hdone & Hmore).
      cbv zeta in Hc2, Hbuf, Hdone, Hmore.
      set (recv := Z.to_nat (pkt_received m1)) in *.
      set (n := Nat.min (length (rx_contents u1))
                        (Z.to_nat (pkt_expected m1 - pkt_received m1))) in *.
      rewrite Ep. cbn [mbind option_bind].
      eexists. split; [reflexivity|]. cbn [sys_uart sys_wifi sys_main].
      assert (Hlen2 : length (packet_buffer m2) = 256%nat).
      { rewrite Hbuf, !length_app, !length_take, length_drop.
        unfold MAX_PACKET_SIZE in He1. subst recv n. lia. }
      assert (Hcase : (recv + n = Z.to_nat (pkt_expected m1)
                       \/ recv + n < Z.to_nat (pkt_expected m1))%nat)
        by (subst recv n; lia).
      split.
      { unfold system_wf, bridge_wf. cbn [sys_uart sys_wifi sys_main].
        split; [exact Hwf2|]. split; [exact Hww2|]. split; [exact Hlen2|].
        destruct Hcase as [Hc|Hc].
        - left. now apply Hdone.
        - right. destruct (Hmore Hc) as (E1 & E2 & _). rewrite E1, E2.
          split; [exact He1|]. subst recv. lia. }
      split; [now apply same_tx_trans with u1|].
      split; [exists (k1 + n)%nat; now rewrite Hc2, Hk1, drop_drop|].
      split; [|rewrite Hl2, Hh2, Hg2; auto].
      destruct Hcase as [Hc|Hc].
      + right. destruct (Hdone Hc) as (E1 & _ & E3 & _).
        exists (packet_buffer m2), (pkt_expected m1). auto.
      + left. destruct (Hmore Hc) as (_ & _ & ->). reflexivity. }
  destruct (bridge_header_led m u) as (Hl & Hh & Hg & Hb).
  pose proof (bridge_header_same_tx m u) as Htx.
  destruct Hbw as (Hpb & Hst).
  destruct Hst as [Hidle|(He & Hr)].
  - destruct (rx_contents u) as [|b0 [|b1 rest]] eqn:Hc.
    + rewrite bridge_header_idle in * by (rewrite ?Hc; simpl; assumption || lia).
      apply Hpay; auto; [split; auto|exists 0%nat; now rewrite drop_0].
    + rewrite bridge_header_idle in * by (rewrite ?Hc; simpl; assumption || lia).
      apply Hpay; auto; [split; auto|exists 0%nat; now rewrite drop_0].
    + destruct (bridge_header_read m u b0 b1 rest Hwf Hidle Hc) as (u' & Eh & Hwf' & Hc').
      rewrite Eh in *. cbn [fst snd] in *.
      apply Hpay; auto.
      * split; [exact Hpb|]. cbn [pkt_expected pkt_received].
        destruct (validated_range b0 b1) as [Hv|(Hv & _)]; [now left|right; lia].
      * exists 2%nat. rewrite Hc'. reflexivity.
  - rewrite bridge_header_busy in * by lia.
    apply Hpay; auto; [split; auto|exists 0%nat; now rewrite drop_0].
Qed.

(** X16.  Whatever bytes arrive on the serial line, split and interleaved
    with ticks in whatever way, every tick completes: no store leaves
    [packet_buffer] or [tx_frame_buffer], the ring indices stay in range,
    and between ticks either no packet is in progress or
    [pkt_received < pkt_expected <= MAX_PACKET_SIZE]. *)
Theorem bridge_never_faults (sched : list bridge_event) (sys : system) :
  system_wf sys ->
  exists sys', bridge_run sched sys = Some sys' /\ system_wf sys'.
Proof.
  revert sys. induction sched as [|[fs ts ff ft|r] sched IH]; intros sys Hwf.
  - exists sys. auto.
  - cbn [bridge_run bridge_step mbind option_bind]. apply IH.
    destruct Hwf as (Hrx & Hww & Hbw). split; [|split; assumption].
    apply uart0_rx_intr_handler_fifo, Hrx.
  - destruct (main_timer_callback_general r sys Hwf) as (sys1 & E & Hwf1 & _).
    cbn [bridge_run bridge_step]. rewrite E. cbn [mbind option_bind]. now apply IH.
Qed.

Lemma system_boot_wf (mac : list Z) : length mac = 6%nat -> system_wf (system_boot mac).
Proof.
  intros Hm. split; [exact (proj1 uart_boot_wf)|]. split; [now apply wifi_boot_wf|].
  split; [apply length_replicate|now left].
Qed.

Lemma bridge_never_faults_witness :
  exists sys',
    bridge_run [Arrive true true [1; 0; 255; 255; 7] [300; 0; 0]; Tick 0; Tick (-1);
                Arrive false true [] [0; 1; 9]; Tick 0]
      (system_boot [2; 4; 6; 8; 10; 12]) = Some sys'
    /\ system_wf sys'.
Proof.
  apply bridge_never_faults, system_boot_wf. reflexivity.
Defined.



(** X18.  A tick that finds too little data changes nothing but the LED
    and heartbeat counters: waiting for a header with fewer than two bytes
    buffered, or in the middle of a packet with nothing buffered, it leaves
    the UART and wifi statics, [pkt_expected], [pkt_received] and the
    packet buffer as they are. *)
Theorem tick_without_data (sdk_result : Z) (sys : system) :
  system_wf sys ->
  (pkt_expected (sys_main sys) = 0 /\ (length (rx_contents (sys_uart sys)) < 2)%nat)
  \/ (pkt_expected (sys_main sys) <> 0 /\ rx_contents (sys_uart sys) = []) ->
  exists sys',
    main_timer_callback sdk_result sys = Some sys'
    /\ sys_uart sys' = sys_uart sys
    /\ sys_wifi sys' = sys_wifi sys
    /\ pkt_expected (sys_main sys') = pkt_expected (sys_main sys)
    /\ pkt_received (sys_main sys') = pkt_received (sys_main sys)
    /\ packet_buffer (sys_main sys') = packet_buffer (sys_main sys).
Proof.
  intros (Hwf & Hww & Hbw) Hcase.
  destruct (led_heartbeat_frame (sys_main sys)) as (He & Hr & Hb).
  apply led_heartbeat_wf in Hbw. unfold main_timer_callback.
  set (m := led_heartbeat (sys_main sys)) in *. clearbody m.
  destruct Hcase as [(Hidle & Hshort)|(Hbusy & Hnil)].
  - rewrite bridge_header_idle by assumption.
    rewrite bridge_payload_idle by congruence. cbn [mbind option_bind].
    eexists. split; [reflexivity|]. cbn [sys_uart sys_wifi sys_main]. auto.
  - rewrite bridge_header_busy by congruence.
    destruct Hbw as (Hpb & [Hz|(Hexp & Hrecv)]); [congruence|].
    destruct (bridge_payload_general sdk_result m (sys_uart sys) (sys_wifi sys)
                Hwf Hww Hpb Hexp Hrecv)
      as (m2 & u2 & w2 & Ep & _ & _ & _ & _ & _ & _ & _ & _ & Hsame & _).
    cbv zeta in Hsame. rewrite Hnil in Hsame.
    destruct (Hsame eq_refl) as (-> & -> & ->).
    rewrite Ep. cbn [mbind option_bind].
    eexists. split; [reflexivity|]. cbn [sys_uart sys_wifi sys_main]. auto.
Qed.

Lemma tick_without_data_witness :
  exists sys',
    main_timer_callback 0
      (mkSystem (uart0_rx_intr_handler true false [0] [] uart_boot)
                (wifi_boot [2; 4; 6; 8; 10; 12]) main_boot) = Some sys'
    /\ rx_contents (sys_uart sys') = [0]
    /\ pkt_expected (sys_main sys') = 0.
Proof.
  assert (Hc : rx_contents (uart0_rx_intr_handler true false [0] [] uart_boot) = [0]).
  { apply rx_contents_after_intr; [|simpl; lia].
    repeat constructor; unfold is_byte; lia. }
  destruct (tick_without_data 0
              (mkSystem (uart0_rx_intr_handler true false [0] [] uart_boot)
                        (wifi_boot [2; 4; 6; 8; 10; 12]) main_boot))
    as (sys' & E & Hu & _ & He & _).
  - split; [apply uart0_rx_intr_handler_fifo, uart_boot_wf|].
    split; [apply wifi_boot_wf; reflexivity|].
    split; [apply length_replicate|now left].
  - left. cbn [sys_main sys_uart]. rewrite Hc. split; [reflexivity|simpl; lia].
  - exists sys'. rewrite Hu, He. auto.
Defined.

(* ================================================================== *)
(** * Packets queued back to back                                       *)
(* ================================================================== *)

(** A tick that finds a whole packet at the head of the ring sends it and
    leaves what follows for the next tick. *)
Lemma tick_takes_packet (sdk_result : Z) (sys : system) (payload rest : list Z) :
  system_wf sys -> pkt_expected (sys_main sys) = 0 ->
  (1 <= length payload <= 256)%nat ->
  rx_contents (sys_uart sys) = length_prefixed payload ++ rest ->
  exists sys',
    main_timer_callback sdk_result sys = Some sys'
    /\ system_wf sys' /\ pkt_expected (sys_main sys') = 0
    /\ rx_contents (sys_uart sys') = rest
    /\ exists c,
         raw_send_calls (wifi_trace (sys_wifi sys'))
         = raw_send_calls (wifi_trace (sys_wifi sys)) ++ [c]
         /\ call_payload c = payload
         /\ exists pb res,
              c = (Some pb, Z.of_nat (length payload)) /\ length pb = 256%nat
              /\ wifi_raw_send (Some pb) (Z.of_nat (length payload)) sdk_result
                   (sys_wifi sys) = Some (res, sys_wifi sys').
Proof.
  intros (Hwf & Hww & Hbw) Hidle HL Hc.
  destruct (led_heartbeat_frame (sys_main sys)) as (He & _ & _).
  apply led_heartbeat_wf in Hbw. destruct Hbw as (Hpb & _).
  unfold main_timer_callback.
  set (m := led_heartbeat (sys_main sys)) in *. clearbody m.
  unfold length_prefixed in Hc. cbn [app] in Hc.
  destruct (bridge_header_read m (sys_uart sys) _ _ _ Hwf ltac:(congruence) Hc)
    as (u1 & Eh & Hwf1 & Hc1).
  rewrite (packet_validated payload HL) in Eh. rewrite Eh.
  set (m1 := mkMain _ _ _ _ _ _).
  destruct (bridge_payload_general sdk_result m1 u1 (sys_wifi sys) Hwf1 Hww)
    as (m2 & u2 & w2 & Ep & Hwf2 & Hc2 & _ & Hww2 & Hbuf & _ & _ & _ & _ & Hdone & _);
    [exact Hpb|unfold m1, MAX_PACKET_SIZE; cbn [pkt_expected]; lia
    |unfold m1; cbn [pkt_expected pkt_received]; lia|].
  cbv zeta in Hc2, Hbuf, Hdone. unfold m1 in Hc2, Hbuf, Hdone.
  cbn [pkt_expected pkt_received packet_buffer] in Hc2, Hbuf, Hdone.
  rewrite Hc1, Z.sub_0_r, Nat2Z.id, length_app in Hc2, Hbuf, Hdone.
  change (Z.to_nat 0) with 0%nat in Hbuf, Hdone. cbn [Nat.add] in Hbuf, Hdone.
  replace (Nat.min (length payload + length rest) (length payload))
    with (length payload) in Hc2, Hbuf, Hdone by lia.
  rewrite take_0, take_app_length in Hbuf. cbn [app] in Hbuf.
  rewrite drop_app_length in Hc2.
  destruct (Hdone eq_refl) as (E1 & E2 & E3 & res & E4).
  rewrite Ep. cbn [mbind option_bind].
  eexists. split; [reflexivity|]. cbn [sys_uart sys_wifi sys_main].
  assert (Hlen2 : length (packet_buffer m2) = 256%nat).
  { rewrite Hbuf, length_app, length_drop. lia. }
  split; [split; [exact Hwf2|split; [exact Hww2|split; [exact Hlen2|now left]]]|].
  split; [exact E1|]. split; [exact Hc2|].
  eexists. split; [exact E3|]. split.
  - unfold call_payload. cbn [fst snd]. rewrite Nat2Z.id, Hbuf. apply take_app_length.
  - exists (packet_buffer m2), res. auto.
Qed.

(** X19.  Packets queued back to back in the receive ring are sent one per
    tick, in order and unmodified: with the bridge waiting for a header and
    the ring holding the length-prefixed forms of [payloads] one after the
    other, as many ticks as there are packets produce exactly one
    [wifi_raw_send] call per packet, carrying the payloads in order, and
    leave whatever followed them in the ring. *)
Theorem back_to_back_packets (payloads : list (list Z)) (results : list Z)
    (rest : list Z) (sys : system) :
  system_wf sys -> pkt_expected (sys_main sys) = 0 ->
  Forall (fun p => (1 <= length p <= 256)%nat) payloads ->
  length results = length payloads ->
  rx_contents (sys_uart sys) = concat (map length_prefixed payloads) ++ rest ->
  exists sys',
    bridge_run (map Tick results) sys = Some sys'
    /\ map call_payload (raw_send_calls (wifi_trace (sys_wifi sys')))
       = map call_payload (raw_send_calls (wifi_trace (sys_wifi sys))) ++ payloads
    /\ rx_contents (sys_uart sys') = rest
    /\ pkt_expected (sys_main sys') = 0.
Proof.
  intros Hwf Hidle Hall. revert results sys Hwf Hidle.
  induction Hall as [|p ps Hp _ IH]; intros results sys Hwf Hidle Hlen Hc.
  - destruct results; [|discriminate Hlen]. exists sys. simpl.
    rewrite app_nil_r. auto.
  - destruct results as [|r results]; [discriminate Hlen|].
    cbn [map concat] in Hc. rewrite <- app_assoc in Hc.
    destruct (tick_takes_packet r sys p _ Hwf Hidle Hp Hc)
      as (sys1 & E & Hwf1 & Hidle1 & Hc1 & c & Hcalls & Hcp & _).
    destruct (IH results sys1 Hwf1 Hidle1 ltac:(simpl in Hlen; lia) Hc1)
      as (sys' & Erun & Hcalls' & Hrest & Hidle').
    exists sys'. cbn [map bridge_run bridge_step]. rewrite E. cbn [mbind option_bind].
    split; [exact Erun|]. split; [|auto].
    rewrite Hcalls', Hcalls, map_app. cbn [map]. rewrite Hcp, <- app_assoc. reflexivity.
Qed.

Lemma back_to_back_packets_witness :
  exists sys',
    bridge_run [Tick 0; Tick 0]
      (mkSystem (uart0_rx_intr_handler true false [0; 1; 5; 0; 2; 6; 7; 0] [] uart_boot)
                (wifi_boot [2; 4; 6; 8; 10; 12]) main_boot) = Some sys'
    /\ map call_payload (raw_send_calls (wifi_trace (sys_wifi sys'))) = [[5]; [6; 7]]
    /\ rx_contents (sys_uart sys') = [0].
Proof.
  assert (Hc : rx_contents (uart0_rx_intr_handler true false [0; 1; 5; 0; 2; 6; 7; 0] []
                              uart_boot)
               = [0; 1; 5; 0; 2; 6; 7; 0]).
  { apply rx_contents_after_intr; [|simpl; lia].
    repeat constructor; unfold is_byte; lia. }
  destruct (back_to_back_packets [[5]; [6; 7]] [0; 0] [0]
              (mkSystem (uart0_rx_intr_handler true false [0; 1; 5; 0; 2; 6; 7; 0] []
                           uart_boot)
                        (wifi_boot [2; 4; 6; 8; 10; 12]) main_boot))
    as (sys' & E & Hcalls & Hrest & _).
  - split; [apply uart0_rx_intr_handler_fifo, uart_boot_wf|].
    split; [apply wifi_boot_wf; reflexivity|].
    split; [apply length_replicate|now left].
  - reflexivity.
  - repeat constructor; simpl; lia.
  - reflexivity.
  - cbn [sys_uart]. rewrite Hc. reflexivity.
  - exists sys'. split; [exact E|]. split; [exact Hcalls|exact Hrest].
Defined.

(* ================================================================== *)
(** * Re-initialising the radio                                         *)
(* ================================================================== *)

(** X20.  [wifi_raw_init] zeroes the four counters and the sequence number
    but leaves [tx_ready] as it is.  So a transmission outstanding at
    re-initialisation keeps the driver busy: the next [wifi_raw_send] is
    refused with [-1], nothing reaches the SDK and the error counter reads 1.
    When the driver was free, the next frame goes out with sequence number
    0, fragment 0, and the sequence counter reads 1 afterwards. *)
Theorem wifi_raw_init_restart (data : list Z) (len sdk_result : Z) (w : wifi_state) :
  wifi_wf w -> 0 < len <= MAX_PACKET_SIZE -> len <= Z.of_nat (length data) ->
  let w0 := wifi_raw_init w in
  wifi_wf w0
  /\ (tx_ready w = 0 ->
      exists w',
        wifi_raw_send (Some data) len sdk_result w0 = Some (-1, w')
        /\ transmissions (wifi_trace w') = transmissions (wifi_trace w)
        /\ tx_error_count w' = 1 /\ tx_count w' = 0 /\ tx_ready w' = 0)
  /\ (tx_ready w <> 0 ->
      exists w' h,
        wifi_raw_send (Some data) len sdk_result w0 = Some (sdk_result, w')
        /\ transmissions (wifi_trace w')
           = transmissions (wifi_trace w)
             ++ [EvPktFreedom (hdr_bytes h ++ take (Z.to_nat len) data)
                   (IEEE80211_HEADER_SIZE + len) sdk_result]
        /\ seq_number h = 0 /\ frag_number h = 0 /\ addr2 h = sta_macaddr w
        /\ tx_sequence w' = 1).
Proof.
  intros Hwf Hlen Hdata. cbv zeta.
  assert (Hwf0 : wifi_wf (wifi_raw_init w)) by exact Hwf.
  split; [exact Hwf0|]. split.
  - intros Hbusy.
    destruct (wifi_raw_send_cases (Some data) len sdk_result (wifi_raw_init w) Hwf0)
      as (res & w' & E & _ & [(-> & _ & ->)|(d & fr & _ & _ & _ & Hr & _)]).
    + exists (incr_tx_error_count
                (log_event (EvRawSend (Some data) len) (wifi_raw_init w))).
      split; [exact E|].
      cbn [incr_tx_error_count log_event wifi_raw_init wifi_trace tx_error_count
           tx_count tx_ready].
      rewrite transmissions_app. cbn [transmissions List.filter is_transmission].
      rewrite app_nil_r. auto.
    + exfalso. apply Hr. exact Hbusy.
  - intros Hfree.
    destruct (wifi_raw_send_issue data len sdk_result (wifi_raw_init w) Hwf0 Hlen Hdata)
      as (w' & E & _ & Htr & _ & _ & _ & Hseq); [exact Hfree|].
    exists w', (build_80211_header (wifi_raw_init w)).1.
    split; [exact E|]. split; [exact Htr|].
    unfold seq_number, frag_number.
    cbn [build_80211_header fst seq_ctrl addr2 wifi_raw_init tx_sequence sta_macaddr].
    rewrite seq_ctrl_number, seq_ctrl_fragment.
    split; [reflexivity|]. split; [reflexivity|]. split; [reflexivity|].
    rewrite Hseq. reflexivity.
Qed.

Lemma wifi_raw_init_restart_witness :
  exists w',
    wifi_raw_send (Some [17; 34; 51]) 3 0
      (wifi_raw_init
         (mkWifi (replicate 280 0) 7 0 5 0 0 0 [2; 4; 6; 8; 10; 12] []))
    = Some (-1, w')
    /\ tx_error_count w' = 1.
Proof.
  destruct (wifi_raw_init_restart [17; 34; 51] 3 0
              (mkWifi (replicate 280 0) 7 0 5 0 0 0 [2; 4; 6; 8; 10; 12] []))
    as (_ & Hbusy & _).
  - split; [apply length_replicate|reflexivity].
  - unfold MAX_PACKET_SIZE. lia.
  - simpl. lia.
  - destruct (Hbusy eq_refl) as (w' & E & _ & He & _).
    exists w'. split; [exact E|exact He].
Defined.

(* ================================================================== *)
(** * From one serial line to the other                                 *)
(* ================================================================== *)



(* ================================================================== *)
(** * LED and heartbeat                                                 *)
(* ================================================================== *)

Lemma led_heartbeat_step (m : main_state) (k : Z) :
  0 <= k ->
  led_counter m = k mod 505 -> heartbeat_counter m = k mod 500 ->
  led_gpio m = (if 500 <=? k mod 505 then LED_ON else LED_OFF) ->
  led_counter (led_heartbeat m) = (k + 1) mod 505
  /\ heartbeat_counter (led_heartbeat m) = (k + 1) mod 500
  /\ led_gpio (led_heartbeat m) = (if 500 <=? (k + 1) mod 505 then LED_ON else LED_OFF).
Proof.
  intros Hk Hl Hh Hg. unfold led_heartbeat. rewrite Hl, Hh, Hg.
  pose proof (Z.mod_pos_bound k 505 ltac:(lia)) as B1.
  pose proof (Z.mod_pos_bound k 500 ltac:(lia)) as B2.
  assert (U1 : u32 (k mod 505 + 1) = k mod 505 + 1) by (unfold u32; apply Z.mod_small; lia).
  assert (U2 : u32 (k mod 500 + 1) = k mod 500 + 1) by (unfold u32; apply Z.mod_small; lia).
  rewrite U1, U2.
  assert (H505 : (k + 1) mod 505
                 = if k mod 505 + 1 =? 505 then 0 else k mod 505 + 1).
  { destruct (Z.eqb_spec (k mod 505 + 1) 505); zmod. }
  assert (H500 : (k + 1) mod 500
                 = if k mod 500 + 1 >=? 500 then 0 else k mod 500 + 1).
  { destruct (Z.geb_spec (k mod 500 + 1) 500); zmod. }
  rewrite H505, H500.
  destruct (Z.eqb_spec (k mod 505 + 1) 500) as [E1|E1].
  - destruct (Z.eqb_spec (k mod 505 + 1) 505); [lia|]. cbn [led_counter heartbeat_counter led_gpio].
    rewrite E1. repeat split.
  - destruct (Z.eqb_spec (k mod 505 + 1) 505) as [E2|E2];
      cbn [led_counter heartbeat_counter led_gpio]; [repeat split|].
    split; [reflexivity|]. split; [reflexivity|].
    destruct (Z.leb_spec 500 (k mod 505)); destruct (Z.leb_spec 500 (k mod 505 + 1));
      reflexivity || lia.
Qed.

(** X22.  The LED and heartbeat counters run on their own: after [n]
    ticks from zeroed counters and a dark LED, whatever the bridge did
    meanwhile, [led_counter] is [n mod 505], the LED is lit exactly while
    that is 500 or more (5 ticks out of every 505), and
    [heartbeat_counter] is [n mod 500]. *)
Theorem led_heartbeat_timing (sched : list bridge_event) (sys : system) :
  system_wf sys ->
  led_counter (sys_main sys) = 0 -> heartbeat_counter (sys_main sys) = 0 ->
  led_gpio (sys_main sys) = LED_OFF ->
  exists sys',
    bridge_run sched sys = Some sys'
    /\ led_counter (sys_main sys') = Z.of_nat (count_ticks sched) mod 505
    /\ heartbeat_counter (sys_main sys') = Z.of_nat (count_ticks sched) mod 500
    /\ led_gpio (sys_main sys')
       = (if 500 <=? Z.of_nat (count_ticks sched) mod 505 then LED_ON else LED_OFF).
Proof.
  intros Hwf Hl Hh Hg.
  assert (Hgen : forall sched sys k,
             system_wf sys -> 0 <= k ->
             led_counter (sys_main sys) = k mod 505 ->
             heartbeat_counter (sys_main sys) = k mod 500 ->
             led_gpio (sys_main sys) = (if 500 <=? k mod 505 then LED_ON else LED_OFF) ->
             exists sys',
               bridge_run sched sys = Some sys'
               /\ led_counter (sys_main sys') = (k + Z.of_nat (count_ticks sched)) mod 505
               /\ heartbeat_counter (sys_main sys')
                  = (k + Z.of_nat (count_ticks sched)) mod 500
               /\ led_gpio (sys_main sys')
                  = (if 500 <=? (k + Z.of_nat (count_ticks sched)) mod 505
                     then LED_ON else LED_OFF)).
  { clear. induction sched as [|[fs ts ff ft|r] sched IH]; intros sys k Hwf Hk Hl Hh Hg.
    - exists sys. cbn [count_ticks bridge_run]. rewrite Z.add_0_r. auto.
    - cbn [bridge_run bridge_step mbind option_bind count_ticks]. apply IH; auto.
      destruct Hwf as (Hrx & Hww & Hbw). split; [|split; assumption].
      apply uart0_rx_intr_handler_fifo, Hrx.
    - destruct (main_timer_callback_general r sys Hwf)
        as (sys1 & E & Hwf1 & _ & _ & _ & El & Eh & Eg).
      destruct (led_heartbeat_step (sys_main sys) k Hk Hl Hh Hg) as (Sl & Sh & Sg).
      rewrite Sl in El. rewrite Sh in Eh. rewrite Sg in Eg.
      destruct (IH sys1 (k + 1) Hwf1 ltac:(lia) El Eh Eg) as (sys' & Erun & Fl & Fh & Fg).
      exists sys'. cbn [bridge_run bridge_step count_ticks]. rewrite E.
      cbn [mbind option_bind]. rewrite Nat2Z.inj_succ.
      replace (k + Z.succ (Z.of_nat (count_ticks sched)))
        with (k + 1 + Z.of_nat (count_ticks sched)) by lia.
      auto. }
  apply (Hgen sched sys 0 Hwf ltac:(lia)); assumption.
Qed.

Lemma led_heartbeat_timing_witness :
  exists sys',
    bridge_run [Tick 0; Arrive true false [1] []; Tick 0; Tick 0]
      (system_boot [2; 4; 6; 8; 10; 12]) = Some sys'
    /\ led_counter (sys_main sys') = 3.
Proof.
  destruct (led_heartbeat_timing [Tick 0; Arrive true false [1] []; Tick 0; Tick 0]
              (system_boot [2; 4; 6; 8; 10; 12]))
    as (sys' & E & Hl & _).
  - apply system_boot_wf. reflexivity.
  - reflexivity.
  - reflexivity.
  - reflexivity.
  - exists sys'. split; [exact E|]. rewrite Hl. reflexivity.
Defined.
